(** * am-radiation-scripts: metrics, maps and fluxes

    A shallow embedding of [am_radiation_scripts/metrics.py], [maps.py],
    [fluxes.py], [clouds.py] and [aerosols.py] and of [report.py], and the
    properties of the derived-metric pipeline proved over it.

    Conventions of the embedding.
    - A numpy array is a shape together with its elements in row-major
      order.  The code is generic in a [Num] instance.  The algebraic
      results are proved at the instance of the real numbers, that is in
      exact arithmetic; [Num_float] is the instance of the binary64
      numbers that numpy computes with, and what rounding does to such a
      result is shown at that instance.
    - A Python exception is a value [Raise cls msg]; a call that can raise
      returns a [result].  Methods that assign to [self] are functions from
      the object to a [result] and the object after the call.
    - A netCDF variable is a record of its name, dimension names, string
      attributes and array.  Reading it ([v[...]]) gives its array.
    - The metrics that [add_metric] attaches to the object with [setattr]
      are kept in a map from names to metrics; the names given to
      [add_metric] are taken to be distinct from the names of the object's
      own attributes.  A name that is read with [getattr] and was not set
      is looked up among those attributes. *)

From Stdlib Require Import ZArith Reals Lra Lia Ascii String PrimFloat.
From stdpp Require Import list strings gmap.

Local Open Scope string_scope.
Local Open Scope nat_scope.

(** ** Exceptions *)

Record exn := Raise { exn_class : string; exn_msg : string }.

Definition ValueError (msg : string) : exn := Raise "ValueError" msg.
Definition KeyError (msg : string) : exn := Raise "KeyError" msg.
Definition IndexError (msg : string) : exn := Raise "IndexError" msg.
Definition AttributeError (msg : string) : exn := Raise "AttributeError" msg.
Definition TypeError (msg : string) : exn := Raise "TypeError" msg.
(** numpy's AxisError; it is raised outside every [try] block of the code. *)
Definition AxisError (msg : string) : exn := Raise "AxisError" msg.

Inductive result (T : Type) : Type :=
| OK (x : T)
| Error (e : exn).
Arguments OK {T} x.
Arguments Error {T} e.

Definition bind {T U : Type} (r : result T) (k : T -> result U) : result U :=
  match r with
  | OK x => k x
  | Error e => Error e
  end.

Notation "'do' x <- r ; k" := (bind r (fun x => k))
  (at level 10, x pattern, r at level 100, k at level 200).

Definition of_option {T : Type} (o : option T) (e : exn) : result T :=
  match o with
  | Some x => OK x
  | None => Error e
  end.

(** ** Numbers *)

(** What the arrays need from their element type.  [of_Z] converts the
    integer literals and element counts of the code. *)
Class Num (A : Type) := {
  nzero : A;
  nadd : A -> A -> A;
  nsub : A -> A -> A;
  nmul : A -> A -> A;
  ndiv : A -> A -> A;
  of_Z : Z -> A;
  npi : A;
  ncos : A -> A
}.

#[export] Instance Num_R : Num R := {|
  nzero := 0%R;
  nadd := Rplus;
  nsub := Rminus;
  nmul := Rmult;
  ndiv := Rdiv;
  of_Z := IZR;
  npi := PI;
  ncos := cos
|}.




(** ** Python lists and strings *)

(** [l.index(x)]: position of the first occurrence. *)
Fixpoint list_index (x : string) (l : list string) : option nat :=
  match l with
  | [] => None
  | y :: l' => if String.eqb y x then Some 0 else S <$> list_index x l'
  end.

(** [l.remove(x)]: drops the first occurrence. *)
Fixpoint list_remove (x : string) (l : list string) : option (list string) :=
  match l with
  | [] => None
  | y :: l' => if String.eqb y x then Some l' else cons y <$> list_remove x l'
  end.

Definition index_py (x : string) (l : list string) : result nat :=
  of_option (list_index x l) (ValueError "x is not in list").

Definition remove_py (x : string) (l : list string) : result (list string) :=
  of_option (list_remove x l) (ValueError "list.remove(x): x not in list").

(** An index as Python reads it: a negative one counts from the end. *)
Definition norm_index (i : Z) (n : nat) : option nat :=
  let j := if (i <? 0)%Z then (i + Z.of_nat n)%Z else i in
  if ((0 <=? j) && (j <? Z.of_nat n))%Z then Some (Z.to_nat j) else None.

(** [s.lower()] on the ASCII letters. *)
Definition lower_ascii (c : ascii) : ascii :=
  let n := nat_of_ascii c in
  if (Nat.leb 65 n && Nat.leb n 90)%nat then ascii_of_nat (n + 32)%nat else c.

Fixpoint lower (s : string) : string :=
  match s with
  | EmptyString => EmptyString
  | String c s' => String (lower_ascii c) (lower s')
  end.

(** [s.replace(a, b)] for one-character [a] and [b]. *)
Fixpoint replace_char (a b : ascii) (s : string) : string :=
  match s with
  | EmptyString => EmptyString
  | String c s' => String (if Ascii.eqb c a then b else c) (replace_char a b s')
  end.

(** ** Arrays *)

Record ndarray (A : Type) := NDArray { shape : list nat; elems : list A }.
Arguments NDArray {A} shape elems.
Arguments shape {A} n.
Arguments elems {A} n.

Definition prod (s : list nat) : nat := foldr Nat.mul 1 s.

Definition ndim {A} (a : ndarray A) : nat := length (shape a).

(** The element list has one entry per index. *)
Definition wf {A} (a : ndarray A) : Prop := length (elems a) = prod (shape a).

(** [chunks m n l]: the first [m] consecutive blocks of [n] elements. *)
Fixpoint chunks {A} (m n : nat) (l : list A) : list (list A) :=
  match m with
  | 0 => []
  | S m' => take n l :: chunks m' n (drop n l)
  end.

(** Row-major offset of a multi-index. *)
Fixpoint offset (s idx : list nat) : nat :=
  match s, idx with
  | _ :: s', i :: idx' => i * prod s' + offset s' idx'
  | _, _ => 0
  end.

Definition valid_index (s idx : list nat) : Prop := Forall2 lt idx s.

Definition insert_at (k t : nat) (idx : list nat) : list nat :=
  take k idx ++ t :: drop k idx.

Section Arrays.
Context {A : Type} `{Num A}.

Definition get (a : ndarray A) (idx : list nat) : A :=
  nth (offset (shape a) idx) (elems a) nzero.

Definition full (s : list nat) (c : A) : ndarray A :=
  NDArray s (replicate (prod s) c).

Definition map_arr (f : A -> A) (a : ndarray A) : ndarray A :=
  NDArray (shape a) (map f (elems a)).

(** [sum(a)] over all the elements. *)
Definition nsum (l : list A) : A := foldr nadd nzero l.

(** Sum of [rows] position by position, each of length [inner]. *)
Definition colsum (inner : nat) (rows : list (list A)) : list A :=
  foldr (zip_with nadd) (replicate inner nzero) rows.

(** An array seen along axis [k] is [outer] blocks of [n] slabs of
    [inner] elements; [f n inner] rewrites each block, and axis [k]
    leaves the shape. *)
Definition reduce_axis (k : nat) (f : nat -> nat -> list A -> list A)
    (a : ndarray A) : ndarray A :=
  let s := shape a in
  let outer := prod (take k s) in
  let n := nth k s 0 in
  let inner := prod (drop (S k) s) in
  NDArray (delete k s)
          (concat (map (f n inner) (chunks outer (n * inner) (elems a)))).

Definition sum_block (n inner : nat) (blk : list A) : list A :=
  colsum inner (chunks n inner blk).

Definition mean_block (n inner : nat) (blk : list A) : list A :=
  map (fun x => ndiv x (of_Z (Z.of_nat n))) (sum_block n inner blk).

Definition pick_block (j : nat) (n inner : nat) (blk : list A) : list A :=
  take inner (drop (j * inner) blk).

Definition norm_axis (axis : Z) (a : ndarray A) : result nat :=
  of_option (norm_index axis (ndim a)) (AxisError "axis is out of bounds").

(** [numpy.sum(a, axis=axis)] *)
Definition sum_axis (axis : Z) (a : ndarray A) : result (ndarray A) :=
  do k <- norm_axis axis a;
  OK (reduce_axis k sum_block a).

(** [numpy.mean(a, axis=axis)] *)
Definition mean_axis (axis : Z) (a : ndarray A) : result (ndarray A) :=
  do k <- norm_axis axis a;
  OK (reduce_axis k mean_block a).

(** [a[:, ..., i, ...]] with the integer [i] at axis [k]. *)
Definition index_axis (k : nat) (i : Z) (a : ndarray A) : result (ndarray A) :=
  do n <- of_option (shape a !! k) (IndexError "too many indices for array");
  do j <- of_option (norm_index i n) (IndexError "index is out of bounds");
  OK (reduce_axis k (pick_block j) a).

(** *** Broadcasting *)

(** numpy aligns two shapes on their last axes: the shorter one is
    completed with axes of length 1 in front. *)
Definition pad (r : nat) (s : list nat) : list nat :=
  replicate (r - length s) 1 ++ s.

(** Two lengths are compatible when they are equal or one of them is 1. *)
Definition bdim (n1 n2 : nat) : option nat :=
  if n1 =? n2 then Some n1
  else if n1 =? 1 then Some n2
  else if n2 =? 1 then Some n1
  else None.

(** The shape of the result, for two shapes of one rank. *)
Fixpoint bshape (s1 s2 : list nat) : option (list nat) :=
  match s1, s2 with
  | [], [] => Some []
  | n1 :: r1, n2 :: r2 =>
      match bdim n1 n2, bshape r1 r2 with
      | Some n, Some r => Some (n :: r)
      | _, _ => None
      end
  | _, _ => None
  end.

(** The elements of the result, axis by axis from the first: blocks are
    paired when the lengths agree, and the single block of an axis of
    length 1 is paired with every block of the other operand. *)
Fixpoint bcast (f : A -> A -> A) (s1 s2 : list nat) (d1 d2 : list A) : list A :=
  match s1, s2 with
  | n1 :: r1, n2 :: r2 =>
      let c1 := chunks n1 (prod r1) d1 in
      let c2 := chunks n2 (prod r2) d2 in
      if n1 =? n2 then concat (zip_with (bcast f r1 r2) c1 c2)
      else if n1 =? 1 then concat (map (bcast f r1 r2 d1) c2)
      else concat (map (fun x => bcast f r1 r2 x d2) c1)
  | _, _ => zip_with f d1 d2
  end.

(** [a op b] on arrays. *)
Definition broadcast2 (f : A -> A -> A) (a b : ndarray A) : result (ndarray A) :=
  let r := ndim a `max` ndim b in
  let s1 := pad r (shape a) in
  let s2 := pad r (shape b) in
  do s <- of_option (bshape s1 s2)
            (ValueError "operands could not be broadcast together");
  OK (NDArray s (bcast f s1 s2 (elems a) (elems b))).

(** [a[...] op= b]: the result must keep the shape of [a]. *)
Definition inplace2 (f : A -> A -> A) (a b : ndarray A) : result (ndarray A) :=
  do c <- broadcast2 f a b;
  if decide (shape c = shape a) then OK c
  else Error (ValueError "non-broadcastable output operand").

End Arrays.

(** ** The dataset (netCDF4) *)

Record NcVariable (A : Type) := {
  var_name : string;
  var_dimensions : list string;
  var_attrs : gmap string string;
  var_data : ndarray A
}.
Arguments Build_NcVariable {A} var_name var_dimensions var_attrs var_data.
Arguments var_name {A} n.
Arguments var_dimensions {A} n.
Arguments var_attrs {A} n.
Arguments var_data {A} n.

(** [dataset.variables] keeps the order of the file; [ds_dimensions] holds
    the names in the mapping [dataset.dimensions]. *)
Record Dataset (A : Type) := {
  ds_dimensions : list string;
  variables : list (string * NcVariable A)
}.
Arguments Build_Dataset {A} ds_dimensions variables.
Arguments ds_dimensions {A} d.
Arguments variables {A} d.

(** ** metrics.py: DerivedMetric *)

Record DerivedMetric (A : Type) := {
  data : ndarray A;
  dimensions : list string;
  units : string
}.
Arguments Build_DerivedMetric {A} data dimensions units.
Arguments data {A} d.
Arguments dimensions {A} d.
Arguments units {A} d.

(** ** maps.py: what the renderer is handed *)

Record LonLatMap (A : Type) := {
  llm_data : ndarray A;
  llm_x_data : ndarray A;
  llm_y_data : ndarray A;
  llm_coastlines : bool;
  llm_xlabel : string;
  llm_ylabel : string;
  llm_data_label : string
}.
Arguments Build_LonLatMap {A}.
Arguments llm_data {A} l.
Arguments llm_x_data {A} l.
Arguments llm_y_data {A} l.
Arguments llm_coastlines {A} l.
Arguments llm_xlabel {A} l.
Arguments llm_ylabel {A} l.
Arguments llm_data_label {A} l.

Record ZonalMeanMap (A : Type) := {
  zmm_data : ndarray A;
  zmm_x_data : ndarray A;
  zmm_y_data : ndarray A;
  zmm_invert_y_axis : bool;
  zmm_xlabel : string;
  zmm_ylabel : string;
  zmm_data_label : string
}.
Arguments Build_ZonalMeanMap {A}.
Arguments zmm_data {A} z.
Arguments zmm_invert_y_axis {A} z.

Record GlobalMeanVerticalPlot (A : Type) := {
  gmp_x_data : ndarray A;
  gmp_xlabel : string;
  gmp_data : ndarray A;
  gmp_ylabel : string;
  gmp_invert_y_axis : bool
}.
Arguments Build_GlobalMeanVerticalPlot {A}.

Inductive plot (A : Type) : Type :=
| PlotLonLat (m : LonLatMap A)
| PlotZonalMean (m : ZonalMeanMap A)
| PlotGlobalMeanVertical (p : GlobalMeanVerticalPlot A).
Arguments PlotLonLat {A} m.
Arguments PlotZonalMean {A} m.
Arguments PlotGlobalMeanVertical {A} p.

(** ** metrics.py: MetricsDataset, and fluxes.py: Fluxes *)

Record MetricsDataset (A : Type) := {
  dataset : Dataset A;
  time : NcVariable A;
  longitude : NcVariable A;
  latitude : NcVariable A;
  vertical : list (NcVariable A);
  metrics : gmap string (DerivedMetric A)
}.
Arguments Build_MetricsDataset {A} dataset time longitude latitude vertical metrics.
Arguments dataset {A} m.
Arguments time {A} m.
Arguments longitude {A} m.
Arguments latitude {A} m.
Arguments vertical {A} m.
Arguments metrics {A} m.

Record Fluxes (A : Type) := {
  base : MetricsDataset A;
  toa : Z;
  surface : Z
}.
Arguments Build_Fluxes {A} base toa surface.
Arguments base {A} f.
Arguments toa {A} f.
Arguments surface {A} f.

(** What [add_metric] accepts as its [variable]. *)
Inductive source (A : Type) : Type :=
| SrcName (name : string)
| SrcVariable (v : NcVariable A)
| SrcMetric (m : DerivedMetric A).
Arguments SrcName {A} name.
Arguments SrcVariable {A} v.
Arguments SrcMetric {A} m.

Record Case := { case_data : string; case_baseline : option string; case_title : string }.

Definition case_list : list Case :=
  [ {| case_data := "clean-clear"; case_baseline := None; case_title := "Clean-clear Sky" |};
    {| case_data := "clean"; case_baseline := Some "clean-clear"; case_title := "Cloud Effects" |};
    {| case_data := "all"; case_baseline := Some "clean"; case_title := "Aerosol Effects" |};
    {| case_data := "all"; case_baseline := None; case_title := "All Sky" |} ].

(** [d[key] = value] on an OrderedDict: a new key goes last. *)
Fixpoint odict_set {V : Type} (key : string) (value : V) (d : list (string * V))
    : list (string * V) :=
  match d with
  | [] => [(key, value)]
  | (k, v) :: d' =>
      if String.eqb k key then (k, value) :: d' else (k, v) :: odict_set key value d'
  end.

(** [try: ... except ValueError: handler] *)
Definition except_ValueError {T : Type} (r handler : result T) : result T :=
  match r with
  | OK x => OK x
  | Error e => if String.eqb (exn_class e) "ValueError" then handler else Error e
  end.

Section Program.
Context {A : Type} `{Num A}.

(** *** maps.py *)

Definition zonal_mean (d : ndarray A) : result (ndarray A) := mean_axis (-1) d.

(** [cos(2.*pi*latitude/360.)] *)
Definition weights_of (latitude : ndarray A) : ndarray A :=
  map_arr (fun l => ncos (ndiv (nmul (nmul (of_Z 2) npi) l) (of_Z 360))) latitude.

(** [sum(zonal_mean(data)*weights, axis=-1)/sum(weights)] *)
Definition global_mean (d latitude : ndarray A) : result (ndarray A) :=
  let weights := weights_of latitude in
  do zm <- zonal_mean d;
  do p <- broadcast2 nmul zm weights;
  do s <- sum_axis (-1) p;
  OK (map_arr (fun x => ndiv x (nsum (elems weights))) s).

(** Modelled from the spec: cartopy's [add_cyclic], which is not part of
    the repository.  The field gets a wrap-around column that repeats
    its first column, and the longitude coordinate is extended by the
    point 360 degrees after its first one. *)
Definition add_cyclic (d x y : ndarray A)
    : result (ndarray A * ndarray A * ndarray A) :=
  do n <- of_option (last (shape d)) (ValueError "data has no axis");
  do x0 <- of_option (head (elems x)) (IndexError "index 0 is out of bounds");
  if n =? 0 then Error (IndexError "index 0 is out of bounds")
  else
    let lead := removelast (shape d) in
    OK (NDArray (lead ++ [S n])%list
                (concat (map (fun row => (row ++ take 1 row)%list)
                             (chunks (prod lead) n (elems d)))),
        NDArray [S (length (elems x))] (elems x ++ [nadd x0 (of_Z 360)])%list,
        y).

Definition LonLatMap_init (d : DerivedMetric A) (lon lat : NcVariable A)
    : result (LonLatMap A) :=
  do r <- add_cyclic (data d) (var_data lon) (var_data lat);
  OK {| llm_data := r.1.1; llm_x_data := r.1.2; llm_y_data := r.2;
        llm_coastlines := true; llm_xlabel := "Longitude";
        llm_ylabel := "Latitude"; llm_data_label := units d |}.

(** *** metrics.py *)

Definition getncattr (v : NcVariable A) (name : string) : result string :=
  of_option (var_attrs v !! name) (AttributeError name).

Definition lookup_variable (ds : Dataset A) (name : string) : result (NcVariable A) :=
  of_option (snd <$> List.find (fun p => String.eqb (fst p) name) (variables ds))
            (KeyError name).

Definition is_axis (axis : string) (value : NcVariable A) : bool :=
  (length (var_dimensions value) =? 1) &&
  match var_attrs value !! "axis" with
  | Some a => String.eqb (lower a) (lower axis)
  | None => false
  end.

Definition grid (ds : Dataset A) (axis : string) : result (list (NcVariable A)) :=
  let dims := List.filter (is_axis axis) (map snd (variables ds)) in
  if length dims =? 0 then Error (ValueError "no grid variables found.")
  else OK dims.

Definition item0 {T : Type} (l : list T) : result T :=
  of_option (head l) (IndexError "list index out of range").

Definition MetricsDataset_init (ds : Dataset A) : result (MetricsDataset A) :=
  do t <- bind (grid ds "t") item0;
  do x <- bind (grid ds "x") item0;
  do y <- bind (grid ds "y") item0;
  do z <- except_ValueError (grid ds "z") (OK []);
  OK (Build_MetricsDataset ds t x y z ∅).

Definition resolve (self : MetricsDataset A) (variable : source A)
    : result (NcVariable A + DerivedMetric A) :=
  match variable with
  | SrcName name => do v <- lookup_variable (dataset self) name; OK (inl v)
  | SrcVariable v => OK (inl v)
  | SrcMetric m => OK (inr m)
  end.

Definition src_dimensions (d : NcVariable A + DerivedMetric A) : list string :=
  match d with inl v => var_dimensions v | inr m => dimensions m end.

Definition src_units (d : NcVariable A + DerivedMetric A) : result string :=
  match d with inl v => getncattr v "units" | inr m => OK (units m) end.

Definition src_array (d : NcVariable A + DerivedMetric A) : ndarray A :=
  match d with inl v => var_data v | inr m => data m end.

(** The metric that [add_metric] builds before it assigns it.  With
    "time series" the code hands [global_mean] the latitude variable
    itself and not its array: [2.*pi*latitude] multiplies a float by a
    netCDF variable, which has no arithmetic, and raises TypeError before
    anything is computed. *)
Definition reduce_time (self : MetricsDataset A) (variable : source A)
    (time_method : string) (time_index : Z) : result (DerivedMetric A) :=
  do d <- resolve self variable;
  let dims := src_dimensions d in
  do u <- src_units d;
  if String.eqb time_method "average" then
    do k <- index_py (var_name (time self)) dims;
    do d' <- mean_axis (Z.of_nat k) (src_array d);
    do dims' <- remove_py (var_name (time self)) dims;
    OK (Build_DerivedMetric d' dims' u)
  else if String.eqb time_method "instantaneous" then
    do k <- index_py (var_name (time self)) dims;
    if negb (k =? 0) then
      Error (ValueError "time must be the slowest varying dimension.")
    else
      do d' <- index_axis 0 time_index (src_array d);
      do dims' <- remove_py (var_name (time self)) dims;
      OK (Build_DerivedMetric d' dims' u)
  else if String.eqb time_method "time series" then
    Error (TypeError
             "unsupported operand type(s) for *: 'float' and 'netCDF4._netCDF4.Variable'")
  else Error (ValueError "A valid time_method must be specified.").

Definition set_metric (self : MetricsDataset A) (name : string)
    (m : DerivedMetric A) : MetricsDataset A :=
  Build_MetricsDataset (dataset self) (time self) (longitude self)
    (latitude self) (vertical self) (<[name := m]> (metrics self)).

Definition add_metric (metric_name : string) (variable : source A)
    (time_method : string) (time_index : Z) (self : MetricsDataset A)
    : result unit * MetricsDataset A :=
  match reduce_time self variable time_method time_index with
  | OK m => (OK tt, set_metric self metric_name m)
  | Error e => (Error e, self)
  end.

(** What [getattr(self, name)] hands to the map methods, which read its
    [dimensions] first.  A metric that [add_metric] has set is found
    under its name; "time", "longitude" and "latitude" are the grid
    variables, and "dataset" is the file, whose [dimensions] is a mapping
    and no tuple.  The other attributes of the object (the list
    [vertical], the methods, and [toa], [surface], [regimes] and [sky] of
    [Fluxes]) have no [dimensions]: reading it raises AttributeError, as
    [getattr] does on a name that the object does not have. *)
Inductive attribute : Type :=
| AttrArray (d : NcVariable A + DerivedMetric A)
| AttrDataset (ds : Dataset A).

Definition get_metric (self : MetricsDataset A) (name : string)
    : result attribute :=
  match metrics self !! name with
  | Some m => OK (AttrArray (inr m))
  | None =>
      if String.eqb name "time" then OK (AttrArray (inl (time self)))
      else if String.eqb name "longitude" then OK (AttrArray (inl (longitude self)))
      else if String.eqb name "latitude" then OK (AttrArray (inl (latitude self)))
      else if String.eqb name "dataset" then OK (AttrDataset (dataset self))
      else Error (AttributeError name)
  end.

Definition find_vertical (self : MetricsDataset A) (name : string)
    : result (NcVariable A) :=
  of_option (List.find (fun dim => String.eqb name (var_name dim)) (vertical self))
            (ValueError "Could not find the vertical dimension.").

Definition is_vertical (self : MetricsDataset A) (name : string) : result bool :=
  except_ValueError (do _ <- find_vertical self name; OK true) (OK false).

Definition dims_eqb (l1 l2 : list string) : bool := bool_decide (l1 = l2).

(** [LonLatMap(data, longitude, latitude)] on what [getattr] gave; a
    netCDF variable need not carry the "units" that the constructor reads
    last. *)
Definition LonLatMap_of (d : NcVariable A + DerivedMetric A)
    (lon lat : NcVariable A) : result (LonLatMap A) :=
  match d with
  | inr m => LonLatMap_init m lon lat
  | inl v =>
      do r <- add_cyclic (var_data v) (var_data lon) (var_data lat);
      do u <- getncattr v "units";
      OK {| llm_data := r.1.1; llm_x_data := r.1.2; llm_y_data := r.2;
            llm_coastlines := true; llm_xlabel := "Longitude";
            llm_ylabel := "Latitude"; llm_data_label := u |}
  end.

Definition lon_lat_map (self : MetricsDataset A) (name : string)
    : result (LonLatMap A) :=
  do metric <- get_metric self name;
  match metric with
  | AttrDataset _ =>
      (* a mapping differs from every tuple *)
      Error (ValueError "Invalid dimensions for a lon-lat map.")
  | AttrArray d =>
      if negb (dims_eqb (src_dimensions d)
                        [var_name (latitude self); var_name (longitude self)]) then
        Error (ValueError "Invalid dimensions for a lon-lat map.")
      else
        (* the second [getattr(self, name)] gives the same object *)
        LonLatMap_of d (longitude self) (latitude self)
  end.

(** [metric.dimensions[-2:]] *)
Definition last2 (l : list string) : list string := drop (length l - 2) l.

(** [len(dimensions) == 3 and dimensions[-2:] == (latitude, longitude)] on
    a tuple of names *)
Definition zonal_map_shape (self : MetricsDataset A) (dims : list string) : bool :=
  (length dims =? 3) &&
  dims_eqb (last2 dims) [var_name (latitude self); var_name (longitude self)].

(** The same test on the mapping of the dimensions of the file: with
    three dimensions the slice [[-2:]] is used as a key of the mapping,
    which raises (TypeError, the slice cannot be hashed; KeyError from
    Python 3.12 on), and with any other number the test is false. *)
Definition mapping_shape (ds : Dataset A) (otherwise : exn) : exn :=
  if length (ds_dimensions ds) =? 3 then TypeError "unhashable type: 'slice'"
  else otherwise.

Definition zonal_mean_map (self : MetricsDataset A) (name : string)
    : result (ZonalMeanMap A) :=
  do metric <- get_metric self name;
  match metric with
  | AttrDataset ds =>
      Error (mapping_shape ds (ValueError "Invalid dimensions for a zonal-mean map."))
  | AttrArray metric =>
      if zonal_map_shape self (src_dimensions metric) then
        do d0 <- item0 (src_dimensions metric);
        do y <- find_vertical self d0;
        do ylabel <- getncattr y "units";
        do positive <- getncattr y "positive";
        do zm <- zonal_mean (src_array metric);
        do ylabel' <- getncattr y "units";
        do data_label <- src_units metric;
        OK {| zmm_data := zm; zmm_x_data := var_data (latitude self);
              zmm_y_data := var_data y;
              zmm_invert_y_axis := String.eqb (lower positive) "down";
              zmm_xlabel := "Latitude"; zmm_ylabel := ylabel';
              zmm_data_label := data_label |}
      else Error (ValueError "Invalid dimensions for a zonal-mean map.")
  end.

Definition global_mean_vertical_plot (self : MetricsDataset A) (name : string)
    : result (GlobalMeanVerticalPlot A) :=
  do metric <- get_metric self name;
  match metric with
  | AttrDataset ds =>
      Error (mapping_shape ds (ValueError "Invalid dimensions for a global mean line plot."))
  | AttrArray metric =>
      if zonal_map_shape self (src_dimensions metric) then
        do d0 <- item0 (src_dimensions metric);
        do y <- find_vertical self d0;
        do ylabel <- getncattr y "units";
        (* [metric.data[...]]: on a netCDF variable [data] can only be an
           attribute of the file, a string *)
        do d <- match metric with
                | inr m => OK (data m)
                | inl v =>
                    do _ <- getncattr v "data";
                    Error (TypeError "string indices must be integers")
                end;
        do gm <- global_mean d (var_data (latitude self));
        do xlabel <- src_units metric;
        (* LinePlot(y, units of y, gm, units of the metric), then the swap *)
        OK {| gmp_x_data := gm; gmp_xlabel := xlabel;
              gmp_data := var_data y; gmp_ylabel := ylabel;
              gmp_invert_y_axis := true |}
      else Error (ValueError "Invalid dimensions for a global mean line plot.")
  end.

End Program.

(** ** fluxes.py *)

Definition regimes (regime : string) : result string :=
  if String.eqb regime "longwave" then OK "l"
  else if String.eqb regime "shortwave" then OK "s"
  else Error (KeyError regime).

Definition sky (conditions : string) : result string :=
  if String.eqb conditions "all" then OK ""
  else if String.eqb conditions "clean" then OK "af"
  else if String.eqb conditions "clean-clear" then OK "csaf"
  else if String.eqb conditions "clear" then OK "cs"
  else Error (KeyError conditions).

Definition directions (direction : string) : result string :=
  if String.eqb direction "down" then OK "d"
  else if String.eqb direction "up" then OK "u"
  else Error (KeyError direction).

Section FluxesProgram.
Context {A : Type} `{Num A}.

Definition Fluxes_init (ds : Dataset A) : result (Fluxes A) :=
  do self <- MetricsDataset_init ds;
  do v0 <- item0 (vertical self);
  do positive <- getncattr v0 "positive";
  if String.eqb (lower positive) "down" then OK (Build_Fluxes self 0 (-1))
  else OK (Build_Fluxes self (-1) 0).

(** [getattr(self, location)], for the two locations the object defines. *)
Definition location_index (self : Fluxes A) (location : string) : result Z :=
  if String.eqb location "toa" then OK (toa self)
  else if String.eqb location "surface" then OK (surface self)
  else Error (AttributeError location).

Definition flux (self : Fluxes A) (regime direction conditions : string)
    (location : option string) : result (DerivedMetric A) :=
  do r <- regimes regime;
  do d <- directions direction;
  do s <- sky conditions;
  do var <- lookup_variable (dataset (base self)) ("r" ++ r ++ d ++ s);
  match location with
  | None =>
      do u <- getncattr var "units";
      OK (Build_DerivedMetric (var_data var) (var_dimensions var) u)
  | Some loc =>
      let dims := var_dimensions var in
      do d1 <- of_option (dims !! 1) (IndexError "list index out of range");
      do v <- is_vertical (base self) d1;
      if negb v then
        Error (ValueError "The second slowest dimension must be a vertical dimension.")
      else
        do i <- location_index self loc;
        do d' <- index_axis 1 i (var_data var);
        do dims' <- remove_py d1 dims;
        do u <- getncattr var "units";
        OK (Build_DerivedMetric d' dims' u)
  end.

Definition flux_down (self : Fluxes A) (regime conditions : string)
    (location : option string) : result (DerivedMetric A) :=
  flux self regime "down" conditions location.

Definition flux_up (self : Fluxes A) (regime conditions : string)
    (location : option string) : result (DerivedMetric A) :=
  flux self regime "up" conditions location.

Definition toa_energy_balance (self : Fluxes A) (regime conditions : string)
    : result (DerivedMetric A) :=
  do up <- flux_up self regime conditions (Some "toa");
  do down <- flux_down self regime conditions (Some "toa");
  do d <- broadcast2 nsub (data down) (data up);
  OK (Build_DerivedMetric d (dimensions up) (units up)).

Definition atmospheric_divergence (self : Fluxes A) (regime conditions : string)
    : result (DerivedMetric A) :=
  do surface_down <- flux_down self regime conditions (Some "surface");
  do surface_up <- flux_up self regime conditions (Some "surface");
  do toa_down <- flux_down self regime conditions (Some "toa");
  do toa_up <- flux_up self regime conditions (Some "toa");
  do gain <- broadcast2 nadd (data toa_down) (data surface_up);
  do loss <- broadcast2 nadd (data toa_up) (data surface_down);
  do d <- broadcast2 nsub gain loss;
  OK (Build_DerivedMetric d (dimensions toa_up) (units toa_up)).

Definition heating_factor (u : string) : string * Z :=
  if String.eqb u "K s-1" then ("K day-1", 34 * 3600)%Z else (u, 1%Z).

Definition heating_rate (self : Fluxes A) (regime conditions : string)
    : result (DerivedMetric A) :=
  do r <- regimes regime;
  do s <- sky conditions;
  do heating <- lookup_variable (dataset (base self)) ("tntr" ++ r ++ s);
  do u <- getncattr heating "units";
  let '(u', factor) := heating_factor u in
  OK (Build_DerivedMetric (map_arr (fun x => nmul x (of_Z factor)) (var_data heating))
                          (var_dimensions heating) u').

(** [getattr(fluxes, metric)] applied to [args]: the regime, the sky
    label and, when it is not [None], the location.  The derivation
    methods of the class are the names it resolves. *)
Definition call_metric (self : Fluxes A) (metric regime label : string)
    (location : option string) : result (DerivedMetric A) :=
  if String.eqb metric "flux_up" then flux_up self regime label location
  else if String.eqb metric "flux_down" then flux_down self regime label location
  else if String.eqb metric "flux" then
    match location with
    | Some loc => flux self regime label loc None
    | None => Error (TypeError "flux() missing 1 required positional argument")
    end
  else
    match location with
    | Some _ => Error (TypeError "takes 3 positional arguments but 4 were given")
    | None =>
        if String.eqb metric "toa_energy_balance" then
          toa_energy_balance self regime label
        else if String.eqb metric "atmospheric_divergence" then
          atmospheric_divergence self regime label
        else if String.eqb metric "heating_rate" then
          heating_rate self regime label
        else Error (AttributeError metric)
    end.

(** [getattr(fluxes, map_method)(name)] *)
Definition call_map (self : Fluxes A) (map_method name : string) : result (plot A) :=
  if String.eqb map_method "lon_lat_map" then
    do m <- lon_lat_map (base self) name; OK (PlotLonLat m)
  else if String.eqb map_method "zonal_mean_map" then
    do m <- zonal_mean_map (base self) name; OK (PlotZonalMean m)
  else if String.eqb map_method "global_mean_vertical_plot" then
    do p <- global_mean_vertical_plot (base self) name; OK (PlotGlobalMeanVertical p)
  else Error (AttributeError map_method).

Definition with_base (self : Fluxes A) (b : MetricsDataset A) : Fluxes A :=
  Build_Fluxes b (toa self) (surface self).

(** The metric of one case: the method at the case's data label, less,
    in place, the method at its baseline label.  Every call of a method
    reads the file anew, so the subtraction touches no other metric. *)
Definition case_metric (self : Fluxes A) (metric regime : string)
    (location : option string) (case : Case) : result (DerivedMetric A) :=
  do derived_metric <- call_metric self metric regime (case_data case) location;
  match case_baseline case with
  | None => OK derived_metric
  | Some b =>
      do baseline <- call_metric self metric regime b location;
      do d <- inplace2 nsub (data derived_metric) (data baseline);
      OK (Build_DerivedMetric d (dimensions derived_metric) (units derived_metric))
  end.

(** The loop of [quad_maps].  The figure, its titles and the pdf page
    only feed the renderer and are left out. *)
Fixpoint quad_loop (metric regime : string) (location : option string)
    (map_method : string) (cases : list Case)
    (output : list (string * DerivedMetric A)) (fluxes : Fluxes A)
    : result (list (string * DerivedMetric A)) * Fluxes A :=
  match cases with
  | [] => (OK output, fluxes)
  | case :: rest =>
      let name := case_data case ++ " " ++ replace_char "_" " " metric in
      match case_metric fluxes metric regime location case with
      | Error e => (Error e, fluxes)
      | OK derived_metric =>
          match add_metric name (SrcMetric derived_metric) "average" 0 (base fluxes) with
          | (Error e, b) => (Error e, with_base fluxes b)
          | (OK _, b) =>
              let fluxes' := with_base fluxes b in
              match call_map fluxes' map_method name with
              | Error e => (Error e, fluxes')
              | OK _ =>
                  quad_loop metric regime location map_method rest
                    (odict_set (case_title case) derived_metric output) fluxes'
              end
          end
      end
  end.

Definition quad_maps (fluxes : Fluxes A) (metric regime : string)
    (location : option string) (map_method : string)
    : result (list (string * DerivedMetric A)) * Fluxes A :=
  quad_loop metric regime location map_method case_list [] fluxes.

End FluxesProgram.

(** ** Predicates of the statements *)

Definition values {A : Type} (ds : Dataset A) : list (NcVariable A) :=
  map snd (variables ds).

(** No variable of the dataset plays the role [axis]. *)
Definition no_axis {A : Type} (ds : Dataset A) (axis : string) : Prop :=
  forall v, In v (values ds) -> is_axis axis v = false.

Definition lat_lon {A : Type} (self : MetricsDataset A) : list string :=
  [var_name (latitude self); var_name (longitude self)].

(** Every array of the dataset has one element per index. *)
Definition dataset_wf {A : Type} (ds : Dataset A) : Prop :=
  Forall (fun p => wf (var_data p.2)) (variables ds).




(** ** Worked datasets *)

(** A coordinate variable: one dimension, named after itself. *)
Definition coordinate (name axis : string) (attrs : list (string * string))
    (values : list R) : string * NcVariable R :=
  (name,
   Build_NcVariable name [name]
     (list_to_map (("axis", axis) :: attrs)) (NDArray [length values] values)).

Definition field (name : string) (dims : list string) (u : string)
    (a : ndarray R) : string * NcVariable R :=
  (name, Build_NcVariable name dims {[ "units" := u ]} a).

Definition ex_time : string * NcVariable R :=
  coordinate "time" "T" [("units", "days")] [0; 1; 2]%R.
Definition ex_lev : string * NcVariable R :=
  coordinate "lev" "Z" [("units", "hPa"); ("positive", "down")] [100; 1000]%R.
Definition ex_lat : string * NcVariable R :=
  coordinate "lat" "Y" [("units", "degrees_north")] [-45; 45]%R.
Definition ex_lon : string * NcVariable R :=
  coordinate "lon" "X" [("units", "degrees_east")] [0; 180]%R.

Definition ex_dims4 : list string := ["time"; "lev"; "lat"; "lon"].

(** A (3, 2, 2) field over (time, lat, lon). *)
Definition ex_ta : string * NcVariable R :=
  field "ta" ["time"; "lat"; "lon"] "K"
    (NDArray [3; 2; 2] [1; 2; 3; 4; 5; 6; 7; 8; 9; 10; 11; 12]%R).

(** Fluxes equal everywhere: upward 10 (all), 7 (clean), 5 (clean-clear),
    and a downward flux equal to the upward one. *)
Definition ex_dataset : Dataset R :=
  Build_Dataset ex_dims4
    [ ex_time; ex_lev; ex_lat; ex_lon; ex_ta;
      field "rlu" ex_dims4 "W m-2" (full [3; 2; 2; 2] 10%R);
      field "rluaf" ex_dims4 "W m-2" (full [3; 2; 2; 2] 7%R);
      field "rlucsaf" ex_dims4 "W m-2" (full [3; 2; 2; 2] 5%R);
      field "rld" ex_dims4 "W m-2" (full [3; 2; 2; 2] 10%R);
      field "tntrl" ex_dims4 "K s-1" (full [3; 2; 2; 2] 1%R) ].

Definition ex_metrics : MetricsDataset R :=
  Build_MetricsDataset ex_dataset ex_time.2 ex_lon.2 ex_lat.2 [ex_lev.2] ∅.

Definition ex_fluxes : Fluxes R := Build_Fluxes ex_metrics 0 (-1).

(** The same grid without a vertical coordinate. *)
Definition ex_flat : Dataset R :=
  Build_Dataset ["time"; "lat"; "lon"] [ex_time; ex_lat; ex_lon; ex_ta].


(** A (4, 8) field registered on a grid of 4 latitudes and 8 longitudes. *)
Definition ex_grid48 : MetricsDataset R :=
  Build_MetricsDataset
    (Build_Dataset [] [])
    (coordinate "time" "T" [] [0%R]).2
    (coordinate "lon" "X" [] [0; 45; 90; 135; 180; 225; 270; 315]%R).2
    (coordinate "lat" "Y" [] [-60; -20; 20; 60]%R).2
    []
    {[ "olr" :=
         Build_DerivedMetric
           (NDArray [4; 8] (map INR (seq 0 32))) ["lat"; "lon"] "W m-2" ]}.

Definition ex_no_time : Dataset R :=
  Build_Dataset ["lat"; "lon"] [ex_lat; ex_lon].


(** The top-of-atmosphere slice of the fluxes of [ex_dataset]. *)
Definition ex_toa (c : R) : DerivedMetric R :=
  Build_DerivedMetric (full [3; 2; 2] c) ["time"; "lat"; "lon"] "W m-2".

Definition ex_quad : result (list (string * DerivedMetric R)) * Fluxes R :=
  quad_maps ex_fluxes "flux_up" "longwave" (Some "toa") "lon_lat_map".

Definition ex_quad_out : list (string * DerivedMetric R) :=
  match ex_quad.1 with OK out => out | Error _ => [] end.

(** ** More of Python's strings (maps.py, aerosols.py, report.py) *)

Fixpoint char_in (c : ascii) (chars : string) : bool :=
  match chars with
  | EmptyString => false
  | String x chars' => Ascii.eqb c x || char_in c chars'
  end.

(** [s.rstrip(chars)]: the trailing characters that occur in [chars] are
    dropped, whatever their order. *)
Fixpoint rstrip (chars s : string) : string :=
  match s with
  | EmptyString => EmptyString
  | String c s' =>
      match rstrip chars s' with
      | EmptyString => if char_in c chars then EmptyString else String c EmptyString
      | r => String c r
      end
  end.

(** [s.endswith(suffix)] *)
Definition endswith (suffix s : string) : bool :=
  let n := String.length s in
  let m := String.length suffix in
  Nat.leb m n && String.eqb (substring (n - m) m s) suffix.

(** [sub in s] *)
Fixpoint contains (sub s : string) : bool :=
  String.prefix sub s ||
  match s with
  | EmptyString => false
  | String _ s' => contains sub s'
  end.

Definition is_upper (c : ascii) : bool :=
  let n := nat_of_ascii c in (Nat.leb 65 n && Nat.leb n 90)%nat.

Definition is_lower (c : ascii) : bool :=
  let n := nat_of_ascii c in (Nat.leb 97 n && Nat.leb n 122)%nat.

Definition upper_ascii (c : ascii) : ascii :=
  if is_lower c then ascii_of_nat (nat_of_ascii c - 32)%nat else c.

(** [s.title()] on the ASCII letters: a letter that follows a letter is
    lowered, any other letter is raised. *)
Fixpoint title_from (previous_is_cased : bool) (s : string) : string :=
  match s with
  | EmptyString => EmptyString
  | String c s' =>
      String (if previous_is_cased then lower_ascii c else upper_ascii c)
             (title_from (is_upper c || is_lower c) s')
  end.

Definition title_py (s : string) : string := title_from false s.

(** ** report.py *)

Definition is_digit (c : ascii) : bool :=
  let n := nat_of_ascii c in (Nat.leb 48 n && Nat.leb n 57)%nat.

Fixpoint skip_digits (s : string) : string :=
  match s with
  | EmptyString => EmptyString
  | String c s' => if is_digit c then skip_digits s' else s
  end.

(** The rest of [s] after the literal [p], when [s] starts with it. *)
Fixpoint strip_prefix (p s : string) : option string :=
  match p, s with
  | EmptyString, _ => Some s
  | String a p', String b s' => if Ascii.eqb a b then strip_prefix p' s' else None
  | String _ _, EmptyString => None
  end.

(** [match(r"[0-9]+\." + escape(name) + r"\.nc", filename)]: the pattern is
    looked for at the start of the file name and need not reach its
    end.  The run of digits is followed by a dot, which is no digit, so
    the longest run is the only one that can match. *)
Definition match_dataset (name filename : string) : bool :=
  match filename with
  | EmptyString => false
  | String c rest =>
      is_digit c &&
      match strip_prefix ("." ++ name ++ ".nc") (skip_digits rest) with
      | Some _ => true
      | None => false
      end
  end.

(** [os.path.join(a, b)] on a POSIX system. *)
Definition join (a b : string) : string :=
  if String.prefix "/" b then b
  else if String.eqb a "" || endswith "/" a then a ++ b
  else a ++ "/" ++ b.

(** [find_dataset(name, directory)], given what [listdir(directory)]
    returns. *)
Definition find_dataset (listing : list string) (name directory : string)
    : result string :=
  match List.find (match_dataset name) listing with
  | Some filename => OK (join directory filename)
  | None => Error (ValueError ("could not find file associated with " ++ name ++ "."))
  end.

(** ** maps.py: Figure *)

Arguments zmm_x_data {A} z.
Arguments zmm_y_data {A} z.
Arguments zmm_xlabel {A} z.
Arguments zmm_ylabel {A} z.
Arguments zmm_data_label {A} z.
Arguments gmp_x_data {A} g.
Arguments gmp_xlabel {A} g.
Arguments gmp_data {A} g.
Arguments gmp_ylabel {A} g.
Arguments gmp_invert_y_axis {A} g.

(** The grid of plots of a figure.  A cell holds what matplotlib drew
    there, of a type [P] left open here. *)
Record Figure (P : Type) := {
  num_rows : nat;
  num_columns : nat;
  fig_plot : list (list (option P))
}.
Arguments Build_Figure {P} num_rows num_columns fig_plot.
Arguments num_rows {P} f.
Arguments num_columns {P} f.
Arguments fig_plot {P} f.

(** [[[None for y in range(num_columns)] for x in range(num_rows)]]: the
    rows are lists of their own. *)
Definition Figure_init {P : Type} (rows columns : nat) : Figure P :=
  Build_Figure rows columns (replicate rows (replicate columns None)).

(** numpy's [unravel_index(index, (rows, columns))] *)
Definition unravel_index (index : Z) (rows columns : nat) : result (nat * nat) :=
  if ((index <? 0) || (Z.of_nat (rows * columns) <=? index))%Z then
    Error (ValueError "index is out of bounds for array")
  else OK (Z.to_nat index / columns, Z.to_nat index mod columns).

Definition plot_position_to_indices {P : Type} (self : Figure P) (position : Z)
    : result (nat * nat) :=
  unravel_index (position - 1) (num_rows self) (num_columns self).

(** The end of [add_map] and of [add_line_plot]:
    [x, y = self.plot_position_to_indices(position); self.plot[x][y] = plot] *)
Definition store_plot {P : Type} (self : Figure P) (position : Z) (plot : P)
    : result (Figure P) :=
  do xy <- plot_position_to_indices self position;
  do row <- of_option (fig_plot self !! xy.1) (IndexError "list index out of range");
  if xy.2 <? length row then
    OK (Build_Figure (num_rows self) (num_columns self)
          (<[xy.1 := <[xy.2 := Some plot]> row]> (fig_plot self)))
  else Error (IndexError "list assignment index out of range").

(** What [add_map] draws in a cell: the map, the title it sets, the range
    of the colour levels when one is given, and whether it turns the
    vertical axis over. *)
Record Panel (A : Type) := {
  panel_map : plot A;
  panel_title : string;
  panel_range : option (Z * Z);
  panel_inverted : bool
}.
Arguments Build_Panel {A} panel_map panel_title panel_range panel_inverted.
Arguments panel_map {A} p.
Arguments panel_title {A} p.
Arguments panel_range {A} p.
Arguments panel_inverted {A} p.

(** [Figure.add_map]; matplotlib is taken to draw what it is handed.  A
    line plot is no [Map] and has no projection to read. *)
Definition add_map {A : Type} (self : Figure (Panel A)) (map : plot A)
    (title : string) (position : Z) (colorbar_range : option (Z * Z))
    : result (Figure (Panel A)) :=
  match map with
  | PlotGlobalMeanVertical _ => Error (AttributeError "projection")
  | _ =>
      store_plot self position
        {| panel_map := map;
           panel_title := title_py (replace_char "_" " " title);
           panel_range := colorbar_range;
           panel_inverted :=
             match map with
             | PlotZonalMean m => zmm_invert_y_axis m
             | _ => false
             end |}
  end.

(** [d[key]] on an OrderedDict *)
Definition odict_get {V : Type} (key : string) (d : list (string * V)) : result V :=
  of_option (snd <$> List.find (fun p => String.eqb (fst p) key) d) (KeyError key).

Section Drivers.
Context {A : Type} `{Num A}.

(** *** fluxes.py: the mean in a title, and net_maps *)

(** [f"{global_mean(map.data, map.y_data):.2f}"] of [quad_maps] and
    [net_maps]: the format accepts a 0-d value only.  A line plot is no
    [Map] and gets no mean. *)
Definition format_mean (g : ndarray A) : result A :=
  if ndim g =? 0 then OK (get g [])
  else Error (TypeError "unsupported format string passed to numpy.ndarray.__format__").

Definition title_mean (p : plot A) : result (option A) :=
  match p with
  | PlotLonLat m =>
      do g <- global_mean (llm_data m) (llm_y_data m);
      do x <- format_mean g; OK (Some x)
  | PlotZonalMean m =>
      do g <- global_mean (zmm_data m) (zmm_y_data m);
      do x <- format_mean g; OK (Some x)
  | PlotGlobalMeanVertical _ => OK None
  end.

(** [DerivedMetric(lw[...] + sw[...], lw.dimensions, lw.units)] for the
    title of one case. *)
Definition net_metric (lw_metric sw_metric : list (string * DerivedMetric A))
    (case : Case) : result (DerivedMetric A) :=
  do lw <- odict_get (case_title case) lw_metric;
  do sw <- odict_get (case_title case) sw_metric;
  do d <- broadcast2 nadd (data lw) (data sw);
  OK (Build_DerivedMetric d (dimensions lw) (units lw)).

(** The loop of [net_maps]; the figure itself is left to the renderer. *)
Fixpoint net_loop (lw_metric sw_metric : list (string * DerivedMetric A))
    (map_method : string) (cases : list Case) (fluxes : Fluxes A)
    : result unit * Fluxes A :=
  match cases with
  | [] => (OK tt, fluxes)
  | case :: rest =>
      let name := case_data case ++ " net" in
      match net_metric lw_metric sw_metric case with
      | Error e => (Error e, fluxes)
      | OK derived_metric =>
          match add_metric name (SrcMetric derived_metric) "average" 0 (base fluxes) with
          | (Error e, b) => (Error e, with_base fluxes b)
          | (OK _, b) =>
              let fluxes' := with_base fluxes b in
              match (do map <- call_map fluxes' map_method name; title_mean map) with
              | Error e => (Error e, fluxes')
              | OK _ => net_loop lw_metric sw_metric map_method rest fluxes'
              end
          end
      end
  end.

Definition net_maps (fluxes : Fluxes A)
    (lw_metric sw_metric : list (string * DerivedMetric A)) (map_method : string)
    : result unit * Fluxes A :=
  net_loop lw_metric sw_metric map_method case_list fluxes.

(** One call on the [Fluxes] object, and what follows it. *)
Definition and_then {T U : Type} (r : result T * Fluxes A)
    (k : T -> Fluxes A -> result U * Fluxes A) : result U * Fluxes A :=
  match r with
  | (OK x, fluxes) => k x fluxes
  | (Error e, fluxes) => (Error e, fluxes)
  end.

(** The calls of [flux_figures] on the [Fluxes] object that it builds;
    the titles of the figures and the pdf are the renderer's. *)
Definition flux_figures_on (fluxes : Fluxes A) : result unit * Fluxes A :=
  and_then (quad_maps fluxes "flux_up" "longwave" (Some "toa") "lon_lat_map")
    (fun lw_energy_balance fluxes =>
  and_then (quad_maps fluxes "flux_down" "longwave" (Some "surface") "lon_lat_map")
    (fun _ fluxes =>
  and_then (quad_maps fluxes "flux_up" "shortwave" (Some "toa") "lon_lat_map")
    (fun _ fluxes =>
  and_then (quad_maps fluxes "flux_down" "shortwave" (Some "surface") "lon_lat_map")
    (fun _ fluxes =>
  and_then (quad_maps fluxes "toa_energy_balance" "shortwave" None "lon_lat_map")
    (fun sw_energy_balance fluxes =>
  and_then (net_maps fluxes lw_energy_balance sw_energy_balance "lon_lat_map")
    (fun _ fluxes =>
  and_then (quad_maps fluxes "atmospheric_divergence" "longwave" None "lon_lat_map")
    (fun lw_divergence fluxes =>
  and_then (quad_maps fluxes "atmospheric_divergence" "shortwave" None "lon_lat_map")
    (fun sw_divergence fluxes =>
  and_then (net_maps fluxes lw_divergence sw_divergence "lon_lat_map")
    (fun _ fluxes =>
  and_then (quad_maps fluxes "heating_rate" "longwave" None "zonal_mean_map")
    (fun lw_heating fluxes =>
  and_then (quad_maps fluxes "heating_rate" "shortwave" None "zonal_mean_map")
    (fun sw_heating fluxes =>
  and_then (net_maps fluxes lw_heating sw_heating "zonal_mean_map")
    (fun _ fluxes =>
  and_then (quad_maps fluxes "heating_rate" "longwave" None "global_mean_vertical_plot")
    (fun lw_heating fluxes =>
  and_then (quad_maps fluxes "heating_rate" "shortwave" None "global_mean_vertical_plot")
    (fun sw_heating fluxes =>
  net_maps fluxes lw_heating sw_heating "global_mean_vertical_plot")))))))))))))).

(** [flux_figures], on the dataset that it opens. *)
Definition flux_figures (ds : Dataset A) : result unit :=
  do fluxes <- Fluxes_init ds;
  (flux_figures_on fluxes).1.

(** *** clouds.py *)

Definition cloud_names : list string :=
  ["high_cloud_amount"; "mid_cloud_amount"; "low_cloud_amount"; "total_cloud_amount"].

(** The loop of [cloud_amount_maps], from position [i + 1] on. *)
Fixpoint cloud_loop (names : list string) (i : nat) (cloud_data : MetricsDataset A)
    (figure : Figure (Panel A)) : result (Figure (Panel A)) :=
  match names with
  | [] => OK figure
  | name :: rest =>
      match add_metric name (SrcName name) "average" 0 cloud_data with
      | (Error e, _) => Error e
      | (OK _, cloud_data') =>
          do cloud_map <- lon_lat_map cloud_data' name;
          do figure' <- add_map figure (PlotLonLat cloud_map) name
                          (Z.of_nat i + 1) (Some (0, 1)%Z);
          cloud_loop rest (S i) cloud_data' figure'
      end
  end.

(** [cloud_amount_maps], on the dataset that it opens; the result is the
    figure that it hands to the pdf. *)
Definition cloud_amount_maps (ds : Dataset A) : result (Figure (Panel A)) :=
  do cloud_data <- MetricsDataset_init ds;
  cloud_loop cloud_names 0 cloud_data (Figure_init 2 2).

(** *** aerosols.py *)

(** One turn of the inner loop of [aerosol_maps]. *)
Definition aerosol_panel (aerosol : string) (i : nat)
    (aerosol_data : MetricsDataset A) (figure : Figure (Panel A))
    : result (Figure (Panel A)) * MetricsDataset A :=
  match add_metric aerosol (SrcName aerosol) "average" 0 aerosol_data with
  | (Error e, d) => (Error e, d)
  | (OK _, d) =>
      let drawn :=
        do mt <- (if contains "_col" aerosol then
                    do m <- lon_lat_map d aerosol;
                    OK (PlotLonLat m, "column-integrated " ++ rstrip "_col" aerosol)
                  else
                    do m <- zonal_mean_map d aerosol;
                    OK (PlotZonalMean m, aerosol));
        add_map figure mt.1 mt.2 (Z.of_nat i + 1) None in
      (drawn, d)
  end.

(** The figure of one column variable: the profile of the species on
    the left, its column on the right. *)
Definition aerosol_figure (name : string) (aerosol_data : MetricsDataset A)
    : result (Figure (Panel A)) * MetricsDataset A :=
  match aerosol_panel (rstrip "_col" name) 0 aerosol_data (Figure_init 1 2) with
  | (Error e, d) => (Error e, d)
  | (OK figure, d) => aerosol_panel name 1 d figure
  end.

Fixpoint aerosol_loop (names : list string) (aerosol_data : MetricsDataset A)
    (figures : list (Figure (Panel A))) : result (list (Figure (Panel A))) :=
  match names with
  | [] => OK figures
  | name :: rest =>
      match aerosol_figure name aerosol_data with
      | (Error e, _) => Error e
      | (OK figure, d) => aerosol_loop rest d (figures ++ [figure])%list
      end
  end.

(** [aerosol_maps], on the dataset that it opens; the result is the
    figures in the order in which the pdf receives them. *)
Definition aerosol_maps (ds : Dataset A) : result (list (Figure (Panel A))) :=
  do aerosol_data <- MetricsDataset_init ds;
  let names := List.filter (endswith "_col") (map fst (variables ds)) in
  aerosol_loop names aerosol_data [].

End Drivers.

(** ** More predicates of the statements *)

(** The call ends in an exception of the class [cls], whatever its
    message. *)
Definition raises {T : Type} (cls : string) (r : result T) : Prop :=
  exists msg, r = Error (Raise cls msg).

(** Every character of [t] occurs in [chars]. *)
Fixpoint all_in (chars t : string) : bool :=
  match t with
  | EmptyString => true
  | String c t' => char_in c chars && all_in chars t'
  end.

Fixpoint last_char (s : string) : option ascii :=
  match s with
  | EmptyString => None
  | String c EmptyString => Some c
  | String _ s' => last_char s'
  end.

Fixpoint all_digits (s : string) : bool :=
  match s with
  | EmptyString => true
  | String c s' => is_digit c && all_digits s'
  end.

(** The grid of a figure has its rows and its columns. *)
Definition Figure_wf {P : Type} (f : Figure P) : Prop :=
  length (fig_plot f) = num_rows f /\
  Forall (fun row => length row = num_columns f) (fig_plot f).

(** What [self.plot[x][y]] holds, if anything. *)
Definition cell {P : Type} (f : Figure P) (x y : nat) : option P :=
  match fig_plot f !! x with
  | Some row => match row !! y with Some c => c | None => None end
  | None => None
  end.

(** ** More worked datasets *)

(** A field over (lev, lat, lon), registered on [ex_metrics]. *)
Definition ex_hr : DerivedMetric R :=
  Build_DerivedMetric (NDArray [2; 2; 2] [1; 2; 3; 4; 5; 6; 7; 8]%R)
    ["lev"; "lat"; "lon"] "K day-1".

Definition ex_profile : MetricsDataset R := set_metric ex_metrics "hr" ex_hr.

(** The four cloud amounts over (time, lat, lon). *)
Definition ex_clouds : Dataset R :=
  Build_Dataset ["time"; "lat"; "lon"]
    [ ex_time; ex_lat; ex_lon;
      field "high_cloud_amount" ["time"; "lat"; "lon"] "1" (full [3; 2; 2] 1%R);
      field "mid_cloud_amount" ["time"; "lat"; "lon"] "1" (full [3; 2; 2] 0%R);
      field "low_cloud_amount" ["time"; "lat"; "lon"] "1" (full [3; 2; 2] 1%R);
      field "total_cloud_amount" ["time"; "lat"; "lon"] "1" (full [3; 2; 2] 1%R) ].

Definition ex_cloud_figure : Figure (Panel R) :=
  match cloud_amount_maps ex_clouds with
  | OK figure => figure
  | Error _ => Figure_init 0 0
  end.

(** Black carbon and its column. *)
Definition ex_aerosols : Dataset R :=
  Build_Dataset ex_dims4
    [ ex_time; ex_lev; ex_lat; ex_lon;
      field "bc" ex_dims4 "kg kg-1" (full [3; 2; 2; 2] 1%R);
      field "bc_col" ["time"; "lat"; "lon"] "kg m-2" (full [3; 2; 2] 2%R) ].

(** The fluxes and the heating rates that [flux_figures] reads. *)
Definition ex_fluxes_file : Dataset R :=
  Build_Dataset ex_dims4
    ([ ex_time; ex_lev; ex_lat; ex_lon ] ++
     map (fun name => field name ex_dims4 "W m-2" (full [3; 2; 2; 2] 1%R))
         [ "rlu"; "rluaf"; "rlucsaf"; "rld"; "rldaf"; "rldcsaf";
           "rsu"; "rsuaf"; "rsucsaf"; "rsd"; "rsdaf"; "rsdcsaf" ] ++
     map (fun name => field name ex_dims4 "K s-1" (full [3; 2; 2; 2] 1%R))
         [ "tntrl"; "tntrlaf"; "tntrlcsaf"; "tntrs"; "tntrsaf"; "tntrscsaf" ])%list.

(** The net maps of the mapping of [ex_quad] with itself. *)
Definition ex_net : result unit * Fluxes R :=
  net_maps ex_quad.2 ex_quad_out ex_quad_out "lon_lat_map".

(** * Properties *)

(** ** Small facts about results and strings *)

Lemma bind_ok {T U : Type} (r : result T) (k : T -> result U) (y : U) :
  bind r k = OK y -> exists x, r = OK x /\ k x = OK y.
Proof. destruct r as [x|e]; simpl; intros Hk; [eauto | discriminate]. Qed.

Lemma of_option_ok {T : Type} (o : option T) (e : exn) (x : T) :
  of_option o e = OK x -> o = Some x.
Proof. destruct o; simpl; congruence. Qed.

Lemma eqb_false_of_ne (a b : string) : a <> b -> String.eqb a b = false.
Proof. intros Hne. apply String.eqb_neq. exact Hne. Qed.

(** Unfolds one [do] step of a hypothesis [H : bind r k = OK y]. *)
Tactic Notation "ok_step" hyp(H) ident(x) ident(Hx) :=
  apply bind_ok in H; destruct H as (x & Hx & H).

(** ** Dimension discovery and the constructors (metrics.py, fluxes.py) *)

Section Discovery.
Context {A : Type} `{Num A}.

Lemma is_axis_spec (axis : string) (v : NcVariable A) :
  is_axis axis v = true <->
  length (var_dimensions v) = 1 /\
  exists a, var_attrs v !! "axis" = Some a /\ lower a = lower axis.
Proof.
  unfold is_axis. rewrite andb_true_iff, Nat.eqb_eq.
  destruct (var_attrs v !! "axis") as [a|].
  - rewrite String.eqb_eq. split.
    + intros [Hd Ha]. split; [exact Hd | exists a; auto].
    + intros [Hd (a' & Ha' & Hl)]. inversion Ha'; subst. auto.
  - split.
    + intros [_ Hf]. discriminate.
    + intros [_ (a' & Ha' & _)]. discriminate.
Qed.

Lemma grid_ok (ds : Dataset A) (axis : string) (l : list (NcVariable A)) :
  grid ds axis = OK l -> l = List.filter (is_axis axis) (values ds) /\ l <> [].
Proof.
  unfold grid, values.
  destruct (List.filter (is_axis axis) (map snd (variables ds))) as [|v l'] eqn:E;
    simpl; intros Hg; inversion Hg; subst; split; congruence.
Qed.

Lemma grid_error (ds : Dataset A) (axis : string) :
  no_axis ds axis -> grid ds axis = Error (ValueError "no grid variables found.").
Proof.
  intros Hno. unfold grid. fold (values ds).
  assert (E : List.filter (is_axis axis) (values ds) = []).
  { revert Hno. unfold no_axis. generalize (values ds). intros l.
    induction l as [|v l IH]; intros Hno; simpl; [reflexivity|].
    rewrite (Hno v) by (left; reflexivity).
    apply IH. intros w Hw. apply Hno. right. exact Hw. }
  rewrite E. reflexivity.
Qed.

Lemma grid_found (ds : Dataset A) (axis : string) (v : NcVariable A) :
  In v (values ds) -> is_axis axis v = true ->
  exists v0 l, grid ds axis = OK (v0 :: l).
Proof.
  intros Hin Hax. unfold grid. fold (values ds).
  assert (Hf : In v (List.filter (is_axis axis) (values ds)))
    by (apply filter_In; auto).
  destruct (List.filter (is_axis axis) (values ds)) as [|v0 l]; [destruct Hf|].
  simpl. eauto.
Qed.

Lemma filter_sublist (f : NcVariable A -> bool) (l : list (NcVariable A)) :
  sublist (List.filter f l) l.
Proof.
  induction l as [|x l IH]; simpl; [constructor|].
  destruct (f x); [apply sublist_skip | apply sublist_cons]; exact IH.
Qed.

End Discovery.

Section Construction.
Context {A : Type} `{Num A}.

Lemma grid_total (ds : Dataset A) (axis : string) :
  (exists v0 l, grid ds axis = OK (v0 :: l)) \/
  (no_axis ds axis /\ grid ds axis = Error (ValueError "no grid variables found.")).
Proof.
  destruct (grid ds axis) as [l|e] eqn:E.
  - left. destruct (grid_ok _ _ _ E) as [_ Hne].
    destruct l as [|v0 l]; [congruence | eauto].
  - right. assert (Hno : no_axis ds axis).
    { intros v Hin. destruct (is_axis axis v) eqn:Hax; [|reflexivity].
      destruct (grid_found ds axis v Hin Hax) as (v0 & l & Hg). congruence. }
    split; [exact Hno|]. rewrite <- E. apply grid_error. exact Hno.
Qed.

Lemma init_required_missing (ds : Dataset A) (axis : string) :
  In axis ["t"; "x"; "y"] -> no_axis ds axis ->
  MetricsDataset_init ds = Error (ValueError "no grid variables found.").
Proof.
  intros Hin Hno. unfold MetricsDataset_init.
  destruct (grid_total ds "t") as [(t0 & lt & Ht) | [_ Ht]];
    rewrite Ht; simpl; [|reflexivity].
  destruct (grid_total ds "x") as [(x0 & lx & Hx) | [_ Hx]];
    rewrite Hx; simpl; [|reflexivity].
  destruct (grid_total ds "y") as [(y0 & ly & Hy) | [_ Hy]];
    rewrite Hy; simpl; [|reflexivity].
  exfalso. simpl in Hin.
  destruct Hin as [<- | [<- | [<- | []]]];
    match goal with
    | Hg : grid ds ?a = OK _ |- _ =>
        rewrite (grid_error ds a Hno) in Hg; discriminate
    end.
Qed.

Lemma init_ok_inv (ds : Dataset A) (md : MetricsDataset A) :
  MetricsDataset_init ds = OK md ->
  dataset md = ds /\ metrics md = ∅ /\
  (exists l, grid ds "t" = OK (time md :: l)) /\
  (exists l, grid ds "x" = OK (longitude md :: l)) /\
  (exists l, grid ds "y" = OK (latitude md :: l)) /\
  except_ValueError (grid ds "z") (OK []) = OK (vertical md).
Proof.
  unfold MetricsDataset_init. intros Hi.
  destruct (grid_total ds "t") as [(t0 & lt & Ht) | [_ Ht]];
    rewrite Ht in Hi; simpl in Hi; [|discriminate].
  destruct (grid_total ds "x") as [(x0 & lx & Hx) | [_ Hx]];
    rewrite Hx in Hi; simpl in Hi; [|discriminate].
  destruct (grid_total ds "y") as [(y0 & ly & Hy) | [_ Hy]];
    rewrite Hy in Hi; simpl in Hi; [|discriminate].
  destruct (except_ValueError (grid ds "z") (OK [])) as [z|e] eqn:Hz;
    simpl in Hi; [|discriminate].
  inversion Hi; subst; simpl. eauto 10.
Qed.

Lemma init_accepts (ds : Dataset A) :
  ~ no_axis ds "t" -> ~ no_axis ds "x" -> ~ no_axis ds "y" ->
  exists md, MetricsDataset_init ds = OK md /\
             (no_axis ds "z" -> vertical md = []).
Proof.
  intros Ht Hx Hy. unfold MetricsDataset_init.
  destruct (grid_total ds "t") as [(t0 & lt & Et) | [Nt _]]; [|contradiction].
  destruct (grid_total ds "x") as [(x0 & lx & Ex) | [Nx _]]; [|contradiction].
  destruct (grid_total ds "y") as [(y0 & ly & Ey) | [Ny _]]; [|contradiction].
  rewrite Et, Ex, Ey. simpl.
  destruct (grid_total ds "z") as [(z0 & lz & Ez) | [Nz Ez]]; rewrite Ez; simpl.
  - eexists. split; [reflexivity|]. intros Hno.
    rewrite (grid_error ds "z" Hno) in Ez. discriminate.
  - eexists. split; [reflexivity|]. reflexivity.
Qed.

(** C9, as amended: [grid] returns, in the order of the dataset, the
    one-dimensional variables whose "axis" attribute equals the role up
    to letter case, and raises ValueError when there is none.  Building a
    MetricsDataset fails with that ValueError when the time, longitude
    or latitude role has no variable, and a dataset that has those three
    but no vertical variable is accepted with an empty vertical list. *)
Theorem grid_and_init_roles (ds : Dataset A) :
  (forall axis l, grid ds axis = OK l ->
     l <> [] /\ sublist l (values ds) /\
     forall v, In v l <->
       In v (values ds) /\ length (var_dimensions v) = 1 /\
       exists a, var_attrs v !! "axis" = Some a /\ lower a = lower axis) /\
  (forall axis, no_axis ds axis ->
     grid ds axis = Error (ValueError "no grid variables found.")) /\
  (forall axis, In axis ["t"; "x"; "y"] -> no_axis ds axis ->
     MetricsDataset_init ds = Error (ValueError "no grid variables found.")) /\
  (~ no_axis ds "t" -> ~ no_axis ds "x" -> ~ no_axis ds "y" ->
     exists md, MetricsDataset_init ds = OK md /\
                (no_axis ds "z" -> vertical md = [])).
Proof.
  split; [|split; [|split]].
  - intros axis l Hg. destruct (grid_ok _ _ _ Hg) as [-> Hne].
    split; [exact Hne|]. split; [apply filter_sublist|].
    intros v. rewrite filter_In, is_axis_spec. reflexivity.
  - intros axis. apply grid_error.
  - apply init_required_missing.
  - apply init_accepts.
Qed.

Lemma Fluxes_init_reads_positive (ds : Dataset A) (md : MetricsDataset A)
    (v0 : NcVariable A) (l : list (NcVariable A)) :
  MetricsDataset_init ds = OK md -> vertical md = v0 :: l ->
  Fluxes_init ds =
    match var_attrs v0 !! "positive" with
    | None => Error (AttributeError "positive")
    | Some p =>
        if String.eqb (lower p) "down" then OK (Build_Fluxes md 0 (-1))
        else OK (Build_Fluxes md (-1) 0)
    end.
Proof.
  intros Hi Hv. unfold Fluxes_init. rewrite Hi. simpl. rewrite Hv. simpl.
  unfold getncattr. destruct (var_attrs v0 !! "positive"); reflexivity.
Qed.

(** C10: the constructor of [Fluxes] takes the first vertical variable
    and reads its "positive" attribute to place the top of the atmosphere
    and the surface; on a dataset without a vertical variable, which
    [MetricsDataset] accepts with an empty vertical list, it fails. *)
Theorem Fluxes_init_needs_vertical (ds : Dataset A) :
  (forall md v0 l,
     MetricsDataset_init ds = OK md -> vertical md = v0 :: l ->
     Fluxes_init ds =
       match var_attrs v0 !! "positive" with
       | None => Error (AttributeError "positive")
       | Some p =>
           if String.eqb (lower p) "down" then OK (Build_Fluxes md 0 (-1))
           else OK (Build_Fluxes md (-1) 0)
       end) /\
  (no_axis ds "z" ->
   (exists e, Fluxes_init ds = Error e) /\
   (forall md, MetricsDataset_init ds = OK md ->
      vertical md = [] /\
      Fluxes_init ds = Error (IndexError "list index out of range")) /\
   (~ no_axis ds "t" -> ~ no_axis ds "x" -> ~ no_axis ds "y" ->
    exists md, MetricsDataset_init ds = OK md /\ vertical md = [])).
Proof.
  split; [apply Fluxes_init_reads_positive|]. intros Hno.
  assert (Hmd : forall md, MetricsDataset_init ds = OK md ->
            vertical md = [] /\
            Fluxes_init ds = Error (IndexError "list index out of range")).
  { intros md Hi. destruct (init_ok_inv ds md Hi) as (_ & _ & _ & _ & _ & Hz).
    rewrite (grid_error ds "z" Hno) in Hz. simpl in Hz.
    assert (Hv : vertical md = []) by congruence.
    split; [exact Hv|]. unfold Fluxes_init. rewrite Hi. simpl.
    rewrite Hv. reflexivity. }
  split; [|split; [exact Hmd|]].
  - destruct (MetricsDataset_init ds) as [md|e] eqn:Hi.
    + exists (IndexError "list index out of range"). apply (Hmd md). reflexivity.
    + exists e. unfold Fluxes_init. rewrite Hi. reflexivity.
  - intros Ht Hx Hy. destruct (init_accepts ds Ht Hx Hy) as (md & Hi & Hv).
    exists md. split; [exact Hi | exact (Hv Hno)].
Qed.

End Construction.

(** ** Heating rates (fluxes.py) *)

Section HeatingRate.
Context {A : Type} `{Num A}.

(** C7: the tendency variable is scaled by 34*3600 = 122400 and its unit
    relabelled "K day-1" exactly when its unit is "K s-1"; with any
    other unit it is scaled by 1 and keeps its unit. *)
Theorem heating_rate_conversion (self : Fluxes A) (regime conditions r s u : string)
    (heating : NcVariable A)
    (Hr : regimes regime = OK r) (Hs : sky conditions = OK s)
    (Hv : lookup_variable (dataset (base self)) ("tntr" ++ r ++ s) = OK heating)
    (Hu : getncattr heating "units" = OK u) :
  (34 * 3600 = 122400)%Z /\
  (u = "K s-1" ->
     heating_rate self regime conditions =
       OK (Build_DerivedMetric
             (map_arr (fun x => nmul x (of_Z 122400)) (var_data heating))
             (var_dimensions heating) "K day-1")) /\
  (u <> "K s-1" ->
     heating_rate self regime conditions =
       OK (Build_DerivedMetric
             (map_arr (fun x => nmul x (of_Z 1)) (var_data heating))
             (var_dimensions heating) u)) /\
  (forall m, heating_rate self regime conditions = OK m ->
     (units m = "K day-1" /\
      data m = map_arr (fun x => nmul x (of_Z 122400)) (var_data heating) /\
      u = "K s-1") \/
     (units m = u /\
      data m = map_arr (fun x => nmul x (of_Z 1)) (var_data heating) /\
      u <> "K s-1")).
Proof.
  assert (E : heating_rate self regime conditions =
              let '(u', factor) := heating_factor u in
              OK (Build_DerivedMetric
                    (map_arr (fun x => nmul x (of_Z factor)) (var_data heating))
                    (var_dimensions heating) u')).
  { unfold heating_rate. rewrite Hr. simpl. rewrite Hs. simpl.
    rewrite Hv. simpl. rewrite Hu. simpl. reflexivity. }
  unfold heating_factor in E.
  split; [reflexivity|]. split; [|split].
  - intros ->. rewrite E. reflexivity.
  - intros Hne. rewrite E, (eqb_false_of_ne _ _ Hne). reflexivity.
  - intros m Hm. rewrite E in Hm.
    destruct (String.eqb u "K s-1") eqn:Eu.
    + apply String.eqb_eq in Eu. inversion Hm; subst; simpl. left. auto.
    + apply String.eqb_neq in Eu. inversion Hm; subst; simpl. right. auto.
Qed.

End HeatingRate.

(** ** Time reduction (metrics.py) *)

Section AddMetric.
Context {A : Type} `{Num A}.

Lemma add_metric_error_keeps (self self' : MetricsDataset A) (name : string)
    (variable : source A) (time_method : string) (time_index : Z) (e : exn) :
  add_metric name variable time_method time_index self = (Error e, self') ->
  self' = self.
Proof.
  unfold add_metric.
  destruct (reduce_time self variable time_method time_index);
    intros Ha; inversion Ha; reflexivity.
Qed.

(** Without the time name among the dimensions of the source, as for an
    array without axes, "average" raises the ValueError of [list.index]. *)
Lemma add_metric_average_needs_time (self : MetricsDataset A) (name : string)
    (variable : source A) (time_index : Z)
    (d : NcVariable A + DerivedMetric A) (u : string) :
  resolve self variable = OK d -> src_units d = OK u ->
  list_index (var_name (time self)) (src_dimensions d) = None ->
  add_metric name variable "average" time_index self
  = (Error (ValueError "x is not in list"), self).
Proof.
  intros Hd Hu Hk. unfold add_metric, reduce_time. rewrite Hd. cbn [bind].
  rewrite Hu. cbn [bind]. rewrite String.eqb_refl.
  unfold index_py. rewrite Hk. reflexivity.
Qed.

(** C8: for a source that resolves and carries a unit, [add_metric]
    raises ValueError when the method is "instantaneous" and the time
    dimension is not the first one, and when the method is none of
    "average", "instantaneous" and "time series"; an [add_metric] that
    raises leaves the object, and so its metrics, as they were. *)
Theorem add_metric_rejects (self : MetricsDataset A) (name : string)
    (variable : source A) (time_method : string) (time_index : Z)
    (d : NcVariable A + DerivedMetric A) (u : string)
    (Hd : resolve self variable = OK d) (Hu : src_units d = OK u) :
  (time_method = "instantaneous" ->
   list_index (var_name (time self)) (src_dimensions d) <> Some 0 ->
   exists msg,
     add_metric name variable time_method time_index self
     = (Error (ValueError msg), self)) /\
  (time_method <> "average" -> time_method <> "instantaneous" ->
   time_method <> "time series" ->
   add_metric name variable time_method time_index self
   = (Error (ValueError "A valid time_method must be specified."), self)) /\
  (forall e self',
     add_metric name variable time_method time_index self = (Error e, self') ->
     self' = self /\ metrics self' = metrics self).
Proof.
  split; [|split].
  - intros -> Hk. unfold add_metric, reduce_time. rewrite Hd. simpl.
    rewrite Hu. simpl. unfold index_py.
    destruct (list_index (var_name (time self)) (src_dimensions d)) as [k|];
      simpl; [|eauto].
    destruct k as [|k]; [congruence|]. simpl. eauto.
  - intros Ha Hi Ht. unfold add_metric, reduce_time. rewrite Hd. simpl.
    rewrite Hu. simpl.
    rewrite (eqb_false_of_ne _ _ Ha), (eqb_false_of_ne _ _ Hi),
      (eqb_false_of_ne _ _ Ht). reflexivity.
  - intros e self' Ha. apply add_metric_error_keeps in Ha. subst. auto.
Qed.

End AddMetric.

(** ** Blocks of a row-major array *)

Section Chunks.
Context {T : Type}.
Implicit Types (l : list T) (ls : list (list T)).

Lemma chunks_length (m n : nat) l : length (chunks m n l) = m.
Proof. revert l. induction m as [|m IH]; intros l; simpl; [|rewrite IH]; reflexivity. Qed.



Lemma concat_chunks (m n : nat) l :
  length l = m * n -> concat (chunks m n l) = l.
Proof.
  revert l. induction m as [|m IH]; intros l Hl; simpl.
  - destruct l; [reflexivity | discriminate].
  - rewrite IH by (rewrite length_drop; lia). apply take_drop.
Qed.

Lemma chunks_Forall_length (m n : nat) l :
  m * n <= length l -> Forall (fun c => length c = n) (chunks m n l).
Proof.
  revert l. induction m as [|m IH]; intros l Hl; simpl; constructor.
  - rewrite length_take. lia.
  - apply IH. rewrite length_drop. lia.
Qed.

Lemma chunks_nth (m n i : nat) l :
  i < m -> nth i (chunks m n l) [] = take n (drop (i * n) l).
Proof.
  revert i l. induction m as [|m IH]; intros i l Hi; [lia|].
  destruct i as [|i]; simpl; [reflexivity|].
  rewrite IH by lia. rewrite drop_drop. reflexivity.
Qed.

Lemma concat_length_const (n : nat) ls :
  Forall (fun c => length c = n) ls -> length (concat ls) = length ls * n.
Proof.
  induction 1 as [|c ls Hc _ IH]; simpl; [reflexivity|].
  rewrite length_app, IH, Hc. reflexivity.
Qed.

(** Element [o * n + i] of a concatenation of blocks of length [n]. *)
Lemma concat_nth (n o i : nat) ls (d : T) :
  Forall (fun c => length c = n) ls -> i < n ->
  nth (o * n + i) (concat ls) d = nth i (nth o ls []) d.
Proof.
  intros Hls Hi. revert o. induction Hls as [|c ls Hc _ IH]; intros o.
  - assert (E : forall k, nth k (@nil T) d = d) by (intros [|?]; reflexivity).
    rewrite E. replace (nth o [] []) with (@nil T) by (destruct o; reflexivity).
    symmetry. apply E.
  - simpl. destruct o as [|o]; simpl.
    + rewrite app_nth1 by lia. reflexivity.
    + rewrite app_nth2 by lia.
      replace (n + o * n + i - length c) with (o * n + i) by lia.
      apply IH.
Qed.

End Chunks.

Lemma prod_app (s1 s2 : list nat) : prod (s1 ++ s2) = prod s1 * prod s2.
Proof.
  induction s1 as [|n s1 IH]; simpl; [lia|].
  rewrite IH. lia.
Qed.

(** The three factors of a shape around its axis [k]. *)
Lemma prod_split (k : nat) (s : list nat) :
  k < length s ->
  prod s = prod (take k s) * (nth k s 0 * prod (drop (S k) s)).
Proof.
  revert k. induction s as [|n s IH]; intros k Hk; simpl in Hk; [lia|].
  destruct k as [|k]; simpl.
  - rewrite drop_0. lia.
  - rewrite (IH k) at 1 by lia. lia.
Qed.

Lemma prod_delete (k : nat) (s : list nat) :
  k < length s -> prod (delete k s) = prod (take k s) * prod (drop (S k) s).
Proof.
  revert k. induction s as [|n s IH]; intros k Hk; simpl in Hk; [lia|].
  destruct k as [|k]; simpl.
  - rewrite drop_0. lia.
  - rewrite (IH k) by lia. lia.
Qed.

Lemma length_delete_lt {T : Type} (k : nat) (l : list T) :
  k < length l -> length (delete k l) = length l - 1.
Proof. intros Hk. apply length_delete. apply lookup_lt_is_Some. exact Hk. Qed.

(** ** Python's index normalisation *)

Lemma norm_index_lt (i : Z) (n k : nat) : norm_index i n = Some k -> k < n.
Proof.
  unfold norm_index.
  destruct (i <? 0)%Z eqn:Ei;
    match goal with |- context [andb ?a ?b] => destruct (andb a b) eqn:E end;
    intros Hk; inversion Hk; subst;
    apply andb_true_iff in E; destruct E as [E1 E2];
    apply Z.leb_le in E1; apply Z.ltb_lt in E2; lia.
Qed.

Lemma norm_index_nat (k n : nat) : k < n -> norm_index (Z.of_nat k) n = Some k.
Proof.
  intros Hk. unfold norm_index.
  replace (Z.of_nat k <? 0)%Z with false by (symmetry; apply Z.ltb_ge; lia).
  replace (0 <=? Z.of_nat k)%Z with true by (symmetry; apply Z.leb_le; lia).
  replace (Z.of_nat k <? Z.of_nat n)%Z with true by (symmetry; apply Z.ltb_lt; lia).
  simpl. rewrite Nat2Z.id. reflexivity.
Qed.

Lemma norm_index_last (n : nat) : norm_index (-1) (S n) = Some n.
Proof.
  unfold norm_index. change (-1 <? 0)%Z with true. cbv iota.
  replace (0 <=? -1 + Z.of_nat (S n))%Z with true by (symmetry; apply Z.leb_le; lia).
  replace (-1 + Z.of_nat (S n) <? Z.of_nat (S n))%Z with true
    by (symmetry; apply Z.ltb_lt; lia).
  cbn [andb]. f_equal. lia.
Qed.

Lemma norm_index_last_0 : norm_index (-1) 0 = None.
Proof. reflexivity. Qed.

Lemma chunks_nth_nth {T : Type} (m n i j : nat) (l : list T) (d : T) :
  i < m -> j < n -> nth j (nth i (chunks m n l) []) d = nth (i * n + j) l d.
Proof.
  intros Hi Hj. rewrite chunks_nth by exact Hi.
  rewrite nth_firstn. apply Nat.ltb_lt in Hj. rewrite Hj.
  apply nth_skipn.
Qed.

(** ** Longitude-latitude maps (metrics.py, maps.py) *)

Section LonLat.
Context {A : Type} `{Num A}.

Lemma add_cyclic_2d (ny nx : nat) (d x y : ndarray A) (x0 : A) (xs : list A) :
  shape d = [ny; nx] -> 0 < nx -> elems x = x0 :: xs ->
  add_cyclic d x y =
    OK (NDArray [ny; S nx]
          (concat (map (fun row => (row ++ take 1 row)%list)
                       (chunks ny nx (elems d)))),
        NDArray [S (length (elems x))] (elems x ++ [nadd x0 (of_Z 360)])%list,
        y).
Proof.
  intros Hs Hnx Hx. unfold add_cyclic. rewrite Hs, Hx. simpl.
  destruct nx as [|nx]; [lia|]. simpl.
  replace (ny * 1) with ny by lia. reflexivity.
Qed.

Lemma wrap_rows_length (ny nx : nat) (l : list A) :
  0 < nx -> length l = ny * nx ->
  Forall (fun c => length c = S nx)
         (map (fun row => (row ++ take 1 row)%list) (chunks ny nx l)).
Proof.
  intros Hnx Hl. apply Forall_map.
  eapply Forall_impl; [apply (chunks_Forall_length ny nx l); lia|].
  intros row Hrow. cbv beta in *. rewrite length_app, length_take. lia.
Qed.

Lemma wrap_rows_nth (ny nx i j : nat) (l : list A) :
  0 < nx -> length l = ny * nx -> i < ny -> j <= nx ->
  nth (i * S nx + j)
      (concat (map (fun row => (row ++ take 1 row)%list) (chunks ny nx l))) nzero
  = nth (i * nx + (if j <? nx then j else 0)) l nzero.
Proof.
  intros Hnx Hl Hi Hj.
  rewrite (concat_nth (S nx)) by (auto using wrap_rows_length; lia).
  change (@nil A) with ((fun row : list A => (row ++ take 1 row)%list) []).
  rewrite map_nth.
  assert (Hrow : length (nth i (chunks ny nx l) []) = nx).
  { rewrite chunks_nth by exact Hi. rewrite length_take, length_drop. nia. }
  destruct (j <? nx) eqn:Ej.
  - apply Nat.ltb_lt in Ej. rewrite app_nth1 by lia.
    apply chunks_nth_nth; assumption.
  - apply Nat.ltb_ge in Ej. rewrite app_nth2 by lia.
    replace (j - length (nth i (chunks ny nx l) [])) with 0 by lia.
    rewrite nth_firstn. simpl.
    apply chunks_nth_nth; assumption.
Qed.

(** C3: [lon_lat_map] raises its ValueError exactly when the dimensions
    of the registered metric are not (latitude, longitude) in this
    order.  On a well-formed (ny, nx) field with nx > 0 it succeeds: the
    map has nx + 1 longitude columns, the first nx are those of the
    field, the appended one repeats the first, and the longitude
    coordinate gains one point, 360 after its first.  A (4, 8) field
    gives 9 columns. *)
Theorem lon_lat_map_wraps (self : MetricsDataset A) (name : string)
    (m : DerivedMetric A) (Hm : metrics self !! name = Some m) :
  (dimensions m <> lat_lon self <->
     lon_lat_map self name = Error (ValueError "Invalid dimensions for a lon-lat map.")) /\
  ((exists map, lon_lat_map self name = OK map) -> dimensions m = lat_lon self) /\
  (forall ny nx x0 xs,
     dimensions m = lat_lon self ->
     shape (data m) = [ny; nx] -> 0 < nx -> wf (data m) ->
     elems (var_data (longitude self)) = x0 :: xs ->
     exists map,
       lon_lat_map self name = OK map /\
       shape (llm_data map) = [ny; S nx] /\
       wf (llm_data map) /\
       (forall i j, i < ny -> j < nx ->
          get (llm_data map) [i; j] = get (data m) [i; j]) /\
       (forall i, i < ny ->
          get (llm_data map) [i; nx] = get (llm_data map) [i; 0] /\
          get (llm_data map) [i; nx] = get (data m) [i; 0]) /\
       elems (llm_x_data map)
         = (elems (var_data (longitude self)) ++ [nadd x0 (of_Z 360)])%list /\
       shape (llm_x_data map) = [S (length (elems (var_data (longitude self))))] /\
       llm_y_data map = var_data (latitude self) /\
       llm_data_label map = units m /\
       (ny = 4 -> nx = 8 -> shape (llm_data map) = [4; 9])).
Proof.
  assert (Hget : get_metric self name = OK (AttrArray (inr m)))
    by (unfold get_metric; rewrite Hm; reflexivity).
  assert (Hbad : dimensions m <> lat_lon self ->
            lon_lat_map self name
            = Error (ValueError "Invalid dimensions for a lon-lat map.")).
  { intros Hne. unfold lon_lat_map. rewrite Hget. simpl.
    unfold dims_eqb. fold (lat_lon self).
    rewrite bool_decide_eq_false_2 by exact Hne. reflexivity. }
  assert (Hgood : dimensions m = lat_lon self ->
            lon_lat_map self name
            = LonLatMap_init m (longitude self) (latitude self)).
  { intros He. unfold lon_lat_map. rewrite Hget. simpl.
    unfold dims_eqb. fold (lat_lon self).
    rewrite bool_decide_eq_true_2 by exact He. reflexivity. }
  split; [|split].
  - split; [exact Hbad|]. intros He Hd. rewrite (Hgood Hd) in He.
    unfold LonLatMap_init, add_cyclic in He.
    destruct (last (shape (data m))) as [n|]; simpl in He; [|discriminate].
    destruct (head (elems (var_data (longitude self)))); simpl in He;
      [|discriminate].
    destruct (n =? 0); simpl in He; discriminate.
  - intros [map Hmap].
    destruct (decide (dimensions m = lat_lon self)) as [He|Hne]; [exact He|].
    rewrite (Hbad Hne) in Hmap. discriminate.
  - intros ny nx x0 xs Hd Hs Hnx Hwf Hx.
    rewrite (Hgood Hd). unfold LonLatMap_init.
    rewrite (add_cyclic_2d ny nx _ _ _ x0 xs Hs Hnx Hx). simpl.
    eexists. split; [reflexivity|]. simpl.
    assert (Hl : length (elems (data m)) = ny * nx).
    { unfold wf in Hwf. rewrite Hwf, Hs. simpl. lia. }
    assert (Hcell : forall i j, i < ny -> j <= nx ->
              get (NDArray [ny; S nx]
                     (concat (map (fun row => (row ++ take 1 row)%list)
                                  (chunks ny nx (elems (data m)))))) [i; j]
              = nth (i * nx + (if j <? nx then j else 0)) (elems (data m)) nzero).
    { intros i j Hi Hj. unfold get. cbn [shape elems offset prod foldr].
      match goal with
      | |- nth ?k _ _ = _ => replace k with (i * S nx + j) by lia
      end.
      apply wrap_rows_nth; assumption. }
    assert (Hsrc : forall i j, get (data m) [i; j]
              = nth (i * nx + j) (elems (data m)) nzero).
    { intros i j. unfold get. rewrite Hs. cbn [offset prod foldr].
      f_equal. lia. }
    split; [reflexivity|]. split.
    { unfold wf. simpl.
      rewrite (concat_length_const (S nx)) by (apply wrap_rows_length; assumption).
      rewrite length_map, chunks_length. lia. }
    split.
    { intros i j Hi Hj. rewrite Hcell by lia. rewrite Hsrc.
      apply Nat.ltb_lt in Hj. rewrite Hj. reflexivity. }
    split.
    { intros i Hi. rewrite !Hcell by lia. rewrite Hsrc.
      rewrite Nat.ltb_irrefl. apply Nat.ltb_lt in Hnx. rewrite Hnx. auto. }
    split; [reflexivity|]. split; [reflexivity|]. split; [reflexivity|].
    split; [reflexivity|]. intros -> ->. reflexivity.
Qed.

End LonLat.

(** ** Shapes and well-formedness of the array operations *)

Lemma nth_zip_with {T U V : Type} (f : T -> U -> V) (l1 : list T) (l2 : list U)
    (d1 : T) (d2 : U) (i : nat) :
  length l1 = length l2 ->
  nth i (zip_with f l1 l2) (f d1 d2) = f (nth i l1 d1) (nth i l2 d2).
Proof.
  revert l2 i. induction l1 as [|x l1 IH]; intros [|y l2] i Hl;
    simpl in Hl; try discriminate.
  - destruct i; reflexivity.
  - destruct i as [|i]; simpl; [reflexivity|]. apply IH. lia.
Qed.

Lemma concat_zip_chunks {T : Type} (f : T -> T -> T)
    (g : list T -> list T -> list T) (n p : nat) (d1 d2 : list T) :
  length d1 = n * p -> length d2 = n * p ->
  (forall c1 c2, length c1 = p -> length c2 = p -> g c1 c2 = zip_with f c1 c2) ->
  concat (zip_with g (chunks n p d1) (chunks n p d2)) = zip_with f d1 d2.
Proof.
  intros H1 H2 Hg. revert d1 d2 H1 H2.
  induction n as [|n IH]; intros d1 d2 H1 H2; simpl.
  - destruct d1; [reflexivity | discriminate].
  - rewrite Hg by (rewrite length_take; lia).
    rewrite IH by (rewrite length_drop; lia).
    rewrite <- zip_with_app by (rewrite !length_take; lia).
    rewrite !take_drop. reflexivity.
Qed.

Section ArrayFacts.
Context {A : Type} `{Num A}.


Lemma pad_same (s : list nat) : pad (length s) s = s.
Proof. unfold pad. rewrite Nat.sub_diag. reflexivity. Qed.

Lemma bdim_refl (n : nat) : bdim n n = Some n.
Proof. unfold bdim. rewrite Nat.eqb_refl. reflexivity. Qed.

Lemma bshape_refl (s : list nat) : bshape s s = Some s.
Proof.
  induction s as [|n s IH]; simpl; [reflexivity|].
  rewrite bdim_refl, IH. reflexivity.
Qed.


Lemma bcast_same (f : A -> A -> A) (s : list nat) (d1 d2 : list A) :
  length d1 = prod s -> length d2 = prod s ->
  bcast f s s d1 d2 = zip_with f d1 d2.
Proof.
  revert d1 d2. induction s as [|n s IH]; intros d1 d2 H1 H2; simpl;
    [reflexivity|].
  rewrite Nat.eqb_refl. apply concat_zip_chunks; auto.
Qed.


Lemma broadcast2_same_shape (f : A -> A -> A) (a b : ndarray A) :
  shape a = shape b -> wf a -> wf b ->
  broadcast2 f a b = OK (NDArray (shape a) (zip_with f (elems a) (elems b))).
Proof.
  unfold wf. intros Hs Ha Hb. unfold broadcast2, ndim. rewrite <- Hs.
  rewrite Nat.max_id, pad_same, bshape_refl. simpl.
  rewrite bcast_same by congruence. reflexivity.
Qed.


Lemma inplace2_same_shape (f : A -> A -> A) (a b : ndarray A) :
  shape a = shape b -> wf a -> wf b ->
  inplace2 f a b = OK (NDArray (shape a) (zip_with f (elems a) (elems b))).
Proof.
  intros Hs Ha Hb. unfold inplace2.
  rewrite broadcast2_same_shape by assumption. simpl.
  destruct (decide (shape a = shape a)); [reflexivity | congruence].
Qed.

Lemma colsum_length (inner : nat) (rows : list (list A)) :
  Forall (fun c => length c = inner) rows -> length (colsum inner rows) = inner.
Proof.
  unfold colsum. induction 1 as [|c rows Hc _ IH]; simpl.
  - apply length_replicate.
  - rewrite length_zip_with, IH, Hc. lia.
Qed.

Lemma sum_block_length (n inner : nat) (blk : list A) :
  length blk = n * inner -> length (sum_block n inner blk) = inner.
Proof.
  intros Hb. unfold sum_block. apply colsum_length.
  apply chunks_Forall_length. lia.
Qed.

Lemma mean_block_length (n inner : nat) (blk : list A) :
  length blk = n * inner -> length (mean_block n inner blk) = inner.
Proof.
  intros Hb. unfold mean_block. rewrite length_map.
  apply sum_block_length. exact Hb.
Qed.

Lemma pick_block_length (j n inner : nat) (blk : list A) :
  j < n -> length blk = n * inner -> length (pick_block j n inner blk) = inner.
Proof.
  intros Hj Hb. unfold pick_block. rewrite length_take, length_drop. nia.
Qed.

Lemma reduce_axis_wf (k : nat) (f : nat -> nat -> list A -> list A)
    (a : ndarray A) :
  k < ndim a -> wf a ->
  (forall blk,
     length blk = nth k (shape a) 0 * prod (drop (S k) (shape a)) ->
     length (f (nth k (shape a) 0) (prod (drop (S k) (shape a))) blk)
     = prod (drop (S k) (shape a))) ->
  wf (reduce_axis k f a).
Proof.
  unfold wf, ndim. intros Hk Ha Hf. unfold reduce_axis. simpl.
  rewrite (concat_length_const (prod (drop (S k) (shape a)))).
  - rewrite length_map, chunks_length, prod_delete by exact Hk. reflexivity.
  - apply Forall_map.
    eapply Forall_impl;
      [apply chunks_Forall_length; rewrite Ha, (prod_split k (shape a) Hk); lia|].
    intros blk Hb. cbv beta in *. apply Hf. exact Hb.
Qed.

Lemma norm_axis_lt (axis : Z) (a : ndarray A) (k : nat) :
  norm_axis axis a = OK k -> k < ndim a.
Proof.
  unfold norm_axis. intros Hk. apply of_option_ok in Hk.
  eapply norm_index_lt. exact Hk.
Qed.

Lemma mean_axis_inv (axis : Z) (a b : ndarray A) :
  mean_axis axis a = OK b ->
  exists k, norm_index axis (ndim a) = Some k /\ k < ndim a /\
            b = reduce_axis k mean_block a /\
            shape b = delete k (shape a) /\ ndim b = ndim a - 1 /\
            (wf a -> wf b).
Proof.
  unfold mean_axis. intros Hm. ok_step Hm k Hk. inversion Hm; subst.
  pose proof (norm_axis_lt _ _ _ Hk) as Hlt.
  exists k. split; [apply of_option_ok in Hk; exact Hk|].
  split; [exact Hlt|]. split; [reflexivity|]. split; [reflexivity|].
  split.
  - unfold ndim. simpl. apply length_delete_lt. exact Hlt.
  - intros Hw. apply reduce_axis_wf; auto. intros blk. apply mean_block_length.
Qed.

Lemma sum_axis_inv (axis : Z) (a b : ndarray A) :
  sum_axis axis a = OK b ->
  exists k, norm_index axis (ndim a) = Some k /\ k < ndim a /\
            b = reduce_axis k sum_block a /\
            shape b = delete k (shape a) /\ ndim b = ndim a - 1 /\
            (wf a -> wf b).
Proof.
  unfold sum_axis. intros Hm. ok_step Hm k Hk. inversion Hm; subst.
  pose proof (norm_axis_lt _ _ _ Hk) as Hlt.
  exists k. split; [apply of_option_ok in Hk; exact Hk|].
  split; [exact Hlt|]. split; [reflexivity|]. split; [reflexivity|].
  split.
  - unfold ndim. simpl. apply length_delete_lt. exact Hlt.
  - intros Hw. apply reduce_axis_wf; auto. intros blk. apply sum_block_length.
Qed.

Lemma index_axis_inv (k : nat) (i : Z) (a b : ndarray A) :
  index_axis k i a = OK b ->
  exists n j, shape a !! k = Some n /\ norm_index i n = Some j /\ k < ndim a /\
              b = reduce_axis k (pick_block j) a /\
              shape b = delete k (shape a) /\ ndim b = ndim a - 1 /\
              (wf a -> wf b).
Proof.
  unfold index_axis. intros Hi. ok_step Hi n Hn. ok_step Hi j Hj.
  inversion Hi; subst. apply of_option_ok in Hn, Hj.
  assert (Hlt : k < ndim a) by (eapply lookup_lt_Some; exact Hn).
  exists n, j. split; [exact Hn|]. split; [exact Hj|]. split; [exact Hlt|].
  split; [reflexivity|]. split; [reflexivity|]. split.
  - unfold ndim. simpl. apply length_delete_lt. exact Hlt.
  - intros Hw. apply reduce_axis_wf; auto. intros blk Hb.
    apply pick_block_length; [|exact Hb].
    rewrite nth_lookup, Hn. simpl. eapply norm_index_lt. exact Hj.
Qed.

End ArrayFacts.

(** ** Fluxes at the top of the atmosphere and at the surface (fluxes.py) *)

Lemma nth_zip_with_default {T U V : Type} (f : T -> U -> V) (l1 : list T)
    (l2 : list U) (d1 : T) (d2 : U) (d : V) (i : nat) :
  length l1 = length l2 -> f d1 d2 = d ->
  nth i (zip_with f l1 l2) d = f (nth i l1 d1) (nth i l2 d2).
Proof. intros Hl <-. apply nth_zip_with. exact Hl. Qed.

Section FluxFacts.
Context {A : Type} `{Num A}.

Lemma lookup_variable_In (ds : Dataset A) (name : string) (v : NcVariable A) :
  lookup_variable ds name = OK v -> In (name, v) (variables ds).
Proof.
  unfold lookup_variable. intros Hl. apply of_option_ok in Hl.
  destruct (List.find (fun p => String.eqb (fst p) name) (variables ds))
    as [[n' v']|] eqn:Ef; simpl in Hl; [|discriminate].
  inversion Hl; subst. apply find_some in Ef. destruct Ef as [Hin Hn].
  simpl in Hn. apply String.eqb_eq in Hn. subst. exact Hin.
Qed.

Lemma lookup_variable_wf (ds : Dataset A) (name : string) (v : NcVariable A) :
  dataset_wf ds -> lookup_variable ds name = OK v -> wf (var_data v).
Proof.
  intros Hwf Hl. apply lookup_variable_In in Hl.
  unfold dataset_wf in Hwf. rewrite Forall_forall in Hwf.
  apply (Hwf (name, v)). apply list_elem_of_In. exact Hl.
Qed.

Lemma flux_located_inv (self : Fluxes A) (regime direction conditions loc : string)
    (m : DerivedMetric A) :
  flux self regime direction conditions (Some loc) = OK m ->
  exists r d s var d1 i,
    regimes regime = OK r /\ directions direction = OK d /\
    sky conditions = OK s /\
    lookup_variable (dataset (base self)) ("r" ++ r ++ d ++ s) = OK var /\
    var_dimensions var !! 1 = Some d1 /\
    is_vertical (base self) d1 = OK true /\
    location_index self loc = OK i /\
    index_axis 1 i (var_data var) = OK (data m) /\
    remove_py d1 (var_dimensions var) = OK (dimensions m) /\
    getncattr var "units" = OK (units m).
Proof.
  unfold flux. intros Hf.
  ok_step Hf r Hr. ok_step Hf d Hd. ok_step Hf s Hs. ok_step Hf var Hv.
  ok_step Hf d1 Hd1. ok_step Hf v Hvert.
  destruct v; simpl in Hf; [|discriminate].
  ok_step Hf i Hi. ok_step Hf d' Hd'. ok_step Hf dims' Hdims. ok_step Hf u Hu.
  inversion Hf; subst; simpl. apply of_option_ok in Hd1.
  exists r, d, s, var, d1, i. auto 12.
Qed.

Lemma flux_unlocated_inv (self : Fluxes A) (regime direction conditions : string)
    (m : DerivedMetric A) :
  flux self regime direction conditions None = OK m ->
  exists r d s var,
    regimes regime = OK r /\ directions direction = OK d /\
    sky conditions = OK s /\
    lookup_variable (dataset (base self)) ("r" ++ r ++ d ++ s) = OK var /\
    data m = var_data var /\ dimensions m = var_dimensions var /\
    getncattr var "units" = OK (units m).
Proof.
  unfold flux. intros Hf.
  ok_step Hf r Hr. ok_step Hf d Hd. ok_step Hf s Hs. ok_step Hf var Hv.
  ok_step Hf u Hu. inversion Hf; subst; simpl.
  exists r, d, s, var. auto 12.
Qed.


Lemma flux_located_wf (self : Fluxes A) (regime direction conditions loc : string)
    (m : DerivedMetric A) :
  dataset_wf (dataset (base self)) ->
  flux self regime direction conditions (Some loc) = OK m -> wf (data m).
Proof.
  intros Hwf Hf.
  destruct (flux_located_inv _ _ _ _ _ _ Hf)
    as (r & d & s & var & d1 & i & _ & _ & _ & Hv & _ & _ & _ & Hi & _).
  destruct (index_axis_inv _ _ _ _ Hi) as (_ & _ & _ & _ & _ & _ & _ & _ & Hw).
  apply Hw. eapply lookup_variable_wf; eassumption.
Qed.


End FluxFacts.



(** ** Uniform fields *)

Local Open Scope list_scope.




Lemma prod_ones (k n : nat) : prod (replicate k 1 ++ [n]) = n.
Proof. induction k as [|k IH]; simpl; [|rewrite IH]; lia. Qed.


Lemma delete_last_app1 {T : Type} (s : list T) (x : T) :
  delete (length s) (s ++ [x]) = s.
Proof.
  induction s as [|z s IH]; simpl; [reflexivity|]. f_equal. exact IH.
Qed.

Section Uniform.
Context {A : Type} `{Num A}.






Lemma bshape_trailing (s : list nat) (n : nat) :
  bshape (s ++ [n]) (replicate (length s) 1 ++ [n]) = Some (s ++ [n]).
Proof.
  induction s as [|n1 s IH]; simpl.
  - rewrite bdim_refl. reflexivity.
  - rewrite IH. unfold bdim.
    destruct (n1 =? 1) eqn:E; [|reflexivity].
    apply Nat.eqb_eq in E. subst. reflexivity.
Qed.


End Uniform.

(** ** The area-weighted mean (maps.py) *)




Lemma nth_app_length {T : Type} (s : list T) (x : T) (l : list T) (d : T) :
  nth (length s) (s ++ x :: l) d = x.
Proof. induction s as [|y s IH]; simpl; [reflexivity | exact IH]. Qed.




Section TwoStage.
Context {A : Type} `{Num A}.





End TwoStage.


(** ** Elements of a reduced array, by multi-index *)

Lemma chunks_as_map {T : Type} (m n : nat) (l : list T) :
  chunks m n l = map (fun t => take n (drop (t * n) l)) (seq 0 m).
Proof.
  revert l. induction m as [|m IH]; intros l; [reflexivity|].
  cbn [chunks seq map]. rewrite drop_0. f_equal.
  rewrite IH, <- seq_shift, map_map. apply map_ext.
  intros t. rewrite drop_drop. reflexivity.
Qed.

Lemma offset_app (s1 s2 i1 i2 : list nat) :
  length i1 = length s1 ->
  offset (s1 ++ s2) (i1 ++ i2) = offset s1 i1 * prod s2 + offset s2 i2.
Proof.
  revert i1. induction s1 as [|n s1 IH]; intros [|i i1] Hl;
    simpl in Hl; try discriminate; [reflexivity|].
  cbn [app offset]. rewrite IH by lia. rewrite prod_app. lia.
Qed.

Lemma offset_lt (s idx : list nat) :
  valid_index s idx -> offset s idx < prod s.
Proof.
  unfold valid_index. intros Hv. induction Hv as [|i n idx s Hi _ IH].
  - simpl. lia.
  - cbn [offset prod foldr]. fold (prod s). nia.
Qed.

Lemma valid_index_delete (k : nat) (s idx : list nat) :
  k < length s -> valid_index (delete k s) idx ->
  length (take k idx) = k /\
  valid_index (take k s) (take k idx) /\
  valid_index (drop (S k) s) (drop k idx).
Proof.
  unfold valid_index. intros Hk Hv.
  pose proof (Forall2_length _ _ _ Hv) as Hl.
  rewrite length_delete_lt in Hl by exact Hk.
  split; [rewrite length_take; lia|].
  rewrite delete_take_drop in Hv.
  rewrite <- (take_drop k idx) in Hv.
  apply Forall2_app_inv in Hv; [exact Hv|].
  rewrite !length_take. lia.
Qed.

Lemma nth_map_lt {T U : Type} (f : T -> U) (l : list T) (i : nat) (d : T) (d' : U) :
  i < length l -> nth i (map f l) d' = f (nth i l d).
Proof.
  intros Hi. rewrite (nth_indep _ d' (f d)) by (rewrite length_map; exact Hi).
  apply map_nth.
Qed.

Section Elements.
Context {A : Type} `{Num A}.

Lemma colsum_nth (inner i : nat) (rows : list (list A)) :
  Forall (fun c => length c = inner) rows -> i < inner ->
  nth i (colsum inner rows) nzero
  = nsum (map (fun row => nth i row nzero) rows).
Proof.
  intros Hrows Hi. unfold colsum.
  induction Hrows as [|r rows Hr Hrows IH]; cbn [foldr map nsum].
  - rewrite nth_lookup, lookup_replicate_2 by exact Hi. reflexivity.
  - fold (colsum inner rows). fold (nsum (map (fun row => nth i row nzero) rows)).
    pose proof (colsum_length inner rows Hrows) as Hc.
    rewrite (nth_indep _ nzero (nadd nzero nzero))
      by (rewrite length_zip_with; lia).
    rewrite nth_zip_with by lia.
    unfold colsum in IH. unfold colsum. rewrite IH. reflexivity.
Qed.

(** The block [o] of an array along axis [k], and its slab [t]. *)
Lemma slab_nth (outer n inner o t i : nat) (l : list A) :
  o < outer -> t < n -> i < inner ->
  nth i (nth t (chunks n inner (nth o (chunks outer (n * inner) l) [])) []) nzero
  = nth ((o * n + t) * inner + i) l nzero.
Proof.
  intros Ho Ht Hi.
  rewrite chunks_nth_nth by assumption.
  rewrite chunks_nth_nth by (assumption || nia).
  f_equal. lia.
Qed.

Lemma offset_insert (k t : nat) (s idx : list nat) :
  k < length s -> valid_index (delete k s) idx ->
  offset s (insert_at k t idx)
  = (offset (take k s) (take k idx) * nth k s 0 + t) * prod (drop (S k) s)
    + offset (drop (S k) s) (drop k idx).
Proof.
  intros Hk Hv. destruct (valid_index_delete k s idx Hk Hv) as (Hl & _ & _).
  assert (Hs : s = take k s ++ nth k s 0 :: drop (S k) s).
  { symmetry. apply take_drop_middle.
    destruct (lookup_lt_is_Some_2 s k Hk) as [x Hx].
    rewrite (nth_lookup_Some _ _ 0 _ Hx). exact Hx. }
  rewrite Hs at 1. unfold insert_at.
  rewrite offset_app by (rewrite Hl, length_take; lia).
  cbn [offset prod foldr]. fold (prod (drop (S k) s)). lia.
Qed.

Lemma offset_delete (k : nat) (s idx : list nat) :
  k < length s -> valid_index (delete k s) idx ->
  offset (delete k s) idx
  = offset (take k s) (take k idx) * prod (drop (S k) s)
    + offset (drop (S k) s) (drop k idx).
Proof.
  intros Hk Hv. destruct (valid_index_delete k s idx Hk Hv) as (Hl & _ & _).
  rewrite delete_take_drop. rewrite <- (take_drop k idx) at 1.
  apply offset_app. rewrite Hl, length_take. lia.
Qed.

(** The element of a reduced array at [idx] is the block function
    applied to the slabs of the source taken at [idx] along axis [k]. *)
Lemma reduce_axis_get (k : nat) (f : nat -> nat -> list A -> list A)
    (a : ndarray A) (idx : list nat) :
  k < ndim a -> wf a -> valid_index (delete k (shape a)) idx ->
  (forall blk,
     length blk = nth k (shape a) 0 * prod (drop (S k) (shape a)) ->
     length (f (nth k (shape a) 0) (prod (drop (S k) (shape a))) blk)
     = prod (drop (S k) (shape a))) ->
  get (reduce_axis k f a) idx
  = nth (offset (drop (S k) (shape a)) (drop k idx))
        (f (nth k (shape a) 0) (prod (drop (S k) (shape a)))
           (nth (offset (take k (shape a)) (take k idx))
                (chunks (prod (take k (shape a)))
                        (nth k (shape a) 0 * prod (drop (S k) (shape a)))
                        (elems a)) []))
        nzero.
Proof.
  unfold ndim, wf. intros Hk Hw Hv Hf.
  destruct (valid_index_delete k _ idx Hk Hv) as (Hl & Hv1 & Hv2).
  apply offset_lt in Hv1, Hv2.
  unfold get, reduce_axis. cbn [shape elems].
  rewrite offset_delete by assumption.
  set (outer := prod (take k (shape a))) in *.
  set (n := nth k (shape a) 0) in *.
  set (inner := prod (drop (S k) (shape a))) in *.
  assert (Hblocks : Forall (fun c => length c = n * inner)
                           (chunks outer (n * inner) (elems a))).
  { apply chunks_Forall_length. rewrite Hw, (prod_split k (shape a) Hk).
    fold outer n inner. lia. }
  rewrite (concat_nth inner).
  - rewrite (nth_map_lt _ _ _ []) by (rewrite chunks_length; exact Hv1).
    reflexivity.
  - apply Forall_map. eapply Forall_impl; [exact Hblocks|].
    intros blk Hb. cbv beta in *. apply Hf. exact Hb.
  - exact Hv2.
Qed.

Lemma mean_axis_get (k : nat) (a : ndarray A) (idx : list nat) :
  k < ndim a -> wf a -> valid_index (delete k (shape a)) idx ->
  get (reduce_axis k mean_block a) idx
  = ndiv (nsum (map (fun t => get a (insert_at k t idx))
                    (seq 0 (nth k (shape a) 0))))
         (of_Z (Z.of_nat (nth k (shape a) 0))).
Proof.
  intros Hk Hw Hv.
  rewrite reduce_axis_get by (auto; intros blk; apply mean_block_length).
  pose proof Hk as Hk'. unfold ndim in Hk'.
  destruct (valid_index_delete k _ idx Hk' Hv) as (Hl & Hv1 & Hv2).
  apply offset_lt in Hv1, Hv2.
  set (outer := prod (take k (shape a))) in *.
  set (n := nth k (shape a) 0) in *.
  set (inner := prod (drop (S k) (shape a))) in *.
  set (o := offset (take k (shape a)) (take k idx)) in *.
  set (i := offset (drop (S k) (shape a)) (drop k idx)) in *.
  set (blk := nth o (chunks outer (n * inner) (elems a)) []).
  assert (Hblk : length blk = n * inner).
  { unfold blk. rewrite chunks_nth by exact Hv1.
    rewrite length_take, length_drop.
    unfold wf in Hw. rewrite Hw, (prod_split k (shape a) Hk').
    fold outer n inner. nia. }
  unfold mean_block.
  rewrite (nth_map_lt _ _ _ nzero) by (rewrite sum_block_length; assumption).
  f_equal. unfold sum_block.
  rewrite colsum_nth by (try apply chunks_Forall_length; lia).
  f_equal. rewrite chunks_as_map, map_map.
  apply map_ext_in. intros t Ht. apply in_seq in Ht.
  unfold get. rewrite offset_insert by assumption.
  fold n inner o i.
  rewrite <- (slab_nth outer n inner o t i) by lia.
  fold blk. rewrite chunks_nth by lia. reflexivity.
Qed.

End Elements.

(** ** Averaging over time (metrics.py) *)

Lemma list_index_spec (x : string) (l : list string) (k : nat) :
  list_index x l = Some k ->
  k < length l /\ l !! k = Some x /\ list_remove x l = Some (delete k l) /\
  forall j, j < k -> l !! j <> Some x.
Proof.
  revert k. induction l as [|y l IH]; intros k Hk; simpl in Hk; [discriminate|].
  simpl. destruct (String.eqb y x) eqn:E.
  - apply String.eqb_eq in E. inversion Hk; subst. simpl.
    split; [lia|]. split; [reflexivity|]. split; [reflexivity|].
    intros j Hj. lia.
  - apply String.eqb_neq in E.
    destruct (list_index x l) as [k'|] eqn:Ek; simpl in Hk; [|discriminate].
    inversion Hk; subst. destruct (IH k' eq_refl) as (Hlt & Hl & Hr & Hfirst).
    rewrite Hr. simpl. split; [lia|]. split; [exact Hl|].
    split; [reflexivity|].
    intros [|j] Hj; simpl; [congruence|]. apply Hfirst. lia.
Qed.

Section Average.
Context {A : Type} `{Num A}.

Lemma set_metric_lookup (self : MetricsDataset A) (name : string)
    (m : DerivedMetric A) :
  metrics (set_metric self name m) !! name = Some m /\
  forall other, other <> name ->
    metrics (set_metric self name m) !! other = metrics self !! other.
Proof.
  unfold set_metric. simpl. split.
  - apply lookup_insert_eq.
  - intros other Hne. apply lookup_insert_ne. congruence.
Qed.

(** C2: when the source resolves, carries a unit and names the time
    dimension at position [k] of its dimensions (one per axis of its
    well-formed array), [add_metric] with "average" registers under the
    given name, over any metric of that name, the metric whose data is
    the arithmetic mean of the source along axis [k] and whose
    dimensions are those of the source without the time name.  A
    (3, 2, 2) source with time first gives shape (2, 2) and the two
    other dimensions. *)
Theorem add_metric_average (self : MetricsDataset A) (name : string)
    (variable : source A) (time_index : Z)
    (d : NcVariable A + DerivedMetric A) (u : string) (k : nat)
    (Hd : resolve self variable = OK d) (Hu : src_units d = OK u)
    (Hk : list_index (var_name (time self)) (src_dimensions d) = Some k)
    (Hinv : length (src_dimensions d) = ndim (src_array d))
    (Hwf : wf (src_array d)) :
  exists m,
    add_metric name variable "average" time_index self
      = (OK tt, set_metric self name m) /\
    metrics (set_metric self name m) !! name = Some m /\
    (forall other, other <> name ->
       metrics (set_metric self name m) !! other = metrics self !! other) /\
    src_dimensions d !! k = Some (var_name (time self)) /\
    dimensions m = delete k (src_dimensions d) /\
    units m = u /\
    shape (data m) = delete k (shape (src_array d)) /\
    wf (data m) /\
    (forall idx, valid_index (shape (data m)) idx ->
       get (data m) idx
       = ndiv (nsum (map (fun t => get (src_array d) (insert_at k t idx))
                         (seq 0 (nth k (shape (src_array d)) 0))))
              (of_Z (Z.of_nat (nth k (shape (src_array d)) 0)))) /\
    (forall y x,
       src_dimensions d = [var_name (time self); y; x] ->
       shape (src_array d) = [3; 2; 2] ->
       shape (data m) = [2; 2] /\ dimensions m = [y; x]).
Proof.
  destruct (list_index_spec _ _ _ Hk) as (Hlt & Hat & Hrm & _).
  assert (Hax : k < ndim (src_array d)) by lia.
  exists (Build_DerivedMetric (reduce_axis k mean_block (src_array d))
            (delete k (src_dimensions d)) u).
  split.
  { unfold add_metric, reduce_time. rewrite Hd. cbn [bind]. rewrite Hu.
    cbn [bind]. rewrite String.eqb_refl.
    unfold index_py, remove_py. rewrite Hk, Hrm. cbn [of_option bind].
    unfold mean_axis, norm_axis. rewrite (norm_index_nat k _ Hax).
    reflexivity. }
  destruct (set_metric_lookup self name
              (Build_DerivedMetric (reduce_axis k mean_block (src_array d))
                 (delete k (src_dimensions d)) u)) as [Hl1 Hl2].
  split; [exact Hl1|]. split; [exact Hl2|]. split; [exact Hat|].
  cbn [data dimensions units]. split; [reflexivity|]. split; [reflexivity|].
  split; [reflexivity|]. split.
  { apply reduce_axis_wf; auto. intros blk. apply mean_block_length. }
  split.
  { intros idx Hv. apply mean_axis_get; assumption. }
  intros y x Hdims Hs. rewrite Hdims in Hk. simpl in Hk.
  rewrite String.eqb_refl in Hk. inversion Hk; subst k.
  rewrite Hdims. unfold reduce_axis. rewrite Hs. split; reflexivity.
Qed.

End Average.

(** ** The four cases (fluxes.py) *)

Section Cases.
Context {A : Type} `{Num A}.

(** Registering a metric changes nothing that the derivation methods read. *)
Lemma call_metric_registered (f : Fluxes A) (b : MetricsDataset A)
    (metric regime label : string) (location : option string) :
  dataset b = dataset (base f) -> vertical b = vertical (base f) ->
  call_metric (with_base f b) metric regime label location
  = call_metric f metric regime label location.
Proof.
  destruct f as [[ds t x y v ms] ft fs]. destruct b as [ds' t' x' y' v' ms'].
  simpl. intros -> ->. reflexivity.
Qed.

Lemma case_metric_registered (f : Fluxes A) (b : MetricsDataset A)
    (metric regime : string) (location : option string) (case : Case) :
  dataset b = dataset (base f) -> vertical b = vertical (base f) ->
  case_metric (with_base f b) metric regime location case
  = case_metric f metric regime location case.
Proof.
  intros Hd Hv. unfold case_metric.
  rewrite call_metric_registered by assumption.
  destruct (case_baseline case) as [bl|]; [|reflexivity].
  rewrite call_metric_registered by assumption. reflexivity.
Qed.

Lemma add_metric_ok (name : string) (variable : source A) (method : string)
    (ti : Z) (self self' : MetricsDataset A) :
  add_metric name variable method ti self = (OK tt, self') ->
  exists m, reduce_time self variable method ti = OK m /\
            self' = set_metric self name m /\
            dataset self' = dataset self /\ vertical self' = vertical self /\
            metrics self' !! name = Some m.
Proof.
  unfold add_metric.
  destruct (reduce_time self variable method ti) as [m|e]; intros Ha;
    inversion Ha; subst.
  exists m. split; [reflexivity|]. split; [reflexivity|].
  split; [reflexivity|]. split; [reflexivity|].
  apply lookup_insert_eq.
Qed.

(** One turn of the loop of [quad_maps]. *)
Lemma quad_loop_step (metric regime : string) (location : option string)
    (map_method : string) (case : Case) (rest : list Case)
    (output out : list (string * DerivedMetric A)) (f f' : Fluxes A) :
  quad_loop metric regime location map_method (case :: rest) output f
    = (OK out, f') ->
  exists m f1,
    case_metric f metric regime location case = OK m /\
    (forall c, case_metric f1 metric regime location c
               = case_metric f metric regime location c) /\
    quad_loop metric regime location map_method rest
      (odict_set (case_title case) m output) f1 = (OK out, f').
Proof.
  cbn [quad_loop].
  destruct (case_metric f metric regime location case) as [m|e];
    [|discriminate].
  destruct (add_metric _ (SrcMetric m) "average" 0 (base f)) as [[[]|e] b] eqn:Ea;
    [|discriminate].
  destruct (call_map (with_base f b) map_method _) as [p|e]; [|discriminate].
  intros Hq. exists m, (with_base f b). split; [reflexivity|].
  split; [|exact Hq].
  destruct (add_metric_ok _ _ _ _ _ _ Ea) as (m' & _ & _ & Hd & Hv & _).
  intros c. apply case_metric_registered; assumption.
Qed.

Lemma quad_maps_inv (fluxes fluxes' : Fluxes A) (metric regime : string)
    (location : option string) (map_method : string)
    (out : list (string * DerivedMetric A)) :
  quad_maps fluxes metric regime location map_method = (OK out, fluxes') ->
  exists m1 m2 m3 m4,
    out = [("Clean-clear Sky", m1); ("Cloud Effects", m2);
           ("Aerosol Effects", m3); ("All Sky", m4)] /\
    Forall2 (fun case m => case_metric fluxes metric regime location case = OK m)
            case_list [m1; m2; m3; m4].
Proof.
  unfold quad_maps, case_list. intros Hq.
  apply quad_loop_step in Hq. destruct Hq as (m1 & f1 & H1 & E1 & Hq).
  apply quad_loop_step in Hq. destruct Hq as (m2 & f2 & H2 & E2 & Hq).
  apply quad_loop_step in Hq. destruct Hq as (m3 & f3 & H3 & E3 & Hq).
  apply quad_loop_step in Hq. destruct Hq as (m4 & f4 & H4 & E4 & Hq).
  rewrite E1 in H2. rewrite E2, E1 in H3. rewrite E3, E2, E1 in H4.
  cbn in Hq. inversion Hq; subst.
  exists m1, m2, m3, m4. split; [reflexivity|].
  repeat constructor; assumption.
Qed.

Lemma case_metric_plain (f : Fluxes A) (metric regime : string)
    (location : option string) (label title : string) (m : DerivedMetric A) :
  case_metric f metric regime location
    {| case_data := label; case_baseline := None; case_title := title |} = OK m ->
  call_metric f metric regime label location = OK m.
Proof.
  unfold case_metric. cbn [case_data case_baseline]. intros Hc.
  ok_step Hc d Hd. inversion Hc; subst. exact Hd.
Qed.

Lemma case_metric_baseline (f : Fluxes A) (metric regime : string)
    (location : option string) (label bl title : string) (m : DerivedMetric A) :
  case_metric f metric regime location
    {| case_data := label; case_baseline := Some bl; case_title := title |} = OK m ->
  exists d b,
    call_metric f metric regime label location = OK d /\
    call_metric f metric regime bl location = OK b /\
    inplace2 nsub (data d) (data b) = OK (data m) /\
    dimensions m = dimensions d /\ units m = units d.
Proof.
  unfold case_metric. cbn [case_data case_baseline]. intros Hc.
  ok_step Hc d Hd. ok_step Hc b Hb. ok_step Hc a Ha.
  inversion Hc; subst. exists d, b. auto.
Qed.

End Cases.

Lemma get_full_R (s idx : list nat) (c : R) :
  get (full s c) idx = if offset s idx <? prod s then c else 0%R.
Proof.
  unfold get, full. cbn [shape elems]. rewrite nth_lookup.
  destruct (offset s idx <? prod s) eqn:E.
  - apply Nat.ltb_lt in E. rewrite lookup_replicate_2 by exact E. reflexivity.
  - apply Nat.ltb_ge in E. rewrite lookup_ge_None_2; [reflexivity|].
    rewrite length_replicate. exact E.
Qed.

Lemma inplace2_full_R (s : list nat) (a b : ndarray R) (x y : R) (c : ndarray R) :
  a = full s x -> b = full s y -> inplace2 nsub a b = OK c ->
  c = full s (x - y)%R.
Proof.
  intros -> -> Hc. rewrite inplace2_same_shape in Hc.
  - inversion Hc; subst. unfold full. cbn [shape elems].
    rewrite zip_with_replicate. reflexivity.
  - reflexivity.
  - unfold wf, full. cbn. apply length_replicate.
  - unfold wf, full. cbn. apply length_replicate.
Qed.

(** C4: [quad_maps] returns, in the order of the cases, the titles
    mapped to the method at the case's data label, less in place the
    method at its baseline label when the case has one.  When the method
    gives fields equal everywhere to 10 (all), 7 (clean) and 5
    (clean-clear), the mapping holds 5, 2, 3 and 10, and the first three
    add up to the fourth. *)
Theorem quad_maps_cases (fluxes fluxes' : Fluxes R) (metric regime : string)
    (location : option string) (map_method : string)
    (out : list (string * DerivedMetric R))
    (Hq : quad_maps fluxes metric regime location map_method = (OK out, fluxes')) :
  exists m1 m2 m3 m4,
    out = [("Clean-clear Sky", m1); ("Cloud Effects", m2);
           ("Aerosol Effects", m3); ("All Sky", m4)] /\
    call_metric fluxes metric regime "clean-clear" location = OK m1 /\
    (exists d b,
       call_metric fluxes metric regime "clean" location = OK d /\
       call_metric fluxes metric regime "clean-clear" location = OK b /\
       inplace2 nsub (data d) (data b) = OK (data m2) /\
       dimensions m2 = dimensions d /\ units m2 = units d) /\
    (exists d b,
       call_metric fluxes metric regime "all" location = OK d /\
       call_metric fluxes metric regime "clean" location = OK b /\
       inplace2 nsub (data d) (data b) = OK (data m3) /\
       dimensions m3 = dimensions d /\ units m3 = units d) /\
    call_metric fluxes metric regime "all" location = OK m4 /\
    (forall s all clean clean_clear,
       call_metric fluxes metric regime "all" location = OK all ->
       call_metric fluxes metric regime "clean" location = OK clean ->
       call_metric fluxes metric regime "clean-clear" location = OK clean_clear ->
       data all = full s 10%R -> data clean = full s 7%R ->
       data clean_clear = full s 5%R ->
       data m1 = full s 5%R /\ data m2 = full s 2%R /\
       data m3 = full s 3%R /\ data m4 = full s 10%R /\
       forall idx,
         (get (data m1) idx + get (data m2) idx + get (data m3) idx)%R
         = get (data m4) idx).
Proof.
  destruct (quad_maps_inv _ _ _ _ _ _ _ Hq) as (m1 & m2 & m3 & m4 & Hout & Hc).
  unfold case_list in Hc.
  apply Forall2_cons_1 in Hc. destruct Hc as [H1 Hc].
  apply Forall2_cons_1 in Hc. destruct Hc as [H2 Hc].
  apply Forall2_cons_1 in Hc. destruct Hc as [H3 Hc].
  apply Forall2_cons_1 in Hc. destruct Hc as [H4 _].
  apply case_metric_plain in H1, H4.
  apply case_metric_baseline in H2, H3.
  exists m1, m2, m3, m4.
  split; [exact Hout|]. split; [exact H1|]. split; [exact H2|].
  split; [exact H3|]. split; [exact H4|].
  intros s all clean clean_clear Ha Hcl Hcc Da Dcl Dcc.
  destruct H2 as (d2 & b2 & Hd2 & Hb2 & Hi2 & _).
  destruct H3 as (d3 & b3 & Hd3 & Hb3 & Hi3 & _).
  assert (m1 = clean_clear) by congruence. assert (m4 = all) by congruence.
  assert (d2 = clean) by congruence. assert (b2 = clean_clear) by congruence.
  assert (d3 = all) by congruence. assert (b3 = clean) by congruence.
  subst.
  pose proof (inplace2_full_R s _ _ 7 5 _ Dcl Dcc Hi2) as E2.
  pose proof (inplace2_full_R s _ _ 10 7 _ Da Dcl Hi3) as E3.
  replace (7 - 5)%R with 2%R in E2 by lra.
  replace (10 - 7)%R with 3%R in E3 by lra.
  split; [exact Dcc|]. split; [exact E2|]. split; [exact E3|].
  split; [exact Da|].
  intros idx. rewrite Dcc, E2, E3, Da, !get_full_R.
  destruct (offset s idx <? prod s); lra.
Qed.

(** ** One dimension name per axis *)


Section Invariant.
Context {A : Type} `{Num A}.














End Invariant.

(** ** More elements by multi-index *)

Lemma nth_take_drop {T : Type} (n o i : nat) (l : list T) (d : T) :
  i < n -> nth i (take n (drop o l)) d = nth (o + i) l d.
Proof.
  intros Hi. rewrite nth_firstn. apply Nat.ltb_lt in Hi. rewrite Hi.
  apply nth_skipn.
Qed.

Lemma insert_at_end (idx : list nat) (t : nat) :
  insert_at (length idx) t idx = idx ++ [t].
Proof.
  unfold insert_at. rewrite take_ge, drop_ge by lia. reflexivity.
Qed.

Lemma valid_index_app (s1 s2 i1 i2 : list nat) :
  valid_index s1 i1 -> valid_index s2 i2 -> valid_index (s1 ++ s2) (i1 ++ i2).
Proof. unfold valid_index. apply Forall2_app. Qed.

Section MoreElements.
Context {A : Type} `{Num A}.

Lemma sum_axis_get (k : nat) (a : ndarray A) (idx : list nat) :
  k < ndim a -> wf a -> valid_index (delete k (shape a)) idx ->
  get (reduce_axis k sum_block a) idx
  = nsum (map (fun t => get a (insert_at k t idx))
              (seq 0 (nth k (shape a) 0))).
Proof.
  intros Hk Hw Hv.
  rewrite reduce_axis_get by (auto; intros blk; apply sum_block_length).
  pose proof Hk as Hk'. unfold ndim in Hk'.
  destruct (valid_index_delete k _ idx Hk' Hv) as (Hl & Hv1 & Hv2).
  apply offset_lt in Hv1, Hv2.
  set (outer := prod (take k (shape a))) in *.
  set (n := nth k (shape a) 0) in *.
  set (inner := prod (drop (S k) (shape a))) in *.
  set (o := offset (take k (shape a)) (take k idx)) in *.
  set (i := offset (drop (S k) (shape a)) (drop k idx)) in *.
  set (blk := nth o (chunks outer (n * inner) (elems a)) []).
  assert (Hblk : length blk = n * inner).
  { unfold blk. rewrite chunks_nth by exact Hv1.
    rewrite length_take, length_drop.
    unfold wf in Hw. rewrite Hw, (prod_split k (shape a) Hk').
    fold outer n inner. nia. }
  unfold sum_block.
  rewrite colsum_nth by (try apply chunks_Forall_length; lia).
  f_equal. rewrite chunks_as_map, map_map.
  apply map_ext_in. intros t Ht. apply in_seq in Ht.
  unfold get. rewrite offset_insert by assumption.
  fold n inner o i.
  rewrite <- (slab_nth outer n inner o t i) by lia.
  fold blk. rewrite chunks_nth by lia. reflexivity.
Qed.

Lemma pick_axis_get (k j : nat) (a : ndarray A) (idx : list nat) :
  k < ndim a -> wf a -> j < nth k (shape a) 0 ->
  valid_index (delete k (shape a)) idx ->
  get (reduce_axis k (pick_block j) a) idx = get a (insert_at k j idx).
Proof.
  intros Hk Hw Hj Hv.
  rewrite reduce_axis_get
    by (auto; intros blk Hb; apply pick_block_length; assumption).
  pose proof Hk as Hk'. unfold ndim in Hk'.
  destruct (valid_index_delete k _ idx Hk' Hv) as (Hl & Hv1 & Hv2).
  apply offset_lt in Hv1, Hv2.
  unfold get at 1. rewrite offset_insert by assumption.
  set (outer := prod (take k (shape a))) in *.
  set (n := nth k (shape a) 0) in *.
  set (inner := prod (drop (S k) (shape a))) in *.
  set (o := offset (take k (shape a)) (take k idx)) in *.
  set (i := offset (drop (S k) (shape a)) (drop k idx)) in *.
  unfold pick_block. rewrite nth_take_drop by exact Hv2.
  rewrite chunks_nth by exact Hv1.
  rewrite nth_take_drop by nia.
  unfold get. f_equal. lia.
Qed.

Lemma get_map_arr (f : A -> A) (a : ndarray A) (idx : list nat) :
  wf a -> valid_index (shape a) idx ->
  get (map_arr f a) idx = f (get a idx).
Proof.
  intros Hw Hv. unfold get, map_arr. cbn [shape elems].
  apply nth_map_lt. rewrite Hw. apply offset_lt. exact Hv.
Qed.

(** The mean over the last axis, element by element. *)
Lemma zonal_mean_get (s : list nat) (n : nat) (d : ndarray A) :
  shape d = s ++ [n] -> wf d ->
  exists zm,
    zonal_mean d = OK zm /\ shape zm = s /\ wf zm /\
    forall idx, valid_index s idx ->
      get zm idx
      = ndiv (nsum (map (fun i => get d (idx ++ [i])) (seq 0 n)))
             (of_Z (Z.of_nat n)).
Proof.
  intros Hs Hw.
  assert (Hn : ndim d = S (length s))
    by (unfold ndim; rewrite Hs, length_app; simpl; lia).
  exists (reduce_axis (length s) mean_block d).
  assert (Hz : zonal_mean d = OK (reduce_axis (length s) mean_block d)).
  { unfold zonal_mean, mean_axis, norm_axis. rewrite Hn, norm_index_last.
    reflexivity. }
  split; [exact Hz|].
  destruct (mean_axis_inv _ _ _ Hz) as (k & Hk & _ & _ & Hsh & _ & Hwf).
  rewrite Hn, norm_index_last in Hk. inversion Hk; subst k.
  rewrite Hs, delete_last_app1 in Hsh.
  split; [exact Hsh|]. split; [exact (Hwf Hw)|].
  intros idx Hv.
  rewrite mean_axis_get.
  - rewrite Hs, nth_app_length. f_equal. f_equal. apply map_ext. intros i.
    rewrite <- (Forall2_length _ _ _ Hv), insert_at_end. reflexivity.
  - lia.
  - exact Hw.
  - rewrite Hs, delete_last_app1. exact Hv.
Qed.

End MoreElements.

(** ** Vertical dimensions (metrics.py) *)

Lemma find_first {T : Type} (f : T -> bool) (l : list T) :
  match List.find f l with
  | Some x =>
      exists l1 l2, l = l1 ++ x :: l2 /\ f x = true /\
                    Forall (fun y => f y = false) l1
  | None => Forall (fun y => f y = false) l
  end.
Proof.
  induction l as [|y l IH]; simpl; [constructor|].
  destruct (f y) eqn:Ey.
  - exists [], l. auto.
  - destruct (List.find f l) as [x|].
    + destruct IH as (l1 & l2 & -> & Hx & Hl1).
      exists (y :: l1), l2. split; [reflexivity|]. split; [exact Hx|].
      constructor; assumption.
    + constructor; assumption.
Qed.

Section Vertical.
Context {A : Type} `{Num A}.

Lemma find_vertical_cases (self : MetricsDataset A) (name : string) :
  match find_vertical self name with
  | OK v =>
      exists l1 l2, vertical self = l1 ++ v :: l2 /\ var_name v = name /\
                    Forall (fun d => var_name d <> name) l1
  | Error e =>
      e = ValueError "Could not find the vertical dimension." /\
      Forall (fun d => var_name d <> name) (vertical self)
  end.
Proof.
  unfold find_vertical.
  pose proof (find_first (fun dim => String.eqb name (var_name dim))
                (vertical self)) as Hf.
  assert (Hne : forall l : list (NcVariable A),
            Forall (fun y => String.eqb name (var_name y) = false) l ->
            Forall (fun d => var_name d <> name) l).
  { intros l Hl. eapply Forall_impl; [exact Hl|]. intros d Hd E.
    cbv beta in Hd. rewrite E, String.eqb_refl in Hd. discriminate. }
  destruct (List.find _ (vertical self)) as [v|]; simpl.
  - destruct Hf as (l1 & l2 & Hl & Hv & Hl1).
    exists l1, l2. split; [exact Hl|]. split; [|apply Hne; exact Hl1].
    apply String.eqb_eq in Hv. congruence.
  - split; [reflexivity|]. apply Hne. exact Hf.
Qed.

(** X1: [find_vertical] gives the first vertical variable of the given name,
    in the order of [self.vertical], and raises ValueError when no
    vertical variable has that name. *)
Theorem find_vertical_first (self : MetricsDataset A) (name : string) :
  match find_vertical self name with
  | OK v =>
      exists l1 l2, vertical self = l1 ++ v :: l2 /\ var_name v = name /\
                    Forall (fun d => var_name d <> name) l1
  | Error e =>
      e = ValueError "Could not find the vertical dimension." /\
      Forall (fun d => var_name d <> name) (vertical self)
  end.
Proof. apply find_vertical_cases. Qed.

Lemma is_vertical_cases (self : MetricsDataset A) (name : string) :
  is_vertical self name
  = match find_vertical self name with OK _ => OK true | Error _ => OK false end.
Proof.
  unfold is_vertical.
  pose proof (find_vertical_cases self name) as Hf.
  destruct (find_vertical self name) as [v|e]; [reflexivity|].
  destruct Hf as [-> _]. reflexivity.
Qed.

(** X2: [is_vertical] never raises: it answers whether some vertical
    variable has the given name. *)
Theorem is_vertical_decides (self : MetricsDataset A) (name : string) :
  exists b, is_vertical self name = OK b /\
            (b = true <-> exists v, In v (vertical self) /\ var_name v = name).
Proof.
  rewrite is_vertical_cases.
  pose proof (find_vertical_cases self name) as Hf.
  destruct (find_vertical self name) as [v|e].
  - exists true. split; [reflexivity|]. split; [|reflexivity]. intros _.
    destruct Hf as (l1 & l2 & Hl & Hn & _). exists v. split; [|exact Hn].
    rewrite Hl. apply in_or_app. right. left. reflexivity.
  - exists false. split; [reflexivity|]. split; [discriminate|].
    intros (v & Hin & Hn). destruct Hf as [_ Hall].
    rewrite Forall_forall in Hall. exfalso.
    apply (Hall v); [apply list_elem_of_In; exact Hin | exact Hn].
Qed.

End Vertical.

(** ** A field times a vector along its last axis *)

Section ChunksOfChunks.
Context {T : Type}.
Implicit Types (l : list T).

Lemma chunks_add (a b n : nat) l :
  chunks (a + b) n l = chunks a n l ++ chunks b n (drop (a * n) l).
Proof.
  revert l. induction a as [|a IH]; intros l; simpl.
  - rewrite drop_0. reflexivity.
  - rewrite IH, drop_drop. reflexivity.
Qed.

Lemma chunks_take (m n k : nat) l :
  m * n <= k -> chunks m n (take k l) = chunks m n l.
Proof.
  revert k l. induction m as [|m IH]; intros k l Hk; simpl; [reflexivity|].
  rewrite take_take. replace (n `min` k) with n by lia. f_equal.
  replace k with (n + (k - n)) at 1 by lia.
  rewrite <- take_drop_commute. apply IH. simpl in Hk. lia.
Qed.

Lemma chunks_chunks (m p n : nat) l :
  chunks (m * p) n l = concat (map (chunks p n) (chunks m (p * n) l)).
Proof.
  revert l. induction m as [|m IH]; intros l; simpl; [reflexivity|].
  rewrite chunks_add, IH, chunks_take by lia. reflexivity.
Qed.

Lemma concat_map_concat {U : Type} (f : list T -> list U) (ls : list (list (list T))) :
  concat (map f (concat ls)) = concat (map (fun c => concat (map f c)) ls).
Proof.
  induction ls as [|c ls IH]; simpl; [reflexivity|].
  rewrite map_app, concat_app, IH. reflexivity.
Qed.

End ChunksOfChunks.

Lemma nth_zip_with_lt {T U V : Type} (f : T -> U -> V) (l1 : list T)
    (l2 : list U) (d1 : T) (d2 : U) (d : V) (i : nat) :
  length l1 = length l2 -> i < length l1 ->
  nth i (zip_with f l1 l2) d = f (nth i l1 d1) (nth i l2 d2).
Proof.
  intros Hl Hi.
  rewrite (nth_indep _ d (f d1 d2)) by (rewrite length_zip_with; lia).
  apply nth_zip_with. exact Hl.
Qed.

Section Trailing.
Context {A : Type} `{Num A}.

Lemma bcast_trailing_rows (f : A -> A -> A) (s : list nat) (n : nat)
    (d1 w : list A) :
  length d1 = prod s * n -> length w = n ->
  bcast f (s ++ [n]) (replicate (length s) 1 ++ [n]) d1 w
  = concat (map (fun row => zip_with f row w) (chunks (prod s) n d1)).
Proof.
  intros Hd Hw. revert d1 Hd. induction s as [|n1 s IH]; intros d1 Hd.
  - simpl app. rewrite bcast_same by (simpl in *; lia).
    simpl. rewrite app_nil_r, take_ge by (simpl in Hd; lia). reflexivity.
  - cbn [app replicate length bcast prod foldr].
    fold (prod (s ++ [n])). fold (prod (replicate (length s) 1 ++ [n])).
    fold (prod s). rewrite prod_ones.
    assert (Hp : prod (s ++ [n]) = prod s * n)
      by (rewrite prod_app; simpl; lia).
    cbn [prod foldr] in Hd. fold (prod s) in Hd.
    destruct (n1 =? 1) eqn:E.
    + apply Nat.eqb_eq in E. subst n1. simpl.
      rewrite !Nat.add_0_r, !app_nil_r.
      rewrite (take_ge d1) by lia. rewrite (take_ge w) by lia.
      apply IH. lia.
    + rewrite chunks_chunks, <- Hp.
      rewrite concat_map_concat, map_map. f_equal.
      apply map_ext_Forall.
      eapply Forall_impl; [apply (chunks_Forall_length n1 (prod (s ++ [n])) d1); nia|].
      intros x Hx. cbv beta in *. apply IH. lia.
Qed.

(** A field and a vector as long as its last axis: the product, element
    by element. *)
Lemma broadcast2_trailing (f : A -> A -> A) (s : list nat) (n : nat)
    (a w : ndarray A) :
  shape a = s ++ [n] -> wf a -> shape w = [n] -> wf w ->
  exists p,
    broadcast2 f a w = OK p /\ shape p = s ++ [n] /\ wf p /\
    forall idx j, valid_index s idx -> j < n ->
      get p (idx ++ [j]) = f (get a (idx ++ [j])) (get w [j]).
Proof.
  intros Hs Ha Hws Hw.
  unfold wf in Ha, Hw. rewrite Hs, prod_app in Ha. rewrite Hws in Hw.
  cbn [prod foldr] in Ha, Hw.
  exists (NDArray (s ++ [n])
            (concat (map (fun row => zip_with f row (elems w))
                         (chunks (prod s) n (elems a))))).
  assert (Hrows : Forall (fun c => length c = n)
                    (map (fun row => zip_with f row (elems w))
                         (chunks (prod s) n (elems a)))).
  { apply Forall_map.
    eapply Forall_impl; [apply (chunks_Forall_length (prod s) n); lia|].
    intros row Hr. cbv beta in *. rewrite length_zip_with. lia. }
  split; [|split; [reflexivity|split]].
  - unfold broadcast2, ndim, pad. rewrite Hs, Hws, length_app. cbn [length].
    replace ((length s + 1) `max` 1 - (length s + 1)) with 0 by lia.
    replace ((length s + 1) `max` 1 - 1) with (length s) by lia.
    cbn [replicate app].
    rewrite bshape_trailing. cbn [of_option bind]. f_equal. f_equal.
    apply bcast_trailing_rows; lia.
  - unfold wf. cbn [shape elems].
    rewrite (concat_length_const n) by exact Hrows.
    rewrite length_map, chunks_length, prod_app. simpl. lia.
  - intros idx j Hv Hj.
    pose proof (Forall2_length _ _ _ Hv) as Hl.
    pose proof (offset_lt _ _ Hv) as Ho.
    assert (Hoff : offset (s ++ [n]) (idx ++ [j]) = offset s idx * n + j).
    { rewrite offset_app by exact Hl. simpl. lia. }
    unfold get. cbn [shape elems]. rewrite Hs, Hws, Hoff.
    rewrite (concat_nth n) by assumption.
    rewrite (nth_map_lt _ _ _ []) by (rewrite chunks_length; exact Ho).
    assert (Hrow : length (nth (offset s idx) (chunks (prod s) n (elems a)) []) = n).
    { rewrite chunks_nth by exact Ho. rewrite length_take, length_drop. nia. }
    rewrite (nth_zip_with_lt f _ _ nzero nzero) by lia.
    rewrite chunks_nth_nth by assumption.
    simpl. rewrite Nat.mul_1_r, Nat.add_0_r. reflexivity.
Qed.

(** The sum over the last axis, element by element. *)
Lemma sum_last_get (s : list nat) (n : nat) (p : ndarray A) :
  shape p = s ++ [n] -> wf p ->
  exists t,
    sum_axis (-1) p = OK t /\ shape t = s /\ wf t /\
    forall idx, valid_index s idx ->
      get t idx = nsum (map (fun j => get p (idx ++ [j])) (seq 0 n)).
Proof.
  intros Hs Hw.
  assert (Hn : ndim p = S (length s))
    by (unfold ndim; rewrite Hs, length_app; simpl; lia).
  exists (reduce_axis (length s) sum_block p).
  assert (Hz : sum_axis (-1) p = OK (reduce_axis (length s) sum_block p)).
  { unfold sum_axis, norm_axis. rewrite Hn, norm_index_last. reflexivity. }
  split; [exact Hz|].
  destruct (sum_axis_inv _ _ _ Hz) as (k & Hk & _ & _ & Hsh & _ & Hwf).
  rewrite Hn, norm_index_last in Hk. inversion Hk; subst k.
  rewrite Hs, delete_last_app1 in Hsh.
  split; [exact Hsh|]. split; [exact (Hwf Hw)|].
  intros idx Hv.
  rewrite sum_axis_get.
  - rewrite Hs, nth_app_length. f_equal. apply map_ext. intros i.
    rewrite <- (Forall2_length _ _ _ Hv), insert_at_end. reflexivity.
  - lia.
  - exact Hw.
  - rewrite Hs, delete_last_app1. exact Hv.
Qed.

(** [global_mean] on a field of any leading shape, element by element. *)
Lemma global_mean_get (s : list nat) (ny nx : nat) (d lat : ndarray A) :
  shape d = s ++ [ny; nx] -> wf d -> shape lat = [ny] -> wf lat ->
  exists g,
    global_mean d lat = OK g /\ shape g = s /\ wf g /\
    forall idx, valid_index s idx ->
      get g idx
      = ndiv (nsum (map (fun j =>
                      nmul (ndiv (nsum (map (fun i => get d (idx ++ [j; i]))
                                            (seq 0 nx)))
                                 (of_Z (Z.of_nat nx)))
                           (get (weights_of lat) [j]))
                    (seq 0 ny)))
             (nsum (elems (weights_of lat))).
Proof.
  intros Hs Hw Hls Hlw.
  assert (Hs' : shape d = (s ++ [ny]) ++ [nx])
    by (rewrite <- app_assoc; exact Hs).
  destruct (zonal_mean_get (s ++ [ny]) nx d Hs' Hw)
    as (zm & Hzm & Szm & Wzm & Gzm).
  assert (Hws : shape (weights_of lat) = [ny]) by exact Hls.
  assert (Hww : wf (weights_of lat)).
  { unfold wf, weights_of, map_arr. cbn [shape elems].
    rewrite length_map. exact Hlw. }
  destruct (broadcast2_trailing nmul s ny zm (weights_of lat) Szm Wzm Hws Hww)
    as (p & Hp & Sp & Wp & Gp).
  destruct (sum_last_get s ny p Sp Wp) as (t & Ht & St & Wt & Gt).
  exists (map_arr (fun x => ndiv x (nsum (elems (weights_of lat)))) t).
  split; [|split; [exact St|split]].
  - unfold global_mean. rewrite Hzm. cbn [bind]. rewrite Hp. cbn [bind].
    rewrite Ht. reflexivity.
  - unfold wf, map_arr. cbn [shape elems]. rewrite length_map. exact Wt.
  - intros idx Hv.
    rewrite get_map_arr by (rewrite ?St; assumption).
    f_equal. rewrite (Gt idx Hv). f_equal.
    apply map_ext_in. intros j Hj. apply in_seq in Hj.
    rewrite (Gp idx j Hv) by lia. f_equal.
    rewrite Gzm.
    + f_equal. f_equal. apply map_ext. intros i.
      rewrite <- app_assoc. reflexivity.
    + apply valid_index_app; [exact Hv|].
      unfold valid_index. repeat constructor. lia.
Qed.

End Trailing.

(** ** Zonal-mean maps and vertical profiles (metrics.py, maps.py) *)

Section ZonalMap.
Context {A : Type} `{Num A}.

Lemma zonal_map_shape_spec (self : MetricsDataset A) (dims : list string) :
  zonal_map_shape self dims = true <->
  exists z, dims = [z; var_name (latitude self); var_name (longitude self)].
Proof.
  unfold zonal_map_shape, dims_eqb, last2.
  rewrite andb_true_iff, Nat.eqb_eq, bool_decide_eq_true.
  split.
  - intros [Hl Hd].
    destruct dims as [|a [|b [|c [|? ?]]]]; simpl in Hl; try lia.
    simpl in Hd. inversion Hd; subst. exists a. reflexivity.
  - intros [z ->]. split; reflexivity.
Qed.

Lemma zonal_map_shape_not (self : MetricsDataset A) (dims : list string) :
  (forall z, dims <> [z; var_name (latitude self); var_name (longitude self)]) ->
  zonal_map_shape self dims = false.
Proof.
  intros Hne. destruct (zonal_map_shape self dims) eqn:E; [|reflexivity].
  apply zonal_map_shape_spec in E. destruct E as [z Hz].
  exfalso. exact (Hne z Hz).
Qed.

Lemma zonal_map_shape_length (self : MetricsDataset A) (dims : list string) :
  length dims <> 3 -> zonal_map_shape self dims = false.
Proof.
  intros Hl. apply zonal_map_shape_not. intros z ->. apply Hl. reflexivity.
Qed.

(** X3: what [zonal_mean_map] does with a name.
    - A name that was not set with [add_metric]: AttributeError, unless
      it is "time", "longitude", "latitude" or "dataset"; these are
      attributes of the object, and on a grid variable, which has one
      dimension, as on a file that does not have three dimensions, the
      method raises its ValueError.
    - A metric whose dimensions are not a vertical dimension followed by
      the latitude and the longitude: the same ValueError.
    - Otherwise the ValueError of [find_vertical] when the first
      dimension is no vertical variable, AttributeError when that
      variable lacks "units" or "positive", numpy's AxisError on an array
      without axes, and in every other case a map. *)
Theorem zonal_mean_map_rejects (self : MetricsDataset A) (name : string) :
  (metrics self !! name = None ->
   (name <> "time" -> name <> "longitude" -> name <> "latitude" ->
    name <> "dataset" ->
    raises "AttributeError" (zonal_mean_map self name)) /\
   (forall v,
      In (name, v) [("time", time self); ("longitude", longitude self);
                    ("latitude", latitude self)] ->
      length (var_dimensions v) = 1 ->
      zonal_mean_map self name
      = Error (ValueError "Invalid dimensions for a zonal-mean map.")) /\
   (name = "dataset" -> length (ds_dimensions (dataset self)) <> 3 ->
    zonal_mean_map self name
    = Error (ValueError "Invalid dimensions for a zonal-mean map."))) /\
  (forall m, metrics self !! name = Some m ->
     (forall z, dimensions m
                <> [z; var_name (latitude self); var_name (longitude self)]) ->
     zonal_mean_map self name
     = Error (ValueError "Invalid dimensions for a zonal-mean map.")) /\
  (forall m z, metrics self !! name = Some m ->
     dimensions m = [z; var_name (latitude self); var_name (longitude self)] ->
     match find_vertical self z with
     | Error _ =>
         zonal_mean_map self name
         = Error (ValueError "Could not find the vertical dimension.")
     | OK y =>
         match var_attrs y !! "units", var_attrs y !! "positive" with
         | None, _ => raises "AttributeError" (zonal_mean_map self name)
         | Some _, None => raises "AttributeError" (zonal_mean_map self name)
         | Some _, Some _ =>
             if ndim (data m) =? 0 then
               raises "AxisError" (zonal_mean_map self name)
             else exists map, zonal_mean_map self name = OK map
         end
     end).
Proof.
  unfold raises, zonal_mean_map, get_metric. split; [|split].
  - intros ->. split; [|split].
    + intros Nt Nx Ny Nd.
      rewrite (eqb_false_of_ne _ _ Nt), (eqb_false_of_ne _ _ Nx),
        (eqb_false_of_ne _ _ Ny), (eqb_false_of_ne _ _ Nd).
      eexists. reflexivity.
    + intros v Hin Hl.
      assert (Hs : zonal_map_shape self (var_dimensions v) = false)
        by (apply zonal_map_shape_length; lia).
      destruct Hin as [E | [E | [E | []]]]; inversion E; subst;
        cbn [String.eqb Ascii.eqb Bool.eqb bind src_dimensions];
        rewrite Hs; reflexivity.
    + intros -> Hl. cbn [String.eqb Ascii.eqb Bool.eqb bind].
      unfold mapping_shape. apply Nat.eqb_neq in Hl. rewrite Hl. reflexivity.
  - intros m -> Hne. cbn [bind src_dimensions].
    rewrite (zonal_map_shape_not self _ Hne). reflexivity.
  - intros m z -> Hd. cbn [bind src_dimensions src_array src_units].
    rewrite (proj2 (zonal_map_shape_spec self _)) by (exists z; exact Hd).
    rewrite Hd. cbn [item0 head of_option bind].
    pose proof (find_vertical_cases self z) as Hf.
    destruct (find_vertical self z) as [y|e]; cbn [bind].
    + unfold getncattr.
      destruct (var_attrs y !! "units") as [u|]; cbn [of_option bind];
        [|eexists; reflexivity].
      destruct (var_attrs y !! "positive") as [p|]; cbn [of_option bind];
        [|eexists; reflexivity].
      unfold zonal_mean, mean_axis, norm_axis.
      destruct (ndim (data m)) as [|n] eqn:En.
      * eexists. reflexivity.
      * rewrite norm_index_last. cbn [of_option bind Nat.eqb]. eauto.
    + destruct Hf as [-> _]. reflexivity.
Qed.

Lemma zonal_mean_map_ok (self : MetricsDataset A) (name z u p : string)
    (m : DerivedMetric A) (y : NcVariable A) (nz ny nx : nat) :
  metrics self !! name = Some m ->
  dimensions m = [z; var_name (latitude self); var_name (longitude self)] ->
  find_vertical self z = OK y ->
  var_attrs y !! "units" = Some u -> var_attrs y !! "positive" = Some p ->
  shape (data m) = [nz; ny; nx] -> wf (data m) ->
  exists zm,
    zonal_mean_map self name = OK zm /\
    shape (zmm_data zm) = [nz; ny] /\ wf (zmm_data zm) /\
    (forall k j, k < nz -> j < ny ->
       get (zmm_data zm) [k; j]
       = ndiv (nsum (map (fun i => get (data m) [k; j; i]) (seq 0 nx)))
              (of_Z (Z.of_nat nx))) /\
    zmm_x_data zm = var_data (latitude self) /\
    zmm_y_data zm = var_data y /\
    zmm_invert_y_axis zm = String.eqb (lower p) "down" /\
    zmm_xlabel zm = "Latitude"%string /\ zmm_ylabel zm = u /\
    zmm_data_label zm = units m.
Proof.
  intros Hm Hd Hy Hu Hp Hs Hw.
  destruct (zonal_mean_get [nz; ny] nx (data m) Hs Hw)
    as (r & Hr & Sr & Wr & Gr).
  eexists. split.
  - unfold zonal_mean_map, get_metric. rewrite Hm.
    cbn [bind src_dimensions src_array src_units].
    rewrite (proj2 (zonal_map_shape_spec self _)) by (exists z; exact Hd).
    rewrite Hd. cbn [item0 head of_option bind]. rewrite Hy. cbn [bind].
    unfold getncattr. rewrite Hu, Hp. cbn [of_option bind].
    rewrite Hr. cbn [bind]. reflexivity.
  - cbn. split; [exact Sr|]. split; [exact Wr|]. split; [|auto 10].
    intros k j Hk Hj. apply (Gr [k; j]).
    unfold valid_index. repeat constructor; assumption.
Qed.

(** X4: On a metric over (vertical, latitude, longitude) with a well-formed
    (nz, ny, nx) array, [zonal_mean_map] returns the means over the
    longitudes, the latitude as abscissa and the vertical coordinate as
    ordinate, turned over when the vertical variable is positive
    downwards. *)
Theorem zonal_mean_map_values (self : MetricsDataset A) (name z u p : string)
    (m : DerivedMetric A) (y : NcVariable A) (nz ny nx : nat)
    (Hm : metrics self !! name = Some m)
    (Hd : dimensions m
          = [z; var_name (latitude self); var_name (longitude self)])
    (Hy : find_vertical self z = OK y)
    (Hu : var_attrs y !! "units" = Some u)
    (Hp : var_attrs y !! "positive" = Some p)
    (Hs : shape (data m) = [nz; ny; nx]) (Hw : wf (data m)) :
  exists zm,
    zonal_mean_map self name = OK zm /\
    shape (zmm_data zm) = [nz; ny] /\
    (forall k j, k < nz -> j < ny ->
       get (zmm_data zm) [k; j]
       = ndiv (nsum (map (fun i => get (data m) [k; j; i]) (seq 0 nx)))
              (of_Z (Z.of_nat nx))) /\
    zmm_x_data zm = var_data (latitude self) /\
    zmm_y_data zm = var_data y /\
    zmm_invert_y_axis zm = String.eqb (lower p) "down" /\
    zmm_xlabel zm = "Latitude"%string /\ zmm_ylabel zm = u /\
    zmm_data_label zm = units m.
Proof.
  destruct (zonal_mean_map_ok self name z u p m y nz ny nx Hm Hd Hy Hu Hp Hs Hw)
    as (zm & H0 & H1 & _ & H2).
  exists zm. auto.
Qed.

(** X5: The mean that [quad_maps] and [net_maps] print in the title of a
    zonal-mean map is [global_mean] of the map's data against the map's
    ordinate: the plain mean of every level over the latitudes,
    weighted over the levels by the cosine of the vertical coordinate
    read as degrees. *)
Theorem zonal_title_mean_weights (self : MetricsDataset A)
    (name z u p : string) (m : DerivedMetric A) (y : NcVariable A)
    (nz ny nx : nat)
    (Hm : metrics self !! name = Some m)
    (Hd : dimensions m
          = [z; var_name (latitude self); var_name (longitude self)])
    (Hy : find_vertical self z = OK y)
    (Hu : var_attrs y !! "units" = Some u)
    (Hp : var_attrs y !! "positive" = Some p)
    (Hs : shape (data m) = [nz; ny; nx]) (Hw : wf (data m))
    (Hys : shape (var_data y) = [nz]) (Hyw : wf (var_data y)) :
  exists zm,
    zonal_mean_map self name = OK zm /\
    title_mean (PlotZonalMean zm)
    = OK (Some
            (ndiv (nsum (map (fun k =>
                           nmul (ndiv (nsum (map (fun j => get (zmm_data zm) [k; j])
                                                 (seq 0 ny)))
                                      (of_Z (Z.of_nat ny)))
                                (ncos (ndiv (nmul (nmul (of_Z 2) npi)
                                                  (get (var_data y) [k]))
                                            (of_Z 360))))
                         (seq 0 nz)))
                  (nsum (map (fun l => ncos (ndiv (nmul (nmul (of_Z 2) npi) l)
                                                  (of_Z 360)))
                             (elems (var_data y)))))).
Proof.
  destruct (zonal_mean_map_ok self name z u p m y nz ny nx Hm Hd Hy Hu Hp Hs Hw)
    as (zm & H0 & Sz & Wz & _ & _ & Ey & _).
  exists zm. split; [exact H0|].
  destruct (global_mean_get [] nz ny (zmm_data zm) (zmm_y_data zm))
    as (g & Hg & Sg & _ & Gg); try assumption; try (rewrite Ey; assumption).
  unfold title_mean. rewrite Hg. cbn [bind].
  unfold format_mean, ndim. rewrite Sg. cbn [length Nat.eqb bind].
  rewrite (Gg []) by constructor. rewrite Ey. cbn [app].
  f_equal. f_equal. f_equal. f_equal. apply map_ext_in. intros k Hk.
  apply in_seq in Hk. f_equal.
  unfold get, weights_of, map_arr. cbn [shape elems]. rewrite Hys.
  rewrite (nth_map_lt _ _ _ nzero); [reflexivity|].
  unfold wf in Hyw. rewrite Hyw, Hys. simpl. lia.
Qed.

(** X6: [global_mean_vertical_plot] puts the global means on the abscissa
    and the vertical coordinate on the ordinate, each with the other's
    label after the exchange in the constructor, and always turns the
    vertical axis over; on a well-formed (nz, ny, nx) array over ny
    latitudes the mean of level k is the mean over the longitudes,
    weighted over the latitudes by the cosines. *)
Theorem global_mean_vertical_plot_profile (self : MetricsDataset A)
    (name z u : string) (m : DerivedMetric A) (y : NcVariable A)
    (nz ny nx : nat)
    (Hm : metrics self !! name = Some m)
    (Hd : dimensions m
          = [z; var_name (latitude self); var_name (longitude self)])
    (Hy : find_vertical self z = OK y)
    (Hu : var_attrs y !! "units" = Some u)
    (Hs : shape (data m) = [nz; ny; nx]) (Hw : wf (data m))
    (Hls : shape (var_data (latitude self)) = [ny])
    (Hlw : wf (var_data (latitude self))) :
  exists gp,
    global_mean_vertical_plot self name = OK gp /\
    gmp_data gp = var_data y /\ gmp_ylabel gp = u /\
    gmp_xlabel gp = units m /\ gmp_invert_y_axis gp = true /\
    shape (gmp_x_data gp) = [nz] /\
    forall k, k < nz ->
      get (gmp_x_data gp) [k]
      = ndiv (nsum (map (fun j =>
                      nmul (ndiv (nsum (map (fun i => get (data m) [k; j; i])
                                            (seq 0 nx)))
                                 (of_Z (Z.of_nat nx)))
                           (get (weights_of (var_data (latitude self))) [j]))
                    (seq 0 ny)))
             (nsum (elems (weights_of (var_data (latitude self))))).
Proof.
  destruct (global_mean_get [nz] ny nx (data m) (var_data (latitude self))
              Hs Hw Hls Hlw) as (g & Hg & Sg & _ & Gg).
  eexists. split.
  - unfold global_mean_vertical_plot, get_metric. rewrite Hm.
    cbn [bind src_dimensions src_units].
    rewrite (proj2 (zonal_map_shape_spec self _)) by (exists z; exact Hd).
    rewrite Hd. cbn [item0 head of_option bind]. rewrite Hy. cbn [bind].
    unfold getncattr. rewrite Hu. cbn [of_option bind].
    rewrite Hg. cbn [bind]. reflexivity.
  - cbn. repeat (split; [reflexivity|]). split; [exact Sg|].
    intros k Hk. apply (Gg [k]).
    unfold valid_index. repeat constructor; assumption.
Qed.

End ZonalMap.

(** X7: [global_mean] on a well-formed field of shape (..., ny, nx) over ny
    latitudes: at every leading index, the means over the longitudes,
    weighted by cos(2 pi latitude / 360), summed over the latitudes and
    divided by the sum of the weights. *)
Theorem global_mean_by_index (s : list nat) (ny nx : nat) (d lat : ndarray R)
    (Hs : shape d = s ++ [ny; nx]) (Hw : wf d)
    (Hls : shape lat = [ny]) (Hlw : wf lat) :
  exists g,
    global_mean d lat = OK g /\ shape g = s /\
    forall idx, valid_index s idx ->
      get g idx
      = (nsum (map (fun j =>
                 (nsum (map (fun i => get d (idx ++ [j; i])) (seq 0 nx))
                  / INR nx * cos (2 * PI * get lat [j] / 360))%R)
               (seq 0 ny))
         / nsum (map (fun l => cos (2 * PI * l / 360)%R) (elems lat)))%R.
Proof.
  destruct (global_mean_get s ny nx d lat Hs Hw Hls Hlw)
    as (g & Hg & Sg & _ & Gg).
  exists g. split; [exact Hg|]. split; [exact Sg|].
  intros idx Hv. rewrite (Gg idx Hv). cbn [ndiv nmul Num_R].
  f_equal. f_equal. apply map_ext_in. intros j Hj. apply in_seq in Hj.
  rewrite <- INR_IZR_INZ. f_equal.
  unfold get, weights_of, map_arr. cbn [shape elems]. rewrite Hls.
  rewrite (nth_map_lt _ _ _ nzero); [reflexivity|].
  unfold wf in Hlw. rewrite Hlw, Hls. simpl. lia.
Qed.

(** ** The constructor's choice of coordinates (metrics.py) *)

Section FirstOfRole.
Context {A : Type} `{Num A}.

(** X8: [MetricsDataset] takes, for the time, the longitude and the
    latitude, the first variable of the role in the order of the file,
    keeps every vertical variable in that order, and starts with no
    metric. *)
Theorem MetricsDataset_init_first (ds : Dataset A) (md : MetricsDataset A)
    (Hi : MetricsDataset_init ds = OK md) :
  dataset md = ds /\ metrics md = ∅ /\
  (exists l, List.filter (is_axis "t") (values ds) = time md :: l) /\
  (exists l, List.filter (is_axis "x") (values ds) = longitude md :: l) /\
  (exists l, List.filter (is_axis "y") (values ds) = latitude md :: l) /\
  vertical md = List.filter (is_axis "z") (values ds).
Proof.
  destruct (init_ok_inv ds md Hi) as (Hd & Hm & [lt Ht] & [lx Hx] & [ly Hy] & Hz).
  split; [exact Hd|]. split; [exact Hm|].
  apply grid_ok in Ht, Hx, Hy. destruct Ht as [Ht _], Hx as [Hx _], Hy as [Hy _].
  split; [exists lt; congruence|]. split; [exists lx; congruence|].
  split; [exists ly; congruence|].
  unfold grid in Hz. fold (values ds) in Hz.
  destruct (List.filter (is_axis "z") (values ds)) as [|z0 lz];
    simpl in Hz; congruence.
Qed.

End FirstOfRole.

(** ** One time level (metrics.py) *)

Lemma norm_index_in_range (i : Z) (n : nat) :
  (- Z.of_nat n <= i < Z.of_nat n)%Z ->
  norm_index i n = Some (Z.to_nat (i mod Z.of_nat n)).
Proof.
  intros Hi. unfold norm_index. destruct (i <? 0)%Z eqn:E.
  - apply Z.ltb_lt in E.
    replace (0 <=? i + Z.of_nat n)%Z with true by (symmetry; apply Z.leb_le; lia).
    replace (i + Z.of_nat n <? Z.of_nat n)%Z with true
      by (symmetry; apply Z.ltb_lt; lia).
    cbn [andb]. f_equal. f_equal.
    apply (Z.mod_unique_pos _ _ (-1)); lia.
  - apply Z.ltb_ge in E.
    replace (0 <=? i)%Z with true by (symmetry; apply Z.leb_le; lia).
    replace (i <? Z.of_nat n)%Z with true by (symmetry; apply Z.ltb_lt; lia).
    cbn [andb]. f_equal. f_equal. symmetry. apply Z.mod_small. lia.
Qed.

Lemma norm_index_out_of_range (i : Z) (n : nat) :
  ~ (- Z.of_nat n <= i < Z.of_nat n)%Z -> norm_index i n = None.
Proof.
  intros Hi. unfold norm_index.
  destruct (i <? 0)%Z eqn:E;
    [apply Z.ltb_lt in E | apply Z.ltb_ge in E];
    match goal with |- context [andb ?a ?b] => destruct (andb a b) eqn:Eb end;
    try reflexivity;
    apply andb_true_iff in Eb; destruct Eb as [E1 E2];
    apply Z.leb_le in E1; apply Z.ltb_lt in E2; lia.
Qed.

Lemma list_index_head (x : string) (l : list string) :
  list_index x l = Some 0 -> exists l', l = x :: l' /\ list_remove x l = Some l'.
Proof.
  destruct l as [|y l]; simpl; [discriminate|].
  destruct (String.eqb y x) eqn:E.
  - apply String.eqb_eq in E. subst. intros _. exists l. auto.
  - destruct (list_index x l); simpl; discriminate.
Qed.

Section Instantaneous.
Context {A : Type} `{Num A}.

(** X9: With "instantaneous", on a source whose first dimension is the time
    and whose well-formed array has n time levels, [add_metric] keeps
    the level [time_index], counted from the end when negative, drops
    the time name and registers the metric; an index outside -n..n-1
    raises IndexError and registers nothing. *)
Theorem add_metric_instantaneous (self : MetricsDataset A) (name : string)
    (variable : source A) (ti : Z) (d : NcVariable A + DerivedMetric A)
    (u : string) (n : nat) (s : list nat)
    (Hd : resolve self variable = OK d) (Hu : src_units d = OK u)
    (Hk : list_index (var_name (time self)) (src_dimensions d) = Some 0)
    (Hs : shape (src_array d) = n :: s) (Hw : wf (src_array d)) :
  ((- Z.of_nat n <= ti < Z.of_nat n)%Z ->
   exists m,
     add_metric name variable "instantaneous" ti self
       = (OK tt, set_metric self name m) /\
     shape (data m) = s /\
     src_dimensions d = var_name (time self) :: dimensions m /\
     units m = u /\
     forall idx, valid_index s idx ->
       get (data m) idx
       = get (src_array d) (Z.to_nat (ti mod Z.of_nat n) :: idx)) /\
  (~ (- Z.of_nat n <= ti < Z.of_nat n)%Z ->
   exists msg,
     add_metric name variable "instantaneous" ti self
     = (Error (IndexError msg), self)).
Proof.
  destruct (list_index_head _ _ Hk) as (dims' & Hdims & Hrm).
  assert (Hred : reduce_time self variable "instantaneous" ti
                 = do d' <- index_axis 0 ti (src_array d);
                   OK (Build_DerivedMetric d' dims' u)).
  { unfold reduce_time. rewrite Hd. cbn [bind]. rewrite Hu. cbn [bind].
    cbn [String.eqb Ascii.eqb Bool.eqb].
    unfold index_py, remove_py. rewrite Hk, Hrm. cbn [of_option bind Nat.eqb negb].
    destruct (index_axis 0 ti (src_array d)); reflexivity. }
  unfold add_metric. rewrite Hred. unfold index_axis. rewrite Hs.
  cbn [lookup list_lookup of_option bind]. split.
  - intros Hr. rewrite (norm_index_in_range ti n Hr). cbn [of_option bind].
    eexists. split; [reflexivity|]. cbn [data dimensions units].
    split; [unfold reduce_axis; rewrite Hs; reflexivity|].
    split; [exact Hdims|]. split; [reflexivity|].
    intros idx Hv. rewrite pick_axis_get.
    + reflexivity.
    + unfold ndim. rewrite Hs. simpl. lia.
    + exact Hw.
    + rewrite Hs. simpl.
      pose proof (Z.mod_pos_bound ti (Z.of_nat n) ltac:(lia)). lia.
    + rewrite Hs. exact Hv.
  - intros Hr. rewrite (norm_index_out_of_range ti n Hr). eexists. reflexivity.
Qed.

End Instantaneous.

(** ** The fluxes at a level (fluxes.py) *)

Section FluxLevel.
Context {A : Type} `{Num A}.

Lemma Fluxes_init_inv (ds : Dataset A) (self : Fluxes A) :
  Fluxes_init ds = OK self ->
  exists v0 rest positive,
    dataset (base self) = ds /\ vertical (base self) = v0 :: rest /\
    var_attrs v0 !! "positive" = Some positive /\
    toa self = (if String.eqb (lower positive) "down" then 0 else -1)%Z /\
    surface self = (if String.eqb (lower positive) "down" then -1 else 0)%Z.
Proof.
  unfold Fluxes_init. intros Hf. ok_step Hf md Hmd. ok_step Hf v0 Hv0.
  ok_step Hf p Hp. apply of_option_ok in Hv0, Hp.
  destruct (vertical md) as [|v rest] eqn:Ev; simpl in Hv0; [discriminate|].
  inversion Hv0; subst v.
  destruct (init_ok_inv ds md Hmd) as (Hds & _).
  exists v0, rest, p.
  destruct (String.eqb (lower p) "down"); inversion Hf; subst; simpl; auto.
Qed.

(** X10: The level that a location names: the first level of the flux
    variable for the top of the atmosphere and the last for the surface
    when the first vertical variable is positive downwards, and the
    other way round otherwise.  The located flux is the variable at that
    level, with the vertical axis dropped. *)
Theorem flux_picks_level (ds : Dataset A) (self : Fluxes A)
    (regime direction conditions loc : string) (m : DerivedMetric A)
    (Hinit : Fluxes_init ds = OK self) (Hwf : dataset_wf ds)
    (Hloc : loc = "toa"%string \/ loc = "surface"%string)
    (Hf : flux self regime direction conditions (Some loc) = OK m) :
  exists v0 rest positive r d c var nt nz s,
    vertical (base self) = v0 :: rest /\
    var_attrs v0 !! "positive" = Some positive /\
    regimes regime = OK r /\ directions direction = OK d /\
    sky conditions = OK c /\
    lookup_variable ds ("r" ++ r ++ d ++ c)%string = OK var /\
    shape (var_data var) = nt :: nz :: s /\ 0 < nz /\
    shape (data m) = nt :: s /\
    forall t idx, valid_index (nt :: s) (t :: idx) ->
      get (data m) (t :: idx)
      = get (var_data var)
          (t :: (if Bool.eqb (String.eqb (lower positive) "down")
                             (String.eqb loc "toa")
                 then 0 else nz - 1) :: idx).
Proof.
  destruct (Fluxes_init_inv ds self Hinit)
    as (v0 & rest & positive & Hds & Hv & Hp & Htoa & Hsurf).
  destruct (flux_located_inv _ _ _ _ _ _ Hf)
    as (r & d & c & var & d1 & i & Hr & Hd & Hc & Hvar & _ & _ & Hi & Hx & _).
  rewrite Hds in Hvar.
  pose proof (lookup_variable_wf ds _ var Hwf Hvar) as Hw.
  destruct (index_axis_inv _ _ _ _ Hx)
    as (nz & j & Hnz & Hj & Hlt & Hm & Hsh & _).
  destruct (shape (var_data var)) as [|nt [|nz' s]] eqn:Es;
    simpl in Hnz; try discriminate.
  inversion Hnz; subst nz'.
  pose proof (norm_index_lt _ _ _ Hj) as Hjlt.
  exists v0, rest, positive, r, d, c, var, nt, nz, s.
  repeat (split; [assumption|]). split; [lia|]. split; [exact Hsh|].
  assert (Hlev : j = if Bool.eqb (String.eqb (lower positive) "down")
                                 (String.eqb loc "toa")
                     then 0 else nz - 1).
  { unfold location_index in Hi.
    destruct nz as [|nz]; [lia|].
    destruct Hloc as [-> | ->]; cbn [String.eqb Ascii.eqb Bool.eqb] in Hi |- *;
      inversion Hi; subst i;
      [rewrite Htoa in Hj | rewrite Hsurf in Hj];
      destruct (String.eqb (lower positive) "down"); cbn [Bool.eqb];
      try (rewrite norm_index_last in Hj; inversion Hj; lia);
      change 0%Z with (Z.of_nat 0) in Hj;
      rewrite (norm_index_nat 0 (S nz)) in Hj by lia; inversion Hj; lia. }
  intros t idx Hv'.
  rewrite Hm, pick_axis_get.
  - unfold insert_at. cbn [take drop app]. rewrite drop_0, Hlev. reflexivity.
  - exact Hlt.
  - exact Hw.
  - rewrite Es. simpl. exact Hjlt.
  - rewrite Es. exact Hv'.
Qed.

Lemma KeyError_regimes (regime : string) :
  regime <> "longwave"%string -> regime <> "shortwave"%string ->
  regimes regime = Error (KeyError regime).
Proof.
  intros H1 H2. unfold regimes. rewrite !eqb_false_of_ne by assumption.
  reflexivity.
Qed.

(** X11: [flux] fails with KeyError on a regime, a direction or a sky
    condition that its tables do not hold, in that order, and on a
    variable that the file does not hold; with a location it fails with
    IndexError on a variable of fewer than two dimensions and with
    ValueError when the second dimension is no vertical variable. *)
Theorem flux_rejects (self : Fluxes A) (regime direction conditions : string)
    (location : option string) :
  (regime <> "longwave"%string -> regime <> "shortwave"%string ->
   flux self regime direction conditions location = Error (KeyError regime)) /\
  (forall r, regimes regime = OK r ->
     direction <> "down"%string -> direction <> "up"%string ->
     flux self regime direction conditions location
     = Error (KeyError direction)) /\
  (forall r d, regimes regime = OK r -> directions direction = OK d ->
     sky conditions = Error (KeyError conditions) ->
     flux self regime direction conditions location
     = Error (KeyError conditions)) /\
  (forall r d c, regimes regime = OK r -> directions direction = OK d ->
     sky conditions = OK c ->
     (forall e, lookup_variable (dataset (base self)) ("r" ++ r ++ d ++ c)%string
                = Error e ->
        e = KeyError ("r" ++ r ++ d ++ c)%string /\
        flux self regime direction conditions location = Error e) /\
     (forall var loc,
        lookup_variable (dataset (base self)) ("r" ++ r ++ d ++ c)%string
        = OK var ->
        location = Some loc ->
        (length (var_dimensions var) < 2 ->
         flux self regime direction conditions location
         = Error (IndexError "list index out of range")) /\
        (forall d1, var_dimensions var !! 1 = Some d1 ->
           Forall (fun v => var_name v <> d1) (vertical (base self)) ->
           flux self regime direction conditions location
           = Error (ValueError
                      "The second slowest dimension must be a vertical dimension.")))).
Proof.
  split; [|split; [|split]].
  - intros H1 H2. unfold flux. rewrite (KeyError_regimes regime H1 H2).
    reflexivity.
  - intros r Hr H1 H2. unfold flux, directions. rewrite Hr. cbn [bind].
    rewrite !eqb_false_of_ne by assumption. reflexivity.
  - intros r d Hr Hd Hs. unfold flux. rewrite Hr, Hd, Hs. reflexivity.
  - intros r d c Hr Hd Hc. split.
    + intros e He. split.
      * unfold lookup_variable in He.
        destruct (List.find _ _); simpl in He; inversion He. reflexivity.
      * unfold flux. rewrite Hr, Hd, Hc. cbn [bind]. rewrite He. reflexivity.
    + intros var loc Hvar ->. split.
      * intros Hlen. unfold flux. rewrite Hr, Hd, Hc. cbn [bind].
        rewrite Hvar. cbn [bind].
        rewrite (lookup_ge_None_2 (var_dimensions var) 1) by lia. reflexivity.
      * intros d1 Hd1 Hno. unfold flux. rewrite Hr, Hd, Hc. cbn [bind].
        rewrite Hvar. cbn [bind]. rewrite Hd1. cbn [of_option bind].
        rewrite is_vertical_cases.
        pose proof (find_vertical_cases (base self) d1) as Hfv.
        destruct (find_vertical (base self) d1) as [v|e]; [|reflexivity].
        destruct Hfv as (l1 & l2 & Hl & Hn & _). exfalso.
        rewrite Hl in Hno. apply Forall_app in Hno. destruct Hno as [_ Hno].
        apply Forall_cons in Hno. destruct Hno as [Hno _]. exact (Hno Hn).
Qed.

Lemma get_zip_with (f : A -> A -> A) (s : list nat) (a b : list A)
    (idx : list nat) :
  length a = prod s -> length b = prod s -> valid_index s idx ->
  get (NDArray s (zip_with f a b)) idx
  = f (get (NDArray s a) idx) (get (NDArray s b) idx).
Proof.
  intros Ha Hb Hv. unfold get. cbn [shape elems].
  apply nth_zip_with_lt; [lia|]. rewrite Ha. apply offset_lt. exact Hv.
Qed.

(** X12: [toa_energy_balance] on fluxes of one shape: the downward flux at
    the top of the atmosphere less the upward one, element by element,
    under the dimensions and the unit of the upward flux. *)
Theorem toa_energy_balance_values (self : Fluxes A) (regime conditions : string)
    (up down : DerivedMetric A)
    (Hwf : dataset_wf (dataset (base self)))
    (Hup : flux_up self regime conditions (Some "toa") = OK up)
    (Hdown : flux_down self regime conditions (Some "toa") = OK down)
    (Hs : shape (data down) = shape (data up)) :
  exists m,
    toa_energy_balance self regime conditions = OK m /\
    shape (data m) = shape (data up) /\
    dimensions m = dimensions up /\ units m = units up /\
    forall idx, valid_index (shape (data up)) idx ->
      get (data m) idx = nsub (get (data down) idx) (get (data up) idx).
Proof.
  pose proof (flux_located_wf _ _ _ _ _ _ Hwf Hup) as Wu.
  pose proof (flux_located_wf _ _ _ _ _ _ Hwf Hdown) as Wd.
  eexists. split.
  - unfold toa_energy_balance. rewrite Hup. cbn [bind]. rewrite Hdown.
    cbn [bind]. rewrite (broadcast2_same_shape nsub _ _ Hs Wd Wu).
    cbn [bind]. reflexivity.
  - cbn [data dimensions units shape]. split; [exact Hs|].
    split; [reflexivity|]. split; [reflexivity|].
    intros idx Hv. unfold wf in Wu, Wd. rewrite Hs in *.
    rewrite get_zip_with by assumption.
    unfold get. cbn [shape elems]. rewrite Hs. reflexivity.
Qed.

End FluxLevel.

(** ** What the four cases leave on the object (fluxes.py) *)

Lemma get_sub_R (s : list nat) (a b : list R) (idx : list nat) :
  length a = length b ->
  get (NDArray s (zip_with Rminus a b)) idx
  = (get (NDArray s a) idx - get (NDArray s b) idx)%R.
Proof.
  intros Hl. unfold get. cbn [shape elems].
  apply nth_zip_with_default; [exact Hl|]. cbn. lra.
Qed.

(** X13: The docstring of [quad_maps], for fields of one shape: at every
    index the first three maps of the returned mapping add up to the
    fourth. *)
Theorem quad_maps_first_three_sum (fluxes fluxes' : Fluxes R)
    (metric regime : string) (location : option string) (map_method : string)
    (out : list (string * DerivedMetric R))
    (all clean clean_clear : DerivedMetric R)
    (Hq : quad_maps fluxes metric regime location map_method = (OK out, fluxes'))
    (Ha : call_metric fluxes metric regime "all" location = OK all)
    (Hc : call_metric fluxes metric regime "clean" location = OK clean)
    (Hcc : call_metric fluxes metric regime "clean-clear" location = OK clean_clear)
    (Hs1 : shape (data clean) = shape (data all))
    (Hs2 : shape (data clean_clear) = shape (data all))
    (Wa : wf (data all)) (Wc : wf (data clean)) (Wcc : wf (data clean_clear)) :
  exists m1 m2 m3 m4,
    out = [("Clean-clear Sky", m1); ("Cloud Effects", m2);
           ("Aerosol Effects", m3); ("All Sky", m4)] /\
    forall idx,
      (get (data m1) idx + get (data m2) idx + get (data m3) idx)%R
      = get (data m4) idx.
Proof.
  destruct (quad_maps_inv _ _ _ _ _ _ _ Hq) as (m1 & m2 & m3 & m4 & Hout & Hf).
  unfold case_list in Hf.
  apply Forall2_cons_1 in Hf. destruct Hf as [H1 Hf].
  apply Forall2_cons_1 in Hf. destruct Hf as [H2 Hf].
  apply Forall2_cons_1 in Hf. destruct Hf as [H3 Hf].
  apply Forall2_cons_1 in Hf. destruct Hf as [H4 _].
  apply case_metric_plain in H1, H4.
  apply case_metric_baseline in H2, H3.
  destruct H2 as (d2 & b2 & Hd2 & Hb2 & Hi2 & _).
  destruct H3 as (d3 & b3 & Hd3 & Hb3 & Hi3 & _).
  assert (m1 = clean_clear) by congruence. assert (m4 = all) by congruence.
  assert (d2 = clean) by congruence. assert (b2 = clean_clear) by congruence.
  assert (d3 = all) by congruence. assert (b3 = clean) by congruence.
  subst.
  exists clean_clear, m2, m3, all. split; [reflexivity|].
  rewrite inplace2_same_shape in Hi2 by congruence.
  rewrite inplace2_same_shape in Hi3 by congruence.
  inversion Hi2 as [E2]. inversion Hi3 as [E3]. clear Hi2 Hi3.
  destruct (data all) as [s ea]. destruct (data clean) as [sc ec].
  destruct (data clean_clear) as [scc ecc].
  unfold wf in Wa, Wc, Wcc. cbn [shape elems] in *. subst sc scc.
  intros idx. rewrite !get_sub_R by congruence. lra.
Qed.

Section QuadState.
Context {A : Type} `{Num A}.

Lemma reduce_time_registered (self : MetricsDataset A) (name : string)
    (a m : DerivedMetric A) (method : string) (ti : Z) :
  reduce_time (set_metric self name a) (SrcMetric m) method ti
  = reduce_time self (SrcMetric m) method ti.
Proof. reflexivity. Qed.

Lemma quad_loop_step_state (metric regime : string) (location : option string)
    (map_method : string) (case : Case) (rest : list Case)
    (output out : list (string * DerivedMetric A)) (f f' : Fluxes A) :
  quad_loop metric regime location map_method (case :: rest) output f
    = (OK out, f') ->
  exists m a,
    case_metric f metric regime location case = OK m /\
    reduce_time (base f) (SrcMetric m) "average" 0 = OK a /\
    quad_loop metric regime location map_method rest
      (odict_set (case_title case) m output)
      (with_base f
         (set_metric (base f)
            (case_data case ++ " " ++ replace_char "_" " " metric)%string a))
    = (OK out, f').
Proof.
  cbn [quad_loop].
  destruct (case_metric f metric regime location case) as [m|e];
    [|discriminate].
  unfold add_metric.
  destruct (reduce_time (base f) (SrcMetric m) "average" 0) as [a|e] eqn:Ea;
    [|discriminate].
  destruct (call_map _ map_method _) as [p|e]; [|discriminate].
  intros Hq. exists m, a. auto.
Qed.

(** X14: A successful [quad_maps] registers the time means of its maps under
    the sky label of each case followed by the method's name, and the
    two cases of label "all" share a name: the mean of the All Sky map
    replaces the one of Aerosol Effects.  Nothing else of the object
    changes. *)
Theorem quad_maps_registers (fluxes fluxes' : Fluxes A) (metric regime : string)
    (location : option string) (map_method : string)
    (out : list (string * DerivedMetric A))
    (Hq : quad_maps fluxes metric regime location map_method = (OK out, fluxes')) :
  exists m1 m2 m3 m4 a1 a2 a4,
    out = [("Clean-clear Sky", m1); ("Cloud Effects", m2);
           ("Aerosol Effects", m3); ("All Sky", m4)] /\
    reduce_time (base fluxes) (SrcMetric m1) "average" 0 = OK a1 /\
    reduce_time (base fluxes) (SrcMetric m2) "average" 0 = OK a2 /\
    reduce_time (base fluxes) (SrcMetric m4) "average" 0 = OK a4 /\
    metrics (base fluxes')
    = <[("all" ++ " " ++ replace_char "_" " " metric)%string := a4]>
        (<[("clean" ++ " " ++ replace_char "_" " " metric)%string := a2]>
           (<[("clean-clear" ++ " " ++ replace_char "_" " " metric)%string := a1]>
              (metrics (base fluxes)))) /\
    dataset (base fluxes') = dataset (base fluxes) /\
    time (base fluxes') = time (base fluxes) /\
    longitude (base fluxes') = longitude (base fluxes) /\
    latitude (base fluxes') = latitude (base fluxes) /\
    vertical (base fluxes') = vertical (base fluxes) /\
    toa fluxes' = toa fluxes /\ surface fluxes' = surface fluxes.
Proof.
  unfold quad_maps, case_list in Hq.
  apply quad_loop_step_state in Hq. destruct Hq as (m1 & a1 & _ & R1 & Hq).
  apply quad_loop_step_state in Hq. destruct Hq as (m2 & a2 & _ & R2 & Hq).
  apply quad_loop_step_state in Hq. destruct Hq as (m3 & a3 & _ & R3 & Hq).
  apply quad_loop_step_state in Hq. destruct Hq as (m4 & a4 & _ & R4 & Hq).
  cbn [quad_loop case_title case_data] in Hq. inversion Hq; subst. clear Hq.
  exists m1, m2, m3, m4, a1, a2, a4.
  split; [reflexivity|]. split; [exact R1|]. split; [exact R2|].
  split; [exact R4|].
  split; [|repeat split].
  cbn [with_base base set_metric metrics case_data].
  apply insert_insert_eq.
Qed.

End QuadState.

(** ** The net maps (fluxes.py) *)

Section NetMaps.
Context {A : Type} `{Num A}.

Lemma net_metric_inv (lw_metric sw_metric : list (string * DerivedMetric A))
    (case : Case) (n : DerivedMetric A) :
  net_metric lw_metric sw_metric case = OK n ->
  exists lw sw,
    odict_get (case_title case) lw_metric = OK lw /\
    odict_get (case_title case) sw_metric = OK sw /\
    broadcast2 nadd (data lw) (data sw) = OK (data n) /\
    dimensions n = dimensions lw /\ units n = units lw.
Proof.
  unfold net_metric. intros Hn.
  ok_step Hn lw Hlw. ok_step Hn sw Hsw. ok_step Hn d Hd.
  inversion Hn; subst. exists lw, sw. auto.
Qed.

Lemma net_loop_step (lw_metric sw_metric : list (string * DerivedMetric A))
    (map_method : string) (case : Case) (rest : list Case) (f f' : Fluxes A) :
  net_loop lw_metric sw_metric map_method (case :: rest) f = (OK tt, f') ->
  exists n a,
    net_metric lw_metric sw_metric case = OK n /\
    reduce_time (base f) (SrcMetric n) "average" 0 = OK a /\
    net_loop lw_metric sw_metric map_method rest
      (with_base f (set_metric (base f) (case_data case ++ " net")%string a))
    = (OK tt, f').
Proof.
  cbn [net_loop].
  destruct (net_metric lw_metric sw_metric case) as [n|e]; [|discriminate].
  unfold add_metric.
  destruct (reduce_time (base f) (SrcMetric n) "average" 0) as [a|e] eqn:Ea;
    [|discriminate].
  match goal with
  | |- context [bind ?x ?k] => destruct (bind x k) as [p|e]; [|discriminate]
  end.
  intros Hq. exists n, a. auto.
Qed.

(** X15: A successful [net_maps] found the four titles in both mappings, and
    registered the time means of the sums of their metrics, under the
    dimensions and the unit of the longwave one, as "clean-clear net",
    "clean net" and "all net"; the sum for Aerosol Effects, registered
    as "all net" too, is replaced by the one for All Sky. *)
Theorem net_maps_registers (fluxes fluxes' : Fluxes A)
    (lw_metric sw_metric : list (string * DerivedMetric A)) (map_method : string)
    (Hn : net_maps fluxes lw_metric sw_metric map_method = (OK tt, fluxes')) :
  (forall case, In case case_list ->
     exists lw sw n,
       odict_get (case_title case) lw_metric = OK lw /\
       odict_get (case_title case) sw_metric = OK sw /\
       broadcast2 nadd (data lw) (data sw) = OK (data n) /\
       dimensions n = dimensions lw /\ units n = units lw /\
       net_metric lw_metric sw_metric case = OK n) /\
  exists n1 n2 n4 a1 a2 a4,
    net_metric lw_metric sw_metric
      {| case_data := "clean-clear"; case_baseline := None;
         case_title := "Clean-clear Sky" |} = OK n1 /\
    net_metric lw_metric sw_metric
      {| case_data := "clean"; case_baseline := Some "clean-clear"%string;
         case_title := "Cloud Effects" |} = OK n2 /\
    net_metric lw_metric sw_metric
      {| case_data := "all"; case_baseline := None;
         case_title := "All Sky" |} = OK n4 /\
    reduce_time (base fluxes) (SrcMetric n1) "average" 0 = OK a1 /\
    reduce_time (base fluxes) (SrcMetric n2) "average" 0 = OK a2 /\
    reduce_time (base fluxes) (SrcMetric n4) "average" 0 = OK a4 /\
    metrics (base fluxes')
    = <["all net"%string := a4]>
        (<["clean net"%string := a2]>
           (<["clean-clear net"%string := a1]> (metrics (base fluxes)))) /\
    dataset (base fluxes') = dataset (base fluxes) /\
    toa fluxes' = toa fluxes /\ surface fluxes' = surface fluxes.
Proof.
  unfold net_maps, case_list in Hn.
  apply net_loop_step in Hn. destruct Hn as (n1 & a1 & N1 & R1 & Hn).
  apply net_loop_step in Hn. destruct Hn as (n2 & a2 & N2 & R2 & Hn).
  apply net_loop_step in Hn. destruct Hn as (n3 & a3 & N3 & R3 & Hn).
  apply net_loop_step in Hn. destruct Hn as (n4 & a4 & N4 & R4 & Hn).
  cbn [net_loop case_data] in Hn. inversion Hn; subst. clear Hn.
  split.
  - intros case Hin. unfold case_list in Hin. simpl in Hin.
    destruct Hin as [<- | [<- | [<- | [<- | []]]]];
      match goal with
      | Hm : net_metric lw_metric sw_metric ?c = OK ?n
        |- context [net_metric lw_metric sw_metric ?c] =>
          destruct (net_metric_inv _ _ _ _ Hm) as (lw & sw & ? & ? & ? & ? & ?);
          exists lw, sw, n; auto 10
      end.
  - exists n1, n2, n4, a1, a2, a4.
    split; [exact N1|]. split; [exact N2|]. split; [exact N4|].
    split; [exact R1|]. split; [exact R2|]. split; [exact R4|].
    split; [|repeat split].
    cbn [with_base base set_metric metrics String.append].
    apply insert_insert_eq.
Qed.

End NetMaps.

(** ** Stripping a set of characters (aerosols.py) *)

Lemma append_nil_l (t : string) : (EmptyString ++ t)%string = t.
Proof. reflexivity. Qed.

Lemma append_cons (c : ascii) (s t : string) :
  (String c s ++ t)%string = String c (s ++ t)%string.
Proof. reflexivity. Qed.

Lemma append_assoc (a b c : string) :
  ((a ++ b) ++ c = a ++ b ++ c)%string.
Proof.
  induction a as [|x a IH]; [reflexivity|].
  rewrite !append_cons, IH. reflexivity.
Qed.

Lemma rstrip_all_in (chars t : string) :
  all_in chars t = true -> rstrip chars t = EmptyString.
Proof.
  induction t as [|c t IH]; simpl; [reflexivity|].
  intros Hc. apply andb_true_iff in Hc. destruct Hc as [Hc Ht].
  rewrite (IH Ht), Hc. reflexivity.
Qed.

Lemma rstrip_app_all_in (chars s t : string) :
  all_in chars t = true -> rstrip chars (s ++ t)%string = rstrip chars s.
Proof.
  intros Ht. induction s as [|c s IH].
  - rewrite append_nil_l. apply rstrip_all_in. exact Ht.
  - rewrite append_cons. cbn [rstrip]. rewrite IH. reflexivity.
Qed.

(** What is stripped is a tail made of the characters of [chars]. *)
Lemma rstrip_prefix (chars s : string) :
  exists t, s = (rstrip chars s ++ t)%string /\ all_in chars t = true.
Proof.
  induction s as [|c s (t & Hs & Ht)].
  - exists EmptyString. split; reflexivity.
  - cbn [rstrip]. destruct (rstrip chars s) as [|r0 r] eqn:Er.
    + rewrite append_nil_l in Hs. subst t. destruct (char_in c chars) eqn:Ec.
      * exists (String c s). split; [reflexivity|].
        cbn [all_in]. rewrite Ec, Ht. reflexivity.
      * exists s. split; [reflexivity | exact Ht].
    + exists t. split; [|exact Ht]. rewrite append_cons. f_equal. exact Hs.
Qed.

Lemma rstrip_fixed (chars s : string) :
  rstrip chars s = s <->
  match last_char s with
  | None => True
  | Some c => char_in c chars = false
  end.
Proof.
  induction s as [|c s IH]; [simpl; tauto|].
  destruct s as [|c' s'].
  - simpl. destruct (char_in c chars); split; congruence.
  - remember (String c' s') as s eqn:Es.
    cbn [rstrip].
    assert (El : last_char (String c s) = last_char s) by (subst s; reflexivity).
    rewrite El.
    destruct (rstrip chars s) as [|r0 r] eqn:Er.
    + assert (Hne : EmptyString <> s) by (subst s; discriminate).
      split.
      * intros Hc. exfalso. destruct (char_in c chars); inversion Hc.
        subst s. discriminate.
      * intros Hl. exfalso. apply Hne. apply IH. exact Hl.
    + rewrite <- IH. split; [intros Hc; inversion Hc; congruence|].
      intros ->. reflexivity.
Qed.

(** X16: [name.rstrip("_col")] on a name that ends in "_col" does not stop at
    the suffix: it gives what [rstrip] gives on the stem, a prefix of
    the stem, which is the stem exactly when the stem is empty or its
    last character is none of "_", "c", "o" and "l". *)
Theorem rstrip_col_stem (stem : string) :
  rstrip "_col" (stem ++ "_col")%string = rstrip "_col" stem /\
  (exists t, stem = (rstrip "_col" (stem ++ "_col") ++ t)%string /\
             all_in "_col" t = true) /\
  (rstrip "_col" (stem ++ "_col")%string = stem <->
   match last_char stem with
   | None => True
   | Some c => char_in c "_col" = false
   end).
Proof.
  assert (E : rstrip "_col" (stem ++ "_col")%string = rstrip "_col" stem)
    by (apply rstrip_app_all_in; reflexivity).
  split; [exact E|]. rewrite E. split.
  - apply rstrip_prefix.
  - apply rstrip_fixed.
Qed.

(** ** Finding the file of a dataset (report.py) *)

Lemma skip_digits_split (s : string) :
  exists d, all_digits d = true /\ s = (d ++ skip_digits s)%string.
Proof.
  induction s as [|c s (d & Hd & Hs)].
  - exists EmptyString. split; reflexivity.
  - cbn [skip_digits]. destruct (is_digit c) eqn:Ec.
    + exists (String c d). cbn [all_digits]. rewrite Ec, Hd.
      split; [reflexivity|]. rewrite append_cons. f_equal. exact Hs.
    + exists EmptyString. split; reflexivity.
Qed.

Lemma skip_digits_app (d s : string) :
  all_digits d = true ->
  match s with EmptyString => True | String c _ => is_digit c = false end ->
  skip_digits (d ++ s)%string = s.
Proof.
  intros Hd Hs. induction d as [|c d IH].
  - rewrite append_nil_l. destruct s as [|c s]; [reflexivity|].
    cbn [skip_digits]. rewrite Hs. reflexivity.
  - cbn [all_digits] in Hd. apply andb_true_iff in Hd. destruct Hd as [Hc Hd].
    rewrite append_cons. cbn [skip_digits]. rewrite Hc. apply IH. exact Hd.
Qed.

Lemma strip_prefix_some (p s t : string) :
  strip_prefix p s = Some t -> s = (p ++ t)%string.
Proof.
  revert s. induction p as [|a p IH]; intros s.
  - simpl. intros Hs. inversion Hs. reflexivity.
  - destruct s as [|b s]; [discriminate|]. cbn [strip_prefix].
    destruct (Ascii.eqb a b) eqn:E; [|discriminate].
    apply Ascii.eqb_eq in E. subst b. intros Hs.
    rewrite append_cons. f_equal. apply IH. exact Hs.
Qed.

Lemma strip_prefix_app (p t : string) : strip_prefix p (p ++ t)%string = Some t.
Proof.
  induction p as [|a p IH]; [reflexivity|].
  rewrite append_cons. cbn [strip_prefix].
  rewrite Ascii.eqb_refl. exact IH.
Qed.

(** X17: The file names that [find_dataset] accepts for [name]: one digit or
    more, a dot, the name itself, ".nc", and then anything at all, since
    the pattern is not anchored at the end. *)
Theorem match_dataset_spec (name filename : string) :
  match_dataset name filename = true <->
  exists d rest,
    d <> EmptyString /\ all_digits d = true /\
    filename = (d ++ "." ++ name ++ ".nc" ++ rest)%string.
Proof.
  unfold match_dataset. split.
  - destruct filename as [|c s]; [discriminate|].
    intros Hm. apply andb_true_iff in Hm. destruct Hm as [Hc Hm].
    destruct (strip_prefix ("." ++ name ++ ".nc") (skip_digits s)) as [t|] eqn:Et;
      [|discriminate].
    apply strip_prefix_some in Et.
    destruct (skip_digits_split s) as (d & Hd & Hs).
    exists (String c d), t. split; [discriminate|].
    split; [cbn [all_digits]; rewrite Hc, Hd; reflexivity|].
    rewrite append_cons. f_equal.
    etransitivity; [exact Hs|]. rewrite Et. f_equal.
    rewrite !append_assoc. reflexivity.
  - intros (d & rest & Hne & Hd & ->).
    destruct d as [|c d]; [congruence|].
    cbn [all_digits] in Hd. apply andb_true_iff in Hd. destruct Hd as [Hc Hd].
    rewrite append_cons. rewrite Hc. cbn [andb].
    rewrite skip_digits_app by (assumption || reflexivity).
    replace ("." ++ name ++ ".nc" ++ rest)%string
      with (("." ++ name ++ ".nc") ++ rest)%string
      by (rewrite !append_assoc; reflexivity).
    rewrite strip_prefix_app. reflexivity.
Qed.

Lemma match_dataset_relative (name filename : string) :
  match_dataset name filename = true -> String.prefix "/" filename = false.
Proof.
  unfold match_dataset. destruct filename as [|c s]; [discriminate|].
  intros Hm. apply andb_true_iff in Hm. destruct Hm as [Hc _].
  change (String.prefix "/" (String c s))
    with (if Ascii.ascii_dec "/" c then String.prefix "" s else false).
  destruct (Ascii.ascii_dec "/" c) as [<-|Hne]; [discriminate|].
  reflexivity.
Qed.

(** X18: [find_dataset] returns the first entry of the listing that matches,
    joined to the directory with one "/" between them unless the
    directory is empty or ends in "/", and raises ValueError exactly when
    no entry matches. *)
Theorem find_dataset_first (listing : list string) (name directory : string) :
  match find_dataset listing name directory with
  | OK path =>
      exists l1 f l2,
        listing = l1 ++ f :: l2 /\ match_dataset name f = true /\
        Forall (fun g => match_dataset name g = false) l1 /\
        path = (if String.eqb directory "" || endswith "/" directory
                then directory ++ f else directory ++ "/" ++ f)%string
  | Error e =>
      e = ValueError ("could not find file associated with " ++ name ++ ".")%string /\
      Forall (fun g => match_dataset name g = false) listing
  end.
Proof.
  unfold find_dataset.
  pose proof (find_first (match_dataset name) listing) as Hf.
  destruct (List.find (match_dataset name) listing) as [f|].
  - destruct Hf as (l1 & l2 & Hl & Hm & Hl1).
    exists l1, f, l2. split; [exact Hl|]. split; [exact Hm|].
    split; [exact Hl1|].
    unfold join. rewrite (match_dataset_relative name f Hm). reflexivity.
  - split; [reflexivity | exact Hf].
Qed.

(** ** The grid of a figure (maps.py) *)

Section FigureGrid.
Context {P : Type}.

Lemma unravel_index_ok (index : Z) (rows columns : nat) :
  (0 <= index < Z.of_nat (rows * columns))%Z ->
  exists x y,
    unravel_index index rows columns = OK (x, y) /\
    x < rows /\ y < columns /\ Z.of_nat (x * columns + y) = index.
Proof.
  intros Hi. unfold unravel_index.
  replace (index <? 0)%Z with false by (symmetry; apply Z.ltb_ge; lia).
  replace (Z.of_nat (rows * columns) <=? index)%Z with false
    by (symmetry; apply Z.leb_gt; lia).
  cbn [orb].
  assert (Hc : columns <> 0) by (intros ->; lia).
  exists (Z.to_nat index / columns), (Z.to_nat index mod columns).
  split; [reflexivity|]. split; [|split].
  - apply Nat.Div0.div_lt_upper_bound. lia.
  - apply Nat.mod_upper_bound. exact Hc.
  - pose proof (Nat.div_mod_eq (Z.to_nat index) columns). lia.
Qed.

Lemma unravel_index_error (index : Z) (rows columns : nat) :
  ~ (0 <= index < Z.of_nat (rows * columns))%Z ->
  unravel_index index rows columns
  = Error (ValueError "index is out of bounds for array").
Proof.
  intros Hi. unfold unravel_index.
  destruct (index <? 0)%Z eqn:E1; [reflexivity|].
  destruct (Z.of_nat (rows * columns) <=? index)%Z eqn:E2; [reflexivity|].
  apply Z.ltb_ge in E1. apply Z.leb_gt in E2. lia.
Qed.

(** X19: The positions 1 to num_rows * num_columns are the cells of the grid
    read row by row, each position one cell and each cell one position;
    any other position raises ValueError. *)
Theorem plot_position_to_indices_spec (self : Figure P) (position : Z) :
  ((1 <= position <= Z.of_nat (num_rows self * num_columns self))%Z ->
   exists x y,
     plot_position_to_indices self position = OK (x, y) /\
     x < num_rows self /\ y < num_columns self /\
     (Z.of_nat (x * num_columns self + y) + 1 = position)%Z) /\
  (~ (1 <= position <= Z.of_nat (num_rows self * num_columns self))%Z ->
   raises "ValueError" (plot_position_to_indices self position)).
Proof.
  unfold plot_position_to_indices. split.
  - intros Hp.
    destruct (unravel_index_ok (position - 1) (num_rows self) (num_columns self))
      as (x & y & Hu & Hx & Hy & Hxy); [lia|].
    exists x, y. repeat split; try assumption. lia.
  - intros Hp. eexists. apply unravel_index_error. lia.
Qed.

Lemma Figure_init_wf (rows columns : nat) : Figure_wf (@Figure_init P rows columns).
Proof.
  unfold Figure_wf, Figure_init. cbn [fig_plot num_rows num_columns].
  split; [apply length_replicate|].
  apply Forall_replicate. apply length_replicate.
Qed.

(** X20: Storing a plot at a position of a figure whose grid has its rows and
    columns fills the cell of that position and no other, and keeps the
    grid's size. *)
Theorem store_plot_cell (self : Figure P) (position : Z) (plot : P)
    (Hwf : Figure_wf self)
    (Hpos : (1 <= position <= Z.of_nat (num_rows self * num_columns self))%Z) :
  exists self' x y,
    store_plot self position plot = OK self' /\
    plot_position_to_indices self position = OK (x, y) /\
    Figure_wf self' /\
    num_rows self' = num_rows self /\ num_columns self' = num_columns self /\
    cell self' x y = Some plot /\
    forall x' y', (x', y') <> (x, y) -> cell self' x' y' = cell self x' y'.
Proof.
  destruct Hwf as [Hrows Hcols].
  destruct (unravel_index_ok (position - 1) (num_rows self) (num_columns self))
    as (x & y & Hu & Hx & Hy & _); [lia|].
  destruct (lookup_lt_is_Some_2 (fig_plot self) x) as [row Hrow]; [lia|].
  assert (Hlen : length row = num_columns self).
  { rewrite Forall_forall in Hcols. apply Hcols.
    eapply list_elem_of_lookup_2. exact Hrow. }
  eexists. exists x, y. split.
  - unfold store_plot, plot_position_to_indices. rewrite Hu. cbn [bind fst snd].
    rewrite Hrow. cbn [of_option bind].
    replace (y <? length row) with true by (symmetry; apply Nat.ltb_lt; lia).
    reflexivity.
  - split; [exact Hu|]. split; [|split; [reflexivity|split; [reflexivity|split]]].
    + unfold Figure_wf. cbn [fig_plot num_rows num_columns]. split.
      * rewrite length_insert. exact Hrows.
      * apply Forall_insert; [exact Hcols|]. rewrite length_insert. exact Hlen.
    + unfold cell. cbn [fig_plot].
      rewrite list_lookup_insert_eq by lia.
      rewrite list_lookup_insert_eq by lia. reflexivity.
    + intros x' y' Hne. unfold cell. cbn [fig_plot].
      destruct (decide (x = x')) as [<-|Hx'].
      * rewrite list_lookup_insert_eq by lia. rewrite Hrow.
        rewrite list_lookup_insert_ne by congruence. reflexivity.
      * rewrite list_lookup_insert_ne by exact Hx'. reflexivity.
Qed.

End FigureGrid.

(** ** The cloud amounts (clouds.py) *)

Section Clouds.
Context {A : Type} `{Num A}.

Lemma lon_lat_map_registered (self : MetricsDataset A) (name : string)
    (a : DerivedMetric A) (m : LonLatMap A) :
  lon_lat_map (set_metric self name a) name = OK m ->
  dimensions a = [var_name (latitude self); var_name (longitude self)] /\
  LonLatMap_init a (longitude self) (latitude self) = OK m.
Proof.
  unfold lon_lat_map, get_metric, set_metric.
  cbn [metrics latitude longitude]. rewrite lookup_insert_eq.
  cbn [of_option bind]. unfold dims_eqb.
  destruct (bool_decide _) eqn:E; cbn [negb]; [|discriminate].
  apply bool_decide_eq_true in E. auto.
Qed.

Lemma reduce_time_name_registered (self : MetricsDataset A) (n : string)
    (a : DerivedMetric A) (name method : string) (ti : Z) :
  reduce_time (set_metric self n a) (SrcName name) method ti
  = reduce_time self (SrcName name) method ti.
Proof. reflexivity. Qed.

Lemma cloud_loop_step (name : string) (rest : list string) (i : nat)
    (cloud_data : MetricsDataset A) (figure fig : Figure (Panel A)) :
  cloud_loop (name :: rest) i cloud_data figure = OK fig ->
  exists a m figure',
    reduce_time cloud_data (SrcName name) "average" 0 = OK a /\
    dimensions a = [var_name (latitude cloud_data);
                    var_name (longitude cloud_data)] /\
    LonLatMap_init a (longitude cloud_data) (latitude cloud_data) = OK m /\
    add_map figure (PlotLonLat m) name (Z.of_nat i + 1) (Some (0, 1)%Z)
    = OK figure' /\
    cloud_loop rest (S i) (set_metric cloud_data name a) figure' = OK fig.
Proof.
  cbn [cloud_loop]. unfold add_metric.
  destruct (reduce_time cloud_data (SrcName name) "average" 0) as [a|e] eqn:Ea;
    [|discriminate].
  intros Hc. ok_step Hc m Hm. ok_step Hc figure' Hf.
  apply lon_lat_map_registered in Hm. destruct Hm as [Hd Hm].
  exists a, m, figure'. auto.
Qed.

(** X21: A successful [cloud_amount_maps] found the four cloud amounts in the
    file, with the time among their dimensions and the latitude and the
    longitude, in that order, as the others; the figure holds the
    longitude-latitude maps of their time means row by row, high and mid
    above low and total, each with the colour levels from 0 to 1 and its
    name as the title, capitalised and with spaces for underscores. *)
Theorem cloud_amount_maps_fills (ds : Dataset A) (fig : Figure (Panel A))
    (Hc : cloud_amount_maps ds = OK fig) :
  exists md m1 m2 m3 m4,
    MetricsDataset_init ds = OK md /\
    Forall2 (fun name m =>
               exists a,
                 reduce_time md (SrcName name) "average" 0 = OK a /\
                 dimensions a = [var_name (latitude md); var_name (longitude md)] /\
                 LonLatMap_init a (longitude md) (latitude md) = OK m)
            cloud_names [m1; m2; m3; m4] /\
    fig = Build_Figure 2 2
            [[Some {| panel_map := PlotLonLat m1;
                      panel_title := "High Cloud Amount";
                      panel_range := Some (0, 1)%Z; panel_inverted := false |};
              Some {| panel_map := PlotLonLat m2;
                      panel_title := "Mid Cloud Amount";
                      panel_range := Some (0, 1)%Z; panel_inverted := false |}];
             [Some {| panel_map := PlotLonLat m3;
                      panel_title := "Low Cloud Amount";
                      panel_range := Some (0, 1)%Z; panel_inverted := false |};
              Some {| panel_map := PlotLonLat m4;
                      panel_title := "Total Cloud Amount";
                      panel_range := Some (0, 1)%Z; panel_inverted := false |}]].
Proof.
  unfold cloud_amount_maps in Hc. ok_step Hc md Hmd.
  unfold cloud_names in Hc.
  apply cloud_loop_step in Hc.
  destruct Hc as (a1 & m1 & f1 & R1 & D1 & L1 & F1 & Hc).
  apply cloud_loop_step in Hc.
  destruct Hc as (a2 & m2 & f2 & R2 & D2 & L2 & F2 & Hc).
  apply cloud_loop_step in Hc.
  destruct Hc as (a3 & m3 & f3 & R3 & D3 & L3 & F3 & Hc).
  apply cloud_loop_step in Hc.
  destruct Hc as (a4 & m4 & f4 & R4 & D4 & L4 & F4 & Hc).
  cbn [cloud_loop] in Hc. inversion Hc; subst fig. clear Hc.
  repeat rewrite reduce_time_name_registered in R2, R3, R4.
  unfold set_metric in D2, D3, D4, L2, L3, L4.
  cbn [latitude longitude] in D2, D3, D4, L2, L3, L4.
  exists md, m1, m2, m3, m4. split; [exact Hmd|]. split.
  - unfold cloud_names.
    constructor; [exists a1; auto|].
    constructor; [exists a2; auto|].
    constructor; [exists a3; auto|].
    constructor; [exists a4; auto|].
    constructor.
  - vm_compute in F1. inversion F1; subst f1. clear F1.
    vm_compute in F2. inversion F2; subst f2. clear F2.
    vm_compute in F3. inversion F3; subst f3. clear F3.
    vm_compute in F4. inversion F4; subst f4. clear F4.
    reflexivity.
Qed.

End Clouds.

(** ** The aerosol columns (aerosols.py) *)

Section Aerosols.
Context {A : Type} `{Num A}.

Lemma lookup_variable_error (ds : Dataset A) (name : string) :
  (forall v, lookup_variable ds name <> OK v) ->
  lookup_variable ds name = Error (KeyError name).
Proof.
  unfold lookup_variable. intros Hno.
  destruct (List.find _ (variables ds)) as [p|]; simpl in *; [|reflexivity].
  exfalso. apply (Hno p.2). reflexivity.
Qed.

(** X22: For the first variable of the file whose name ends in "_col",
    [aerosol_maps] asks the file for the name without its trailing
    characters among "_", "c", "o" and "l", and fails with KeyError when
    the file has no variable of that name. *)
Theorem aerosol_maps_strips_characters (ds : Dataset A) (md : MetricsDataset A)
    (name : string) (rest : list string)
    (Hi : MetricsDataset_init ds = OK md)
    (Hn : List.filter (endswith "_col") (map fst (variables ds)) = name :: rest)
    (Hl : forall v, lookup_variable ds (rstrip "_col" name) <> OK v) :
  aerosol_maps ds = Error (KeyError (rstrip "_col" name)).
Proof.
  unfold aerosol_maps. rewrite Hi. cbn [bind]. rewrite Hn.
  cbn [aerosol_loop]. unfold aerosol_figure, aerosol_panel, add_metric.
  unfold reduce_time. cbn [resolve].
  destruct (init_ok_inv ds md Hi) as (Hd & _). rewrite Hd.
  rewrite (lookup_variable_error ds _ Hl). reflexivity.
Qed.

End Aerosols.

(** ** The mean in the title of a longitude-latitude map (fluxes.py) *)

Section LonLatTitle.
Context {A : Type} `{Num A}.

Lemma lon_lat_map_cells (self : MetricsDataset A) (name : string)
    (m : DerivedMetric A) (ny nx : nat) (x0 : A) (xs : list A) :
  metrics self !! name = Some m ->
  dimensions m = lat_lon self ->
  shape (data m) = [ny; nx] -> 0 < nx -> wf (data m) ->
  elems (var_data (longitude self)) = x0 :: xs ->
  exists map,
    lon_lat_map self name = OK map /\
    shape (llm_data map) = [ny; S nx] /\ wf (llm_data map) /\
    (forall i j, i < ny -> j <= nx ->
       get (llm_data map) [i; j]
       = get (data m) [i; if j <? nx then j else 0]) /\
    llm_y_data map = var_data (latitude self).
Proof.
  intros Hm Hd Hs Hnx Hwf Hx.
  assert (Hl : length (elems (data m)) = ny * nx).
  { unfold wf in Hwf. rewrite Hwf, Hs. simpl. lia. }
  eexists. split.
  - unfold lon_lat_map, get_metric. rewrite Hm. cbn [bind src_dimensions].
    unfold dims_eqb. fold (lat_lon self).
    rewrite bool_decide_eq_true_2 by exact Hd. cbn [negb LonLatMap_of].
    unfold LonLatMap_init.
    rewrite (add_cyclic_2d ny nx _ _ _ x0 xs Hs Hnx Hx). cbn [bind fst snd].
    reflexivity.
  - cbn [llm_data llm_y_data]. split; [reflexivity|]. split; [|split].
    + unfold wf. cbn [shape elems].
      rewrite (concat_length_const (S nx)) by (apply wrap_rows_length; assumption).
      rewrite length_map, chunks_length. simpl. lia.
    + intros i j Hi Hj. unfold get. cbn [shape elems]. rewrite Hs.
      cbn [offset prod foldr].
      match goal with
      | |- nth ?k _ _ = _ => replace k with (i * S nx + j) by lia
      end.
      rewrite wrap_rows_nth by assumption. f_equal. lia.
    + reflexivity.
Qed.

(** X23: The mean that [quad_maps] and [net_maps] print in the title of a
    longitude-latitude map is taken over the map's data, that is after
    the wrap-around column is appended: every row is averaged over
    nx + 1 columns, the first longitude counted twice, before the
    weighting by the cosines of the latitudes.  (The wrap-around column
    is the one of the model of cartopy's [add_cyclic].) *)
Theorem lon_lat_title_mean_wraps (self : MetricsDataset A) (name : string)
    (m : DerivedMetric A) (ny nx : nat) (x0 : A) (xs : list A)
    (Hm : metrics self !! name = Some m)
    (Hd : dimensions m = lat_lon self)
    (Hs : shape (data m) = [ny; nx]) (Hnx : 0 < nx) (Hwf : wf (data m))
    (Hx : elems (var_data (longitude self)) = x0 :: xs)
    (Hls : shape (var_data (latitude self)) = [ny])
    (Hlw : wf (var_data (latitude self))) :
  exists llm,
    lon_lat_map self name = OK llm /\
    title_mean (PlotLonLat llm)
    = OK (Some
            (ndiv (nsum (map (fun j =>
                           nmul (ndiv (nsum (map (fun i =>
                                               get (data m)
                                                 [j; if i <? nx then i else 0])
                                             (seq 0 (S nx))))
                                      (of_Z (Z.of_nat (S nx))))
                                (ncos (ndiv (nmul (nmul (of_Z 2) npi)
                                                  (get (var_data (latitude self)) [j]))
                                            (of_Z 360))))
                         (seq 0 ny)))
                  (nsum (map (fun l => ncos (ndiv (nmul (nmul (of_Z 2) npi) l)
                                                  (of_Z 360)))
                             (elems (var_data (latitude self))))))).
Proof.
  destruct (lon_lat_map_cells self name m ny nx x0 xs Hm Hd Hs Hnx Hwf Hx)
    as (llm & Hmap & Sm & Wm & Gm & Ey).
  exists llm. split; [exact Hmap|].
  destruct (global_mean_get [] ny (S nx) (llm_data llm) (llm_y_data llm))
    as (g & Hg & Sg & _ & Gg); try assumption; try (rewrite Ey; assumption).
  unfold title_mean. rewrite Hg. cbn [bind].
  unfold format_mean, ndim. rewrite Sg. cbn [length Nat.eqb bind].
  rewrite (Gg []) by constructor. rewrite Ey. cbn [app].
  f_equal. f_equal. f_equal. f_equal. apply map_ext_in. intros j Hj.
  apply in_seq in Hj. f_equal.
  - f_equal. f_equal. apply map_ext_in. intros i Hi. apply in_seq in Hi.
    apply Gm; lia.
  - unfold get, weights_of, map_arr. cbn [shape elems]. rewrite Hls.
    rewrite (nth_map_lt _ _ _ nzero); [reflexivity|].
    unfold wf in Hlw. rewrite Hlw, Hls. simpl. lia.
Qed.

End LonLatTitle.

(** ** What the flux figures ask of the file (fluxes.py) *)

Section FluxFigures.
Context {A : Type} `{Num A}.

Lemma and_then_ok {T U : Type} (r : result T * Fluxes A)
    (k : T -> Fluxes A -> result U * Fluxes A) (y : U) (f' : Fluxes A) :
  and_then r k = (OK y, f') ->
  exists x f1, r = (OK x, f1) /\ k x f1 = (OK y, f').
Proof.
  unfold and_then. destruct r as [[x|e] f1]; [|discriminate].
  intros Hk. exists x, f1. auto.
Qed.

Lemma quad_loop_frame (metric regime : string) (location : option string)
    (map_method : string) (cases : list Case)
    (output out : list (string * DerivedMetric A)) (f f' : Fluxes A) :
  quad_loop metric regime location map_method cases output f = (OK out, f') ->
  dataset (base f') = dataset (base f).
Proof.
  revert output f. induction cases as [|case rest IH]; intros output f Hq.
  - cbn [quad_loop] in Hq. inversion Hq. reflexivity.
  - apply quad_loop_step_state in Hq. destruct Hq as (m & a & _ & _ & Hq).
    apply IH in Hq. exact Hq.
Qed.

Lemma net_loop_frame (lw_metric sw_metric : list (string * DerivedMetric A))
    (map_method : string) (cases : list Case) (f f' : Fluxes A) :
  net_loop lw_metric sw_metric map_method cases f = (OK tt, f') ->
  dataset (base f') = dataset (base f).
Proof.
  revert f. induction cases as [|case rest IH]; intros f Hn.
  - cbn [net_loop] in Hn. inversion Hn. reflexivity.
  - apply net_loop_step in Hn. destruct Hn as (n & a & _ & _ & Hn).
    apply IH in Hn. exact Hn.
Qed.

(** A successful [quad_maps] leaves the file as it was and has called
    the method for the three sky conditions. *)
Lemma quad_maps_needs (f f' : Fluxes A) (metric regime : string)
    (location : option string) (map_method : string)
    (out : list (string * DerivedMetric A)) :
  quad_maps f metric regime location map_method = (OK out, f') ->
  dataset (base f') = dataset (base f) /\
  Forall (fun label => exists m, call_metric f metric regime label location = OK m)
         ["all"; "clean"; "clean-clear"]%string.
Proof.
  intros Hq. split; [exact (quad_loop_frame _ _ _ _ _ _ _ _ _ Hq)|].
  destruct (quad_maps_inv _ _ _ _ _ _ _ Hq) as (m1 & m2 & m3 & m4 & _ & Hf).
  unfold case_list in Hf.
  apply Forall2_cons_1 in Hf. destruct Hf as [H1 Hf].
  apply Forall2_cons_1 in Hf. destruct Hf as [H2 Hf].
  apply Forall2_cons_1 in Hf. destruct Hf as [_ Hf].
  apply Forall2_cons_1 in Hf. destruct Hf as [H4 _].
  apply case_metric_plain in H1, H4.
  apply case_metric_baseline in H2. destruct H2 as (d & _ & Hd & _).
  repeat constructor; eauto.
Qed.

Lemma flux_variable (f : Fluxes A) (regime direction conditions : string)
    (location : option string) (m : DerivedMetric A) :
  flux f regime direction conditions location = OK m ->
  exists r d s v,
    regimes regime = OK r /\ directions direction = OK d /\
    sky conditions = OK s /\
    lookup_variable (dataset (base f)) ("r" ++ r ++ d ++ s)%string = OK v.
Proof.
  intros Hf. destruct location as [loc|].
  - destruct (flux_located_inv _ _ _ _ _ _ Hf)
      as (r & d & s & v & _ & _ & Hr & Hd & Hs & Hv & _).
    exists r, d, s, v. auto.
  - destruct (flux_unlocated_inv _ _ _ _ _ Hf)
      as (r & d & s & v & Hr & Hd & Hs & Hv & _).
    exists r, d, s, v. auto.
Qed.

Lemma heating_rate_variable (f : Fluxes A) (regime conditions : string)
    (m : DerivedMetric A) :
  heating_rate f regime conditions = OK m ->
  exists r s v,
    regimes regime = OK r /\ sky conditions = OK s /\
    lookup_variable (dataset (base f)) ("tntr" ++ r ++ s)%string = OK v.
Proof.
  unfold heating_rate. intros Hh.
  ok_step Hh r Hr. ok_step Hh s Hs. ok_step Hh v Hv.
  exists r, s, v. auto.
Qed.

(** The variables that one [quad_maps] over a flux reads. *)
Lemma quad_maps_flux_variables (f f' : Fluxes A) (metric regime direction : string)
    (loc : string) (map_method : string) (out : list (string * DerivedMetric A)) :
  (forall label, call_metric f metric regime label (Some loc)
                 = flux f regime direction label (Some loc)) ->
  quad_maps f metric regime (Some loc) map_method = (OK out, f') ->
  dataset (base f') = dataset (base f) /\
  exists r d,
    regimes regime = OK r /\ directions direction = OK d /\
    Forall (fun s => exists v,
              lookup_variable (dataset (base f)) ("r" ++ r ++ d ++ s)%string = OK v)
           [""; "af"; "csaf"]%string.
Proof.
  intros Hcall Hq. destruct (quad_maps_needs _ _ _ _ _ _ _ Hq) as [Hd Hc].
  split; [exact Hd|].
  apply Forall_cons in Hc. destruct Hc as [[ma Ha] Hc].
  apply Forall_cons in Hc. destruct Hc as [[mc Hcl] Hc].
  apply Forall_cons in Hc. destruct Hc as [[mcc Hcc] _].
  rewrite Hcall in Ha, Hcl, Hcc.
  apply flux_variable in Ha, Hcl, Hcc.
  destruct Ha as (r & d & s1 & v1 & Hr & Hdir & S1 & V1).
  destruct Hcl as (r2 & d2 & s2 & v2 & Hr2 & Hdir2 & S2 & V2).
  destruct Hcc as (r3 & d3 & s3 & v3 & Hr3 & Hdir3 & S3 & V3).
  assert (r2 = r) by congruence. assert (r3 = r) by congruence.
  assert (d2 = d) by congruence. assert (d3 = d) by congruence. subst.
  vm_compute in S1, S2, S3. inversion S1. inversion S2. inversion S3. subst.
  exists r, d. split; [exact Hr|]. split; [exact Hdir|].
  repeat constructor; eauto.
Qed.

Lemma quad_maps_heating_variables (f f' : Fluxes A) (regime : string)
    (map_method : string) (out : list (string * DerivedMetric A)) :
  quad_maps f "heating_rate" regime None map_method = (OK out, f') ->
  dataset (base f') = dataset (base f) /\
  exists r,
    regimes regime = OK r /\
    Forall (fun s => exists v,
              lookup_variable (dataset (base f)) ("tntr" ++ r ++ s)%string = OK v)
           [""; "af"; "csaf"]%string.
Proof.
  intros Hq. destruct (quad_maps_needs _ _ _ _ _ _ _ Hq) as [Hd Hc].
  split; [exact Hd|].
  apply Forall_cons in Hc. destruct Hc as [[ma Ha] Hc].
  apply Forall_cons in Hc. destruct Hc as [[mc Hcl] Hc].
  apply Forall_cons in Hc. destruct Hc as [[mcc Hcc] _].
  change (heating_rate f regime "all" = OK ma) in Ha.
  change (heating_rate f regime "clean" = OK mc) in Hcl.
  change (heating_rate f regime "clean-clear" = OK mcc) in Hcc.
  apply heating_rate_variable in Ha, Hcl, Hcc.
  destruct Ha as (r & s1 & v1 & Hr & S1 & V1).
  destruct Hcl as (r2 & s2 & v2 & Hr2 & S2 & V2).
  destruct Hcc as (r3 & s3 & v3 & Hr3 & S3 & V3).
  assert (r2 = r) by congruence. assert (r3 = r) by congruence. subst.
  vm_compute in S1, S2, S3. inversion S1. inversion S2. inversion S3. subst.
  exists r. split; [exact Hr|]. repeat constructor; eauto.
Qed.

(** X24: [flux_figures] can only succeed on a file on which [Fluxes] can be
    built and which holds the upward and downward longwave and shortwave
    fluxes and the longwave and shortwave heating rates for the all,
    clean and clean-clear skies: eighteen variables. *)
Theorem flux_figures_needs (ds : Dataset A) (Hf : flux_figures ds = OK tt) :
  (exists self, Fluxes_init ds = OK self) /\
  Forall (fun name => exists v, lookup_variable ds name = OK v)
    ["rlu"; "rluaf"; "rlucsaf"; "rld"; "rldaf"; "rldcsaf";
     "rsu"; "rsuaf"; "rsucsaf"; "rsd"; "rsdaf"; "rsdcsaf";
     "tntrl"; "tntrlaf"; "tntrlcsaf"; "tntrs"; "tntrsaf"; "tntrscsaf"]%string.
Proof.
  unfold flux_figures in Hf. ok_step Hf self Hinit.
  split; [exists self; exact Hinit|].
  destruct (Fluxes_init_inv ds self Hinit) as (_ & _ & _ & Hds & _).
  destruct (flux_figures_on self) as [r f'] eqn:E. cbn [fst] in Hf.
  subst r. unfold flux_figures_on in E.
  apply and_then_ok in E. destruct E as (o1 & f1 & Q1 & E).
  apply and_then_ok in E. destruct E as (o2 & f2 & Q2 & E).
  apply and_then_ok in E. destruct E as (o3 & f3 & Q3 & E).
  apply and_then_ok in E. destruct E as (o4 & f4 & Q4 & E).
  apply and_then_ok in E. destruct E as (o5 & f5 & Q5 & E).
  apply and_then_ok in E. destruct E as ([] & f6 & Q6 & E).
  apply and_then_ok in E. destruct E as (o7 & f7 & Q7 & E).
  apply and_then_ok in E. destruct E as (o8 & f8 & Q8 & E).
  apply and_then_ok in E. destruct E as ([] & f9 & Q9 & E).
  apply and_then_ok in E. destruct E as (o10 & f10 & Q10 & E).
  apply and_then_ok in E. destruct E as (o11 & f11 & Q11 & _).
  apply (quad_maps_flux_variables _ _ _ _ "up") in Q1; [|reflexivity].
  apply (quad_maps_flux_variables _ _ _ _ "down") in Q2; [|reflexivity].
  apply (quad_maps_flux_variables _ _ _ _ "up") in Q3; [|reflexivity].
  apply (quad_maps_flux_variables _ _ _ _ "down") in Q4; [|reflexivity].
  apply quad_maps_needs in Q5, Q7, Q8.
  apply net_loop_frame in Q6, Q9.
  apply quad_maps_heating_variables in Q10, Q11.
  destruct Q1 as (D1 & r1 & d1 & R1 & Di1 & V1).
  destruct Q2 as (D2 & r2 & d2 & R2 & Di2 & V2).
  destruct Q3 as (D3 & r3 & d3 & R3 & Di3 & V3).
  destruct Q4 as (D4 & r4 & d4 & R4 & Di4 & V4).
  destruct Q5 as [D5 _]. destruct Q7 as [D7 _]. destruct Q8 as [D8 _].
  destruct Q10 as (D10 & r10 & R10 & V10).
  destruct Q11 as (D11 & r11 & R11 & V11).
  vm_compute in R1, R2, R3, R4, R10, R11, Di1, Di2, Di3, Di4.
  inversion R1. inversion R2. inversion R3. inversion R4.
  inversion R10. inversion R11.
  inversion Di1. inversion Di2. inversion Di3. inversion Di4.
  subst r1 r2 r3 r4 r10 r11 d1 d2 d3 d4.
  assert (E1 : dataset (base f1) = ds) by congruence.
  assert (E2 : dataset (base f2) = ds) by congruence.
  assert (E3 : dataset (base f3) = ds) by congruence.
  assert (E9 : dataset (base f9) = ds) by congruence.
  assert (E10 : dataset (base f10) = ds) by congruence.
  rewrite !Forall_cons in V1, V2, V3, V4, V10, V11.
  destruct V1 as (A1 & B1 & C1 & _), V2 as (A2 & B2 & C2 & _).
  destruct V3 as (A3 & B3 & C3 & _), V4 as (A4 & B4 & C4 & _).
  destruct V10 as (A10 & B10 & C10 & _), V11 as (A11 & B11 & C11 & _).
  rewrite Hds in A1, B1, C1. rewrite E1 in A2, B2, C2.
  rewrite E2 in A3, B3, C3. rewrite E3 in A4, B4, C4.
  rewrite E9 in A10, B10, C10. rewrite E10 in A11, B11, C11.
  repeat (apply Forall_cons; split; [assumption|]). constructor.
Qed.

End FluxFigures.

(** * The properties on the worked datasets *)

Lemma ex_metrics_init : MetricsDataset_init ex_dataset = OK ex_metrics.
Proof. vm_compute. reflexivity. Qed.

Lemma ex_fluxes_init : Fluxes_init ex_dataset = OK ex_fluxes.
Proof. vm_compute. reflexivity. Qed.

Lemma ex_dataset_wf : dataset_wf ex_dataset.
Proof. unfold dataset_wf. repeat constructor. Qed.


Lemma ex_quad_ok : ex_quad = (OK ex_quad_out, ex_quad.2).
Proof. vm_compute. reflexivity. Qed.


(** Without a time variable the constructor raises ValueError, and no
    exception of a class named ConfigurationError. *)
Lemma init_raises_ValueError :
  no_axis ex_no_time "t" /\
  MetricsDataset_init ex_no_time = Error (ValueError "no grid variables found.") /\
  ~ exists msg,
      MetricsDataset_init ex_no_time = Error (Raise "ConfigurationError" msg).
Proof.
  assert (Hi : MetricsDataset_init ex_no_time
               = Error (ValueError "no grid variables found."))
    by (vm_compute; reflexivity).
  split.
  - intros v Hin. simpl in Hin.
    destruct Hin as [<- | [<- | []]]; vm_compute; reflexivity.
  - split; [exact Hi|]. intros [msg Hmsg]. rewrite Hi in Hmsg. discriminate.
Qed.

(** The (3, 2, 2) field "ta" of [ex_dataset], averaged over time. *)
Lemma add_metric_average_witness :
  exists m,
    add_metric "ta mean" (SrcName "ta") "average" 0 ex_metrics
      = (OK tt, set_metric ex_metrics "ta mean" m) /\
    shape (data m) = [2; 2] /\ dimensions m = ["lat"; "lon"] /\
    get (data m) [1; 0] = ((3 + (7 + (11 + 0))) / 3)%R.
Proof.
  destruct (add_metric_average ex_metrics "ta mean" (SrcName "ta") 0
              (inl ex_ta.2) "K" 0)
    as (m & Ha & _ & _ & _ & _ & _ & _ & _ & Hget & Hshape);
    try reflexivity.
  exists m. split; [exact Ha|].
  destruct (Hshape "lat" "lon" eq_refl eq_refl) as [Hs Hd].
  split; [exact Hs|]. split; [exact Hd|].
  rewrite Hget.
  - reflexivity.
  - rewrite Hs. repeat constructor.
Defined.

(** The (4, 8) field of [ex_grid48] as a longitude-latitude map. *)
Lemma lon_lat_map_wraps_witness :
  exists map,
    lon_lat_map ex_grid48 "olr" = OK map /\
    shape (llm_data map) = [4; 9] /\
    get (llm_data map) [2; 8] = get (llm_data map) [2; 0] /\
    get (llm_data map) [2; 8] = INR 16 /\
    length (elems (llm_x_data map)) = 9.
Proof.
  destruct (lon_lat_map_wraps ex_grid48 "olr"
              (Build_DerivedMetric (NDArray [4; 8] (map INR (seq 0 32)))
                 ["lat"; "lon"] "W m-2") eq_refl) as (_ & _ & Hok).
  destruct (Hok 4 8 0%R [45; 90; 135; 180; 225; 270; 315]%R)
    as (map & Hm & Hs & _ & _ & Hwrap & Hx & _);
    try reflexivity; try lia.
  exists map. split; [exact Hm|]. split; [exact Hs|].
  destruct (Hwrap 2) as [H1 H2]; [lia|].
  split; [exact H1|]. split; [rewrite H2; reflexivity|].
  rewrite Hx. reflexivity.
Defined.

(** The four cases of the upward longwave fluxes of [ex_dataset], which
    are 10, 7 and 5 everywhere. *)
Lemma quad_maps_cases_witness :
  exists m1 m2 m3 m4,
    ex_quad_out = [("Clean-clear Sky", m1); ("Cloud Effects", m2);
                   ("Aerosol Effects", m3); ("All Sky", m4)] /\
    data m1 = full [3; 2; 2] 5%R /\ data m2 = full [3; 2; 2] 2%R /\
    data m3 = full [3; 2; 2] 3%R /\ data m4 = full [3; 2; 2] 10%R.
Proof.
  destruct (quad_maps_cases ex_fluxes ex_quad.2 "flux_up" "longwave"
              (Some "toa") "lon_lat_map" ex_quad_out ex_quad_ok)
    as (m1 & m2 & m3 & m4 & Hout & _ & _ & _ & _ & Hval).
  exists m1, m2, m3, m4. split; [exact Hout|].
  destruct (Hval [3; 2; 2] (ex_toa 10) (ex_toa 7) (ex_toa 5))
    as (H1 & H2 & H3 & H4 & _);
    try reflexivity; try (vm_compute; reflexivity).
  auto.
Defined.




(** The heating rate of [ex_dataset], whose tendency is in K s-1. *)
Lemma heating_rate_conversion_witness :
  heating_rate ex_fluxes "longwave" "all"
  = OK (Build_DerivedMetric
          (map_arr (fun x => x * 122400)%R (full [3; 2; 2; 2] 1%R))
          ex_dims4 "K day-1").
Proof.
  exact (proj1 (proj2
           (heating_rate_conversion ex_fluxes "longwave" "all" "l" "" "K s-1"
              (field "tntrl" ex_dims4 "K s-1" (full [3; 2; 2; 2] 1%R)).2
              eq_refl eq_refl eq_refl eq_refl))
         eq_refl).
Defined.

(** An instantaneous value of a metric whose time dimension comes second. *)
Lemma add_metric_rejects_witness :
  (exists msg,
     add_metric "late" (SrcMetric (Build_DerivedMetric
                          (full [2; 3] 1%R) ["lat"; "time"] "K"))
       "instantaneous" 0 ex_metrics
     = (Error (ValueError msg), ex_metrics)) /\
  metrics ex_metrics !! "late" = None.
Proof.
  destruct (add_metric_rejects ex_metrics "late"
              (SrcMetric (Build_DerivedMetric (full [2; 3] 1%R)
                            ["lat"; "time"] "K"))
              "instantaneous" 0
              (inr (Build_DerivedMetric (full [2; 3] 1%R) ["lat"; "time"] "K"))
              "K" eq_refl eq_refl) as (Hinst & _ & _).
  split; [|reflexivity].
  apply Hinst; [reflexivity|]. vm_compute. discriminate.
Defined.

(** The constructors on [ex_flat], which has no vertical coordinate. *)
Lemma Fluxes_init_needs_vertical_witness :
  no_axis ex_flat "z" /\
  (exists md, MetricsDataset_init ex_flat = OK md /\ vertical md = []) /\
  Fluxes_init ex_flat = Error (IndexError "list index out of range").
Proof.
  assert (Hno : no_axis ex_flat "z").
  { intros v Hin. simpl in Hin.
    destruct Hin as [<- | [<- | [<- | [<- | []]]]]; vm_compute; reflexivity. }
  destruct (Fluxes_init_needs_vertical ex_flat) as [_ Hflat].
  destruct (Hflat Hno) as (_ & Hmd & _).
  destruct (MetricsDataset_init ex_flat) as [md|e] eqn:Hi;
    [|vm_compute in Hi; discriminate].
  destruct (Hmd md eq_refl) as [Hv Hf].
  split; [exact Hno|]. split; [exists md; auto | exact Hf].
Defined.


(** [ex_flat] has the three required roles and no vertical one. *)
Lemma grid_and_init_roles_witness :
  no_axis ex_flat "z" /\
  exists md, MetricsDataset_init ex_flat = OK md /\ vertical md = [].
Proof.
  assert (Hz : no_axis ex_flat "z").
  { intros v Hin. simpl in Hin.
    destruct Hin as [<- | [<- | [<- | [<- | []]]]]; vm_compute; reflexivity. }
  split; [exact Hz|].
  destruct (grid_and_init_roles ex_flat) as (_ & _ & _ & Hacc).
  destruct Hacc as (md & Hi & Hv).
  - intros Hno. specialize (Hno ex_time.2). simpl in Hno.
    assert (Ht : is_axis "t" ex_time.2 = false) by (apply Hno; auto).
    vm_compute in Ht. discriminate.
  - intros Hno. specialize (Hno ex_lon.2). simpl in Hno.
    assert (Hx : is_axis "x" ex_lon.2 = false) by (apply Hno; auto).
    vm_compute in Hx. discriminate.
  - intros Hno. specialize (Hno ex_lat.2). simpl in Hno.
    assert (Hy : is_axis "y" ex_lat.2 = false) by (apply Hno; auto).
    vm_compute in Hy. discriminate.
  - exists md. split; [exact Hi | exact (Hv Hz)].
Defined.

(** ** More properties on the worked datasets *)

Lemma ex_cloud_figure_ok : cloud_amount_maps ex_clouds = OK ex_cloud_figure.
Proof. vm_compute. reflexivity. Qed.

Lemma ex_net_ok : ex_net = (OK tt, ex_net.2).
Proof. vm_compute. reflexivity. Qed.

Lemma ex_fluxes_file_ok : flux_figures ex_fluxes_file = OK tt.
Proof. vm_compute. reflexivity. Qed.

Lemma ex_flux_up_toa :
  flux ex_fluxes "longwave" "up" "all" (Some "toa"%string) = OK (ex_toa 10).
Proof. vm_compute. reflexivity. Qed.

Lemma ex_flux_down_toa :
  flux_down ex_fluxes "longwave" "all" (Some "toa"%string) = OK (ex_toa 10).
Proof. vm_compute. reflexivity. Qed.

Lemma zonal_mean_map_values_witness :
  exists zm,
    zonal_mean_map ex_profile "hr" = OK zm /\
    shape (zmm_data zm) = [2; 2] /\
    get (zmm_data zm) [1; 0] = ((5 + (6 + 0)) / 2)%R /\
    zmm_invert_y_axis zm = true /\ zmm_ylabel zm = "hPa"%string.
Proof.
  destruct (zonal_mean_map_values ex_profile "hr" "lev" "hPa" "down"
              ex_hr ex_lev.2 2 2 2 eq_refl eq_refl eq_refl eq_refl eq_refl
              eq_refl eq_refl)
    as (zm & H0 & H1 & H2 & _ & _ & H3 & _ & H4 & _).
  exists zm. split; [exact H0|]. split; [exact H1|].
  split; [rewrite H2 by lia; reflexivity|]. split; [exact H3 | exact H4].
Defined.

Lemma zonal_title_mean_weights_witness :
  exists zm x,
    zonal_mean_map ex_profile "hr" = OK zm /\
    title_mean (PlotZonalMean zm) = OK (Some x).
Proof.
  destruct (zonal_title_mean_weights ex_profile "hr" "lev" "hPa" "down"
              ex_hr ex_lev.2 2 2 2 eq_refl eq_refl eq_refl eq_refl eq_refl
              eq_refl eq_refl eq_refl eq_refl)
    as (zm & H0 & H1).
  exists zm. eexists. split; [exact H0 | exact H1].
Defined.

Lemma global_mean_vertical_plot_profile_witness :
  exists gp,
    global_mean_vertical_plot ex_profile "hr" = OK gp /\
    gmp_data gp = ex_lev.2.(var_data) /\ gmp_ylabel gp = "hPa"%string /\
    gmp_xlabel gp = "K day-1"%string /\ shape (gmp_x_data gp) = [2].
Proof.
  destruct (global_mean_vertical_plot_profile ex_profile "hr" "lev" "hPa"
              ex_hr ex_lev.2 2 2 2 eq_refl eq_refl eq_refl eq_refl
              eq_refl eq_refl eq_refl eq_refl)
    as (gp & H0 & H1 & H2 & H3 & _ & H4 & _).
  exists gp. auto.
Defined.

Lemma global_mean_by_index_witness :
  exists g,
    global_mean (NDArray [2; 1; 2] [1; 3; 5; 7]%R) (NDArray [1] [0%R]) = OK g /\
    shape g = [2] /\
    get g [1]
    = (((5 + (7 + 0)) / INR 2 * cos (2 * PI * 0 / 360) + 0)
       / (cos (2 * PI * 0 / 360) + 0))%R.
Proof.
  destruct (global_mean_by_index [2] 1 2 (NDArray [2; 1; 2] [1; 3; 5; 7]%R)
              (NDArray [1] [0%R]) eq_refl eq_refl eq_refl eq_refl)
    as (g & H0 & H1 & H2).
  exists g. split; [exact H0|]. split; [exact H1|].
  rewrite H2 by (repeat constructor). reflexivity.
Defined.

Lemma MetricsDataset_init_first_witness :
  exists l, List.filter (is_axis "t") (values ex_dataset) = time ex_metrics :: l.
Proof.
  exact (proj1 (proj2 (proj2
           (MetricsDataset_init_first ex_dataset ex_metrics ex_metrics_init)))).
Defined.

Lemma add_metric_instantaneous_witness :
  exists m,
    add_metric "ta last" (SrcName "ta") "instantaneous" (-1) ex_metrics
      = (OK tt, set_metric ex_metrics "ta last" m) /\
    shape (data m) = [2; 2] /\ get (data m) [1; 0] = 11%R.
Proof.
  destruct (add_metric_instantaneous ex_metrics "ta last" (SrcName "ta") (-1)
              (inl ex_ta.2) "K" 3 [2; 2] eq_refl eq_refl eq_refl eq_refl eq_refl)
    as [Hin _].
  destruct Hin as (m & H0 & H1 & _ & _ & H2); [lia|].
  exists m. split; [exact H0|]. split; [exact H1|].
  rewrite H2 by (repeat constructor). reflexivity.
Defined.

Lemma flux_picks_level_witness :
  exists var,
    lookup_variable ex_dataset "rlu" = OK var /\
    get (data (ex_toa 10)) [2; 1; 0] = get (var_data var) [2; 0; 1; 0].
Proof.
  destruct (flux_picks_level ex_dataset ex_fluxes "longwave" "up" "all" "toa"
              (ex_toa 10) ex_fluxes_init ex_dataset_wf (or_introl eq_refl)
              ex_flux_up_toa)
    as (v0 & rest & positive & r & d & c & var & nt & nz & s
        & Hv & Hp & Hr & Hd & Hc & Hvar & Hs & Hnz & Hm & Hget).
  vm_compute in Hr, Hd, Hc. inversion Hr; inversion Hd; inversion Hc.
  subst r d c.
  vm_compute in Hv. inversion Hv; subst v0 rest.
  vm_compute in Hp. inversion Hp; subst positive.
  exists var. split; [exact Hvar|].
  cbn [data ex_toa full shape] in Hm. inversion Hm; subst nt s.
  rewrite Hget by (repeat constructor). reflexivity.
Defined.

Lemma toa_energy_balance_values_witness :
  exists m,
    toa_energy_balance ex_fluxes "longwave" "all" = OK m /\
    get (data m) [0; 0; 0] = (10 - 10)%R.
Proof.
  destruct (toa_energy_balance_values ex_fluxes "longwave" "all"
              (ex_toa 10) (ex_toa 10) ex_dataset_wf ex_flux_up_toa
              ex_flux_down_toa eq_refl)
    as (m & H0 & _ & _ & _ & H1).
  exists m. split; [exact H0|].
  rewrite H1 by (repeat constructor). reflexivity.
Defined.

Lemma quad_maps_first_three_sum_witness :
  exists m1 m2 m3 m4,
    ex_quad_out = [("Clean-clear Sky", m1); ("Cloud Effects", m2);
                   ("Aerosol Effects", m3); ("All Sky", m4)]%string /\
    (get (data m1) [0; 1; 1]%nat + get (data m2) [0; 1; 1]%nat
     + get (data m3) [0; 1; 1]%nat)%R
    = get (data m4) [0; 1; 1].
Proof.
  destruct (quad_maps_first_three_sum ex_fluxes ex_quad.2 "flux_up" "longwave"
              (Some "toa"%string) "lon_lat_map" ex_quad_out
              (ex_toa 10) (ex_toa 7) (ex_toa 5) ex_quad_ok)
    as (m1 & m2 & m3 & m4 & Hout & Hsum);
    try (vm_compute; reflexivity).
  exists m1, m2, m3, m4. split; [exact Hout | apply Hsum].
Defined.

Lemma quad_maps_registers_witness :
  exists a4,
    metrics (base ex_quad.2) !! "all flux up"%string = Some a4 /\
    dataset (base ex_quad.2) = ex_dataset.
Proof.
  destruct (@quad_maps_registers R Num_R ex_fluxes ex_quad.2 "flux_up" "longwave"
              (Some "toa"%string) "lon_lat_map" ex_quad_out ex_quad_ok)
    as (m1 & m2 & m3 & m4 & a1 & a2 & a4 & _ & _ & _ & _ & Hm & Hd & _).
  exists a4. split; [|exact Hd].
  rewrite Hm. apply lookup_insert_eq.
Defined.

Lemma net_maps_registers_witness :
  exists a4,
    metrics (base ex_net.2) !! "all net"%string = Some a4 /\
    dataset (base ex_net.2) = dataset (base ex_quad.2).
Proof.
  destruct (@net_maps_registers R Num_R ex_quad.2 ex_net.2 ex_quad_out ex_quad_out
              "lon_lat_map" ex_net_ok)
    as (_ & n1 & n2 & n4 & a1 & a2 & a4 & _ & _ & _ & _ & _ & _ & Hm & Hd & _).
  exists a4. split; [|exact Hd].
  rewrite Hm. apply lookup_insert_eq.
Defined.

Lemma store_plot_cell_witness :
  exists self',
    store_plot (Figure_init 2 2) 3 7 = OK self' /\ cell self' 1 0 = Some 7.
Proof.
  destruct (store_plot_cell (@Figure_init nat 2 2) 3 7 (Figure_init_wf 2 2))
    as (self' & x & y & H0 & H1 & _ & _ & _ & H2 & _); [simpl; lia|].
  vm_compute in H1. inversion H1; subst x y.
  exists self'. split; [exact H0 | exact H2].
Defined.

Lemma cloud_amount_maps_fills_witness :
  exists m1 m2 m3 m4,
    fig_plot ex_cloud_figure
    = [[Some {| panel_map := PlotLonLat m1;
                panel_title := "High Cloud Amount";
                panel_range := Some (0, 1)%Z; panel_inverted := false |};
        Some {| panel_map := PlotLonLat m2;
                panel_title := "Mid Cloud Amount";
                panel_range := Some (0, 1)%Z; panel_inverted := false |}];
       [Some {| panel_map := PlotLonLat m3;
                panel_title := "Low Cloud Amount";
                panel_range := Some (0, 1)%Z; panel_inverted := false |};
        Some {| panel_map := PlotLonLat m4;
                panel_title := "Total Cloud Amount";
                panel_range := Some (0, 1)%Z; panel_inverted := false |}]].
Proof.
  destruct (cloud_amount_maps_fills ex_clouds ex_cloud_figure ex_cloud_figure_ok)
    as (md & m1 & m2 & m3 & m4 & _ & _ & Hfig).
  exists m1, m2, m3, m4. rewrite Hfig. reflexivity.
Defined.

Lemma aerosol_maps_strips_characters_witness :
  (exists v, lookup_variable ex_aerosols "bc" = OK v) /\
  aerosol_maps ex_aerosols = Error (KeyError "b").
Proof.
  split; [eexists; vm_compute; reflexivity|].
  destruct (MetricsDataset_init ex_aerosols) as [md|e] eqn:Hi;
    [|vm_compute in Hi; discriminate].
  apply (aerosol_maps_strips_characters ex_aerosols md "bc_col" [] Hi eq_refl).
  intros v Hv. vm_compute in Hv. discriminate.
Defined.

Lemma lon_lat_title_mean_wraps_witness :
  exists llm x,
    lon_lat_map ex_grid48 "olr" = OK llm /\
    title_mean (PlotLonLat llm) = OK (Some x).
Proof.
  destruct (lon_lat_title_mean_wraps ex_grid48 "olr"
              (Build_DerivedMetric (NDArray [4; 8] (map INR (seq 0 32)))
                 ["lat"; "lon"] "W m-2")
              4 8 0%R [45; 90; 135; 180; 225; 270; 315]%R
              eq_refl eq_refl eq_refl ltac:(lia) eq_refl eq_refl eq_refl eq_refl)
    as (llm & H0 & H1).
  exists llm. eexists. split; [exact H0 | exact H1].
Defined.

Lemma flux_figures_needs_witness :
  exists v, lookup_variable ex_fluxes_file "tntrscsaf" = OK v.
Proof.
  destruct (flux_figures_needs ex_fluxes_file ex_fluxes_file_ok) as [_ Hall].
  rewrite Forall_forall in Hall. apply Hall.
  repeat constructor.
Defined.
